(** * ElectricityLCI: record combination, key fill and interchange serializer

    A shallow embedding of [electricitylci/olca_jsonld_writer.py] and
    [electricitylci/combinator.py], followed by the properties of the
    specification that were checked against it.

    Conventions of the embedding.
    - A Python [str] is a [string] whose characters are read as the code
      points U+0000..U+00FF; [isspace] and [lower] follow the interpreter on
      that range.
    - A pandas frame is its list of column labels and its list of rows in
      positional order; a cell that holds NaN/None is an absent key of the
      row.  Rows are identified by their position: the frames that reach
      [fill_nans] are built with [ignore_index=True].
    - A number is a finite binary64 value, written as the rational it
      denotes ([Qc]); infinities are outside the modelled range, and a bool
      is the number 0 or 1, to which it is equal in Python.  The operations
      that round (a quotient, a product, the sum and the mean of a group)
      are not exact on rationals: they are the operations of the
      interpreter and of pandas, gathered in the class [Library];
      [Binary64] gives them by IEEE 754 rounding for the examples.
    - A frame carries no column types; what [merge] decides from the types
      of its key columns is part of [Library] as well.
    - Tables and functions of other packages (the EIA-860 table, the
      balancing authority codes, the flow mapping, [uuid3]) are parameters.
    - Code that can raise returns a [Result]. *)

From Stdlib Require Import ZArith QArith Qcanon String Ascii List Lia Bool.
From Stdlib Require Import SpecFloat.
From stdpp Require Import base option list gmap strings sorting.

Set Warnings "-register-all".

(** ** Results of code that can raise *)

Inductive Exn := KeyError | TypeError | ValueError.

Inductive Result (A : Type) :=
| Ok (a : A)
| Raise (e : Exn).
Arguments Ok {A} a.
Arguments Raise {A} e.

#[global] Instance Result_ret : MRet Result := fun _ a => Ok a.

#[global] Instance Result_bind : MBind Result := fun _ _ k r =>
  match r with
  | Ok a => k a
  | Raise e => Raise e
  end.

(** ** Python string methods *)

Module Py.

Definition isspace (c : ascii) : bool :=
  let n := N_of_ascii c in
  (((9 <=? n) && (n <=? 13)) || ((28 <=? n) && (n <=? 32))
   || (n =? 133) || (n =? 160))%N.

Definition lower_char (c : ascii) : ascii :=
  let n := N_of_ascii c in
  if (((65 <=? n) && (n <=? 90))
      || ((192 <=? n) && (n <=? 222) && negb (n =? 215)))%N
  then ascii_of_N (n + 32) else c.

(** Upper-casing maps U+00DF to two characters; U+00B5 and U+00FF, whose
    upper-case forms lie outside the modelled range, are left as they are. *)
Definition upper_char (c : ascii) : string :=
  let n := N_of_ascii c in
  if (((97 <=? n) && (n <=? 122))
      || ((224 <=? n) && (n <=? 254) && negb (n =? 247)))%N
  then String (ascii_of_N (n - 32)) EmptyString
  else if (n =? 223)%N then "SS"
  else String c EmptyString.

Fixpoint lower (s : string) : string :=
  match s with
  | EmptyString => EmptyString
  | String c r => String (lower_char c) (lower r)
  end.

Fixpoint upper (s : string) : string :=
  match s with
  | EmptyString => EmptyString
  | String c r => upper_char c +:+ upper r
  end.

Fixpoint lstrip (s : string) : string :=
  match s with
  | EmptyString => EmptyString
  | String c r => if isspace c then lstrip r else s
  end.

Fixpoint rstrip (s : string) : string :=
  match s with
  | EmptyString => EmptyString
  | String c r =>
      match rstrip r with
      | EmptyString => if isspace c then EmptyString else String c EmptyString
      | r' => String c r'
      end
  end.

Definition strip (s : string) : string := rstrip (lstrip s).

(** [s.split(sep)] for a one-character separator. *)
Fixpoint split (sep : ascii) (s : string) : list string :=
  match s with
  | EmptyString => [EmptyString]
  | String c r =>
      if Ascii.eqb c sep then EmptyString :: split sep r
      else match split sep r with
           | h :: t => String c h :: t
           | [] => [String c EmptyString]
           end
  end.

(** [sep.join(l)] *)
Fixpoint join (sep : string) (l : list string) : string :=
  match l with
  | [] => EmptyString
  | [x] => x
  | x :: r => x +:+ sep +:+ join sep r
  end.

(** [sub in s] *)
Fixpoint prefix_of (p s : string) : bool :=
  match p, s with
  | EmptyString, _ => true
  | String a p', String b s' => Ascii.eqb a b && prefix_of p' s'
  | String _ _, EmptyString => false
  end.

Fixpoint contains (sub s : string) : bool :=
  prefix_of sub s ||
  match s with
  | EmptyString => false
  | String _ r => contains sub r
  end.

(** Every character is white space (so also the empty string). *)
Fixpoint all_space (s : string) : bool :=
  match s with
  | EmptyString => true
  | String c r => isspace c && all_space r
  end.

End Py.

(** ** olca_jsonld_writer.py *)

Module Writer.

(** [olca.ModelType] is an [Enum] of the olca package: a member is its
    name, [str(member)] is ["ModelType.<name>"] and [member.value] is the
    name. *)
Record ModelType := { value : string }.

Definition PROCESS : ModelType := {| value := "PROCESS" |}.

(** The Python objects that reach the writer. *)
Inductive pyobj :=
| PNone
| PBool (b : bool)
| PInt (z : Z)
| PFloat (q : Q)
| PStr (s : string)
| PList (l : list pyobj)
| PDict (d : list (string * pyobj))
| PModelType (m : ModelType).

Record Ref := {
  ref_type : string;
  ref_id : string;
  ref_name : pyobj;
  ref_category_path : option (list string)
}.

(** [olca.ref(cls, id, name)] *)
Definition ref (cls : string) (uid : string) (name : pyobj) : Ref :=
  {| ref_type := cls; ref_id := uid; ref_name := name;
     ref_category_path := None |}.

Definition set_category_path (r : Ref) (p : list string) : Ref :=
  {| ref_type := ref_type r; ref_id := ref_id r; ref_name := ref_name r;
     ref_category_path := Some p |}.

Record Category := {
  c_id : string;
  c_model_type : ModelType;
  c_name : string;
  c_category : option Ref
}.

Record Exchange := {
  e_input : pyobj;
  e_quantitative_reference : pyobj;
  e_avoided_product : pyobj;
  e_amount : pyobj;
  e_unit : option Ref;
  e_flow_property : option Ref;
  e_internal_id : Z
}.

Record Process := {
  p_name : pyobj;
  p_id : string;
  p_category : option Ref;
  p_exchanges : list Exchange
}.

(** What [pack.Writer.write] received, in order. *)
Inductive Entity :=
| ECategory (c : Category)
| EProcess (p : Process).

Definition Archive := list Entity.

(** [d.get(p)] on a dict whose keys are distinct. *)
Fixpoint dict_get (d : list (string * pyobj)) (p : string) : pyobj :=
  match d with
  | [] => PNone
  | (k, v) :: r => if String.eqb k p then v else dict_get r p
  end.

(** The loop of [_val]: [None] is the early [return None]. *)
Fixpoint _val_walk (v : pyobj) (path : list string) : option pyobj :=
  match path with
  | [] => Some v
  | p :: rest =>
      match v with
      | PDict d => _val_walk (dict_get d p) rest
      | _ => None
      end
  end.

Definition _val (d : pyobj) (path : list string) (default : option pyobj)
  : pyobj :=
  match d with
  | PNone => PNone
  | _ =>
      match _val_walk d path with
      | None => PNone
      | Some PNone => match default with Some dv => dv | None => PNone end
      | Some v => v
      end
  end.

(** [for e in v]: the items, or [None] when [v] is not iterable. *)
Fixpoint chars (s : string) : list pyobj :=
  match s with
  | EmptyString => []
  | String c r => PStr (String c EmptyString) :: chars r
  end.

Definition py_iter (v : pyobj) : option (list pyobj) :=
  match v with
  | PList l => Some l
  | PStr s => Some (chars s)
  | PDict d => Some ((fun kv => PStr kv.1) <$> d)
  | _ => None
  end.

Section Externals.

(** [str(uuid.uuid3(uuid.NAMESPACE_OID, path))] of the standard library. *)
Variable uuid3_oid : string -> string.
(** [repr] of the interpreter, used by [str] on objects that are not [str]. *)
Variable repr : pyobj -> string.

Definition py_str (v : pyobj) : string :=
  match v with
  | PStr s => s
  | PModelType m => "ModelType." +:+ value m
  | _ => repr v
  end.

Definition _uid (args : list pyobj) : string :=
  let path := Py.lower (Py.join "/" ((fun arg => Py.strip (py_str arg)) <$> args)) in
  uuid3_oid path.

Definition _unit (unit_name : pyobj) : option Ref :=
  let ref_id :=
    match unit_name with
    | PStr "MWh" => Some "92e3bd49-8ed5-4885-9db6-fc88c7afcfcb"
    | PStr "MJ" => Some "52765a6c-3896-43c2-b2f4-c679acf13efe"
    | PStr "kg" => Some "20aadc24-a391-41cf-b340-3e4529f44bde"
    | _ => None
    end in
  match ref_id with
  | None => None
  | Some i => Some (ref "Unit" i unit_name)
  end.

Definition _flow_property (unit_name : pyobj) : option Ref :=
  match unit_name with
  | PStr "MWh" =>
      Some (ref "FlowProperty" "f6811440-ee37-11de-8a39-0800200c9a66" (PStr "Energy"))
  | PStr "MJ" =>
      Some (ref "FlowProperty" "f6811440-ee37-11de-8a39-0800200c9a66" (PStr "Energy"))
  | PStr "kg" =>
      Some (ref "FlowProperty" "93a60a56-a3c8-11da-a746-0800200b9a66" (PStr "Mass"))
  | _ => None
  end.

(** [_exchange]; [internal_id] is set by the caller. *)
Definition _exchange (d : pyobj) : option Exchange :=
  match d with
  | PNone => None
  | _ =>
      let unit_name := _val d ["unit"; "name"] None in
      Some {| e_input := _val d ["input"] (Some (PBool false));
              e_quantitative_reference :=
                _val d ["quantitativeReference"] (Some (PBool false));
              e_avoided_product := _val d ["avoidedProduct"] (Some (PBool false));
              e_amount := _val d ["amount"] (Some (PFloat 0));
              e_unit := _unit unit_name;
              e_flow_property := _flow_property unit_name;
              e_internal_id := 0 |}
  end.

Definition set_internal_id (e : Exchange) (i : Z) : Exchange :=
  {| e_input := e_input e;
     e_quantitative_reference := e_quantitative_reference e;
     e_avoided_product := e_avoided_product e;
     e_amount := e_amount e;
     e_unit := e_unit e;
     e_flow_property := e_flow_property e;
     e_internal_id := i |}.

(** The state of one run of [write]: the archive and [created_ids]. *)
Definition State : Type := Archive * gset string.

(** The body of the [for i in range(0, len(parts))] loop of [_category];
    [done] is [parts[0:i]] and the head of [todo] is [parts[i]]. *)
Fixpoint _category_loop (mtype : ModelType) (done todo : list string)
    (parent : option Ref) (st : State) : option Ref * State :=
  match todo with
  | [] => (parent, st)
  | part :: todo' =>
      let uid_path := value mtype :: (done ++ [part]) in
      let uid := _uid (PStr <$> uid_path) in
      let name := Py.strip part in
      let st' :=
        if decide (uid ∈ st.2) then st
        else (st.1 ++ [ECategory {| c_id := uid; c_model_type := mtype;
                                    c_name := name; c_category := parent |}],
              st.2 ∪ {[uid]}) in
      let parent' :=
        set_category_path (ref "Category" uid (PStr name)) (done ++ [part]) in
      _category_loop mtype (done ++ [part]) todo' (Some parent') st'
  end.

Definition _category (path : pyobj) (mtype : ModelType) (st : State)
  : option Ref * State :=
  match path with
  | PStr s =>
      if String.eqb (Py.strip s) "" then (None, st)
      else _category_loop mtype [] (Py.split "/" s) None st
  | _ => (None, st)
  end.

(** The inner loop of [write] over the exchanges; [last_id] is threaded. *)
Fixpoint exchanges_loop (es : list pyobj) (last_id : Z) : list Exchange :=
  match es with
  | [] => []
  | e :: rest =>
      match _exchange e with
      | Some exchange =>
          set_internal_id exchange (last_id + 1)
            :: exchanges_loop rest (last_id + 1)
      | None => exchanges_loop rest last_id
      end
  end.

(** One iteration of [for d in processes.values()]. *)
Definition write_process (d : pyobj) (st : State) : Result State :=
  let name := _val d ["name"] None in
  let category_path := _val d ["category"] None in
  let id := _uid [PModelType PROCESS; category_path; name] in
  let '(category, st1) := _category category_path PROCESS st in
  match py_iter (_val d ["exchanges"] (Some (PList []))) with
  | None => Raise TypeError
  | Some es =>
      Ok (st1.1 ++ [EProcess {| p_name := name; p_id := id;
                                p_category := category;
                                p_exchanges := exchanges_loop es 0 |}],
          st1.2)
  end.

Fixpoint write_loop (ds : list pyobj) (st : State) : Result State :=
  match ds with
  | [] => Ok st
  | d :: rest => st' ← write_process d st; write_loop rest st'
  end.

(** [write(processes, file_path)]: the archive written at [file_path]. *)
Definition write (processes : list (string * pyobj)) : Result Archive :=
  st ← write_loop (processes.*2) ([], ∅); Ok st.1.

End Externals.

End Writer.

(** ** The part of pandas that combinator.py uses *)

Module Pandas.

Inductive val :=
| VStr (s : string)
| VNum (q : Qc).

#[global] Instance val_eq_dec : EqDecision val.
Proof. solve_decision. Defined.

#[global] Instance val_countable : Countable val :=
  inj_countable'
    (fun v => match v with VStr s => inl s | VNum q => inr q end)
    (fun x => match x with inl s => VStr s | inr q => VNum q end)
    (fun v => match v with VStr _ => eq_refl | VNum _ => eq_refl end).

(** A row maps a column label to its cell; a NaN cell is an absent label. *)
Abbreviation Row := (gmap string val).

Record DataFrame := {
  columns : list string;
  rows : list (gmap string val)
}.

Definition has_column (df : DataFrame) (c : string) : bool :=
  bool_decide (c ∈ columns df).

Definition has_columns (df : DataFrame) (cs : list string) : bool :=
  forallb (has_column df) cs.

(** What the embedding takes from the interpreter and from pandas as given.
    - [float_div a b] and [float_mul a b] are [a / b] and [a * b] on two
      floats: the exact result rounded to binary64.
    - [group_sum qs] and [group_mean qs] are the ["sum"] and the ["mean"] of
      [groupby(...).agg] over the cells [qs] of one group that are not NaN,
      in row order; the order of the additions and their rounding differ
      between versions of pandas (compensated summation since 1.2).
    - [merge_keys_agree left right left_on right_on] tells whether [merge]
      accepts the types of the key columns: it raises [ValueError] for a
      column of strings against a numeric one, which it decides from the
      dtypes of the two frames. *)
Class Library := {
  float_div : Qc -> Qc -> Qc;
  float_mul : Qc -> Qc -> Qc;
  group_sum : list Qc -> Qc;
  group_mean : list Qc -> Qc;
  merge_keys_agree : DataFrame -> DataFrame -> list string -> list string -> bool
}.

Definition set_cell (c : string) (o : option val) (r : Row) : Row :=
  match o with
  | Some v => <[c:=v]> r
  | None => delete c r
  end.

Definition add_column (c : string) (cols : list string) : list string :=
  if bool_decide (c ∈ cols) then cols else cols ++ [c].

(** [df[c] = f(row)] *)
Definition assign (c : string) (f : Row -> option val) (df : DataFrame)
  : DataFrame :=
  {| columns := add_column c (columns df);
     rows := (fun r => set_cell c (f r) r) <$> rows df |}.

(** [df.loc[mask, c] = f(row)]; the column is created when it is new. *)
Definition assign_where (mask : Row -> bool) (c : string)
    (f : Row -> option val) (df : DataFrame) : DataFrame :=
  {| columns := add_column c (columns df);
     rows := (fun r => if mask r then set_cell c (f r) r else r) <$> rows df |}.

(** [df[dst] = df[src].map(f)] *)
Definition map_column (src dst : string) (f : val -> option val)
    (df : DataFrame) : Result DataFrame :=
  if has_column df src
  then Ok (assign dst (fun r => r !! src ≫= f) df)
  else Raise KeyError.

(** The [.str] methods give NaN on a cell that is not a string. *)
Definition str_method (f : string -> string) (v : val) : option val :=
  match v with
  | VStr s => Some (VStr (f s))
  | VNum _ => None
  end.

Definition cells (cs : list string) (r : Row) : list (option val) :=
  (fun c => r !! c) <$> cs.

Definition complete (subset : list string) (r : Row) : bool :=
  forallb (fun c => bool_decide (is_Some (r !! c))) subset.

(** [df.dropna(subset=...)] *)
Definition dropna (subset : list string) (df : DataFrame) : Result DataFrame :=
  if has_columns df subset
  then Ok {| columns := columns df;
             rows := filter (fun r => complete subset r) (rows df) |}
  else Raise KeyError.

(** Keep the first element of every key. *)
Fixpoint first_by {A K : Type} `{EqDecision K} (key : A -> K)
    (seen : list K) (l : list A) : list A :=
  match l with
  | [] => []
  | x :: rest =>
      if bool_decide (key x ∈ seen) then first_by key seen rest
      else x :: first_by key (key x :: seen) rest
  end.

(** [df.drop_duplicates(subset=...)], NaN cells compare equal. *)
Definition drop_duplicates (subset : list string) (df : DataFrame)
  : Result DataFrame :=
  if has_columns df subset
  then Ok {| columns := columns df;
             rows := first_by (cells subset) [] (rows df) |}
  else Raise KeyError.

Definition restrict (cs : list string) (r : Row) : Row :=
  filter (fun kv => kv.1 ∈ cs) r.

(** [df[[c1, ..., cn]]] *)
Definition select (cs : list string) (df : DataFrame) : Result DataFrame :=
  if has_columns df cs
  then Ok {| columns := cs; rows := restrict cs <$> rows df |}
  else Raise KeyError.

(** [df.drop(columns=[c])] *)
Definition drop_column (c : string) (df : DataFrame) : Result DataFrame :=
  if has_column df c
  then Ok {| columns := filter (fun x => x ≠ c) (columns df);
             rows := delete c <$> rows df |}
  else Raise KeyError.

(** [df.rename(columns=...)], the dict given as a function on labels. *)
Definition rename (f : string -> string) (df : DataFrame) : DataFrame :=
  {| columns := f <$> columns df;
     rows := (fun r : Row => (kmap f r : Row)) <$> rows df |}.

Definition union_columns (a b : list string) : list string :=
  a ++ filter (fun c => c ∉ a) b.

(** [pd.concat(dfs, ignore_index=True)] *)
Definition concat (dfs : list DataFrame) : Result DataFrame :=
  match dfs with
  | [] => Raise ValueError
  | _ => Ok {| columns := foldl union_columns [] (columns <$> dfs);
               rows := mjoin (rows <$> dfs) |}
  end.

(** [left.merge(right, left_on=..., right_on=..., how="left")] for key
    labels that differ on the two sides, as in both calls of the module.
    The key labels are looked up first ([KeyError]), then the types of the
    key columns are compared ([ValueError]).  The result has every left row
    in order, once per matching right row in right order (NaN keys match
    NaN keys), or once with no right cells; a label on both sides gets the
    suffixes [_x] and [_y]. *)
Definition merge_left `{Library} (left right : DataFrame)
    (left_on right_on : list string) : Result DataFrame :=
  if has_columns left left_on && has_columns right right_on then
    if merge_keys_agree left right left_on right_on then
      let lname c := if bool_decide (c ∈ columns right) then c +:+ "_x" else c in
      let rname c := if bool_decide (c ∈ columns left) then c +:+ "_y" else c in
      let out (l : Row) : list Row :=
        let l' : Row := kmap lname l in
        match filter (fun r => cells right_on r = cells left_on l) (rows right) with
        | [] => [l']
        | ms => (fun r : Row => l' ∪ (kmap rname r : Row)) <$> ms
        end in
      Ok {| columns := (lname <$> columns left) ++ (rname <$> columns right);
            rows := rows left ≫= out |}
    else Raise ValueError
  else Raise KeyError.

(** The order in which [groupby] lists its keys: numbers by value, strings
    by code point, a number before a string. *)
Definition val_leb (a b : val) : bool :=
  match a, b with
  | VNum x, VNum y => Qle_bool x y
  | VNum _, VStr _ => true
  | VStr _, VNum _ => false
  | VStr s, VStr t => String.leb s t
  end.

Fixpoint key_leb (a b : list val) : bool :=
  match a, b with
  | [], _ => true
  | _ :: _, [] => false
  | x :: a', y :: b' =>
      if bool_decide (x = y) then key_leb a' b' else val_leb x y
  end.

Definition sort_keys (l : list (list val)) : list (list val) :=
  merge_sort (fun a b => key_leb a b) l.

(** The key of a row in [df.groupby(by)]; a row with a NaN key cell is in
    no group. *)
Definition group_key (by_ : list string) (r : Row) : option (list val) :=
  mapM (fun c => r !! c) by_.

(** The distinct group keys, in the sorted order of [groupby]. *)
Definition group_keys (by_ : list string) (rs : list Row) : list (list val) :=
  sort_keys (remove_dups (omap (group_key by_) rs)).

Definition group_members (by_ : list string) (k : list val) (rs : list Row)
  : list Row :=
  filter (fun r => group_key by_ r = Some k) rs.

Inductive AggFn := AggSum | AggMean.

(** The numbers of a column that take part in an aggregation: NaN is
    skipped; the columns are numeric, a string raises. *)
Fixpoint numbers (cs : list (option val)) : Result (list Qc) :=
  match cs with
  | [] => Ok []
  | None :: rest => numbers rest
  | Some (VNum q) :: rest => qs ← numbers rest; Ok (q :: qs)
  | Some (VStr _) :: rest => Raise TypeError
  end.

(** One aggregated cell of a group; the mean of no number is NaN. *)
Definition aggregate `{Library} (f : AggFn) (cs : list (option val))
  : Result (option val) :=
  qs ← numbers cs;
  Ok (match f, qs with
      | AggSum, _ => Some (VNum (group_sum qs))
      | AggMean, [] => None
      | AggMean, _ => Some (VNum (group_mean qs))
      end).

Definition set_cells (kvs : list (string * option val)) (r : Row) : Row :=
  foldr (fun kv acc => set_cell kv.1 kv.2 acc) r kvs.

(** One output row of [groupby(by, as_index=False).agg(spec)]. *)
Definition group_row `{Library} (by_ : list string) (spec : list (string * AggFn))
    (rs : list Row) (k : list val) : Result Row :=
  let members := group_members by_ k rs in
  aggs ← mapM (fun cf : string * AggFn =>
                 v ← aggregate cf.2 ((fun r : Row => r !! cf.1) <$> members);
                 Ok (cf.1, v)) spec;
  Ok (set_cells aggs (list_to_map (zip by_ k))).

Definition groupby_agg `{Library} (by_ : list string) (spec : list (string * AggFn))
    (df : DataFrame) : Result DataFrame :=
  if has_columns df (by_ ++ spec.*1) then
    rs ← mapM (group_row by_ spec (rows df)) (group_keys by_ (rows df));
    Ok {| columns := by_ ++ spec.*1; rows := rs |}
  else Raise KeyError.

(** [set(df.groupby(by).groups.keys())]: with two labels or more the keys
    are the tuples of the key cells of every row, NaN cells included; with
    one label the rows whose key is NaN are left out. *)
Definition groups_keys (by_ : list string) (df : DataFrame)
  : Result (gset (list (option val))) :=
  if has_columns df by_ then
    match by_ with
    | [] | [_] => Ok (list_to_set (filter (Forall is_Some) (cells by_ <$> rows df)))
    | _ => Ok (list_to_set (cells by_ <$> rows df))
    end
  else Raise KeyError.

(** [a < b] on two cells, [None] when Python raises [TypeError]: a string
    is ordered against strings only; a NaN cell is a float, and no float is
    below or above it. *)
Definition cell_ltb (a b : option val) : option bool :=
  match a, b with
  | Some (VStr s), Some (VStr t) => Some (String.ltb s t)
  | Some (VStr _), _ | _, Some (VStr _) => None
  | Some (VNum x), Some (VNum y) => Some (bool_decide (x < y)%Qc)
  | _, _ => Some false
  end.

(** [a < b] on two tuples: the first position at which they differ decides,
    and a proper prefix is below. *)
Fixpoint tuple_ltb (a b : list (option val)) : option bool :=
  match a, b with
  | _, [] => Some false
  | [], _ :: _ => Some true
  | x :: a', y :: b' =>
      if bool_decide (x = y) then tuple_ltb a' b' else cell_ltb x y
  end.

Definition comparable (l : list (list (option val))) : bool :=
  forallb (fun a => forallb (fun b => bool_decide (is_Some (tuple_ltb a b))) l) l.

(** [sorted(l)] on a list of distinct tuples: [TypeError] when two of them
    cannot be compared, else the list in ascending order.  Where two tuples
    differ first at a NaN against a number neither is below the other and
    the order Python gives them depends on the order of the input; the
    properties below do not speak about the order of such lists. *)
Definition sorted (l : list (list (option val)))
  : Result (list (list (option val))) :=
  if comparable l
  then Ok (merge_sort (fun a b => tuple_ltb b a ≠ Some true) l)
  else Raise TypeError.

End Pandas.

(** ** combinator.py *)

Module Combinator.
Import Pandas.

Definition default_target_columns : list string :=
  [ "Balancing Authority Code";
    "Balancing Authority Name";
    "FuelCategory";
    "NERC";
    "PercentGenerationfromDesignatedFuelCategory";
    "eGRID_ID";
    "Subregion";
    "FERC_Region";
    "EIA_Region";
    "State";
    "Electricity" ].

(** [df[[key_column, col]].dropna().drop_duplicates(subset=key_column)
    .set_index(key_column)[col]]: the index labels with their values. *)
Definition key_df (key_column col : string) (rs : list Row) : list (val * val) :=
  first_by fst []
    (omap (fun r : Row => k ← r !! key_column; v ← r !! col; Some (k, v)) rs).

(** The value of a series at an index label, NaN when the label is absent. *)
Fixpoint series_at (s : list (val * val)) (k : val) : option val :=
  match s with
  | [] => None
  | (i, v) :: rest => if bool_decide (i = k) then Some v else series_at rest k
  end.

(** One pass of the [for col in confirmed_target] loop. *)
Definition fill_column (key_column : string) (df : DataFrame) (col : string)
  : DataFrame :=
  let kd := key_df key_column col (rows df) in
  let fill (r : Row) : Row :=
    match r !! col with
    | None => set_cell col (r !! key_column ≫= series_at kd) r
    | Some _ => r
    end in
  {| columns := columns df; rows := fill <$> rows df |}.

(** [if not target_columns: target_columns = [...]] *)
Definition targets_or_default (target_columns : list string) : list string :=
  match target_columns with
  | [] => default_target_columns
  | _ => target_columns
  end.

Definition column_warning (x : string) : string :=
  "Column " +:+ x +:+ " is not in the dataframe".

Definition key_warning (key_column : string) : string :=
  "Key column '" +:+ key_column +:+ "' is not in the dataframe".

Section Externals.

(** [eia860_balancing_authority(eia_gen_year).set_index("Plant Id")["State"]],
    a table of the EIA-860 reader, looked up at a plant id. *)
Variable plant_ba_State : val -> option val.
(** The columns of [ba_codes], indexed by the balancing authority code. *)
Variable ba_codes_BA_Name : val -> option val.
Variable ba_codes_FERC_Region : val -> option val.
Variable ba_codes_EIA_Region : val -> option val.
(** [fedelemflowlist.get_flowmapping('eLCI')] *)
Variable flow_mapping_eLCI : DataFrame.
(** [electricitylci.model_config] *)
Variable eia_gen_year : Z.
Variable keep_mixed_plant_category : bool.
Variable min_plant_percent_generation_from_primary_fuel_category : Qc.

(** Lines 112-114: the fallback for the cells of "State" that are still NaN. *)
Definition state_fallback (df : DataFrame) : Result DataFrame :=
  if has_column df "eGRID_ID"
  then Ok (assign_where (fun r => bool_decide (r !! "State" = None)) "State"
             (fun r => r !! "eGRID_ID" ≫= plant_ba_State) df)
  else Raise KeyError.

(** [fill_nans]: the warnings it logs and what it returns or raises.  When
    [key_column] is itself one of the targets the selection
    [df[[key_column, col]]] has a repeated label; no caller does that and
    the properties below leave that case out. *)
Definition fill_nans (df : DataFrame) (key_column : string)
    (target_columns : list string) (dropna_ : bool)
  : list string * Result DataFrame :=
  let target_columns := targets_or_default target_columns in
  let confirmed_target := filter (fun x => x ∈ columns df) target_columns in
  let warnings :=
    column_warning <$> filter (fun x => x ∉ columns df) target_columns in
  if negb (has_column df key_column) then
    (warnings ++ [key_warning key_column], Raise KeyError)
  else
    let df := foldl (fill_column key_column) df confirmed_target in
    let '(df, confirmed_target) :=
      if negb (has_column df "State")
      then (assign "State" (fun _ => None) df, confirmed_target ++ ["State"])
      else (df, confirmed_target) in
    (warnings,
     df ← state_fallback df;
     if dropna_ then dropna confirmed_target df else Ok df).

Definition compartment_mapping (v : val) : option val :=
  match v with
  | VStr "air" => Some (VStr "emission/air")
  | VStr "water" => Some (VStr "emission/water")
  | VStr "ground" => Some (VStr "emission/ground")
  | VStr "soil" => Some (VStr "emission/ground")
  | VStr "resource" => Some (VStr "resource")
  | VStr "NETL database/emissions" => Some (VStr "NETL database/emissions")
  | VStr "NETL database/resources" => Some (VStr "NETL database/resources")
  | _ => None
  end.

Definition mapped_column_dict (c : string) : string :=
  if String.eqb c "TargetFlowName" then "FlowName"
  else if String.eqb c "TargetFlowUUID" then "FlowUUID"
  else if String.eqb c "TargetFlowContext" then "Compartment"
  else if String.eqb c "TargetUnit" then "Unit"
  else c.

Definition groupby_cols : list string :=
  [ "fuel_type";
    "stage_code";
    "FlowName";
    "Compartment";
    "input";
    "plant_id";
    "Compartment_path";
    "Unit";
    "FlowName_orig";
    "Compartment_path_orig";
    "Unit_orig" ].

(** An argument of [concat_map_upstream_databases]. *)
Inductive arg :=
| ADataFrame (df : DataFrame)
| AOther.

(** The body of [for df in arg]. *)
Definition with_compartment_path (df : DataFrame) : Result DataFrame :=
  if negb (has_column df "Compartment_path")
  then map_column "Compartment" "Compartment_path" compartment_mapping df
  else Ok df.

Fixpoint upstream_df_list (args : list arg) : Result (list DataFrame) :=
  match args with
  | [] => Ok []
  | ADataFrame df :: rest =>
      df' ← with_compartment_path df;
      dfs ← upstream_df_list rest;
      Ok (df' :: dfs)
  | AOther :: rest => upstream_df_list rest
  end.

(** [df[dst] = df[src]] *)
Definition copy_column (src dst : string) (df : DataFrame) : Result DataFrame :=
  map_column src dst Some df.

(** Lines 158-168: the concatenation of the arguments. *)
Definition upstream_df_concat (args : list arg) : Result DataFrame :=
  dfs ← upstream_df_list args;
  concat dfs.

(** Lines 170-171. *)
Definition flow_mapping_lowered : Result DataFrame :=
  map_column "SourceFlowName" "SourceFlowName" (str_method Py.lower)
    flow_mapping_eLCI.

(** Lines 174-199: the frame that is grouped. *)
Definition upstream_df_prepared (upstream_df : DataFrame) : Result DataFrame :=
  upstream_df ← copy_column "FlowName" "FlowName_orig" upstream_df;
  upstream_df ← copy_column "Compartment" "Compartment_orig" upstream_df;
  upstream_df ← copy_column "Compartment_path" "Compartment_path_orig" upstream_df;
  upstream_df ← copy_column "Unit" "Unit_orig" upstream_df;
  let normal := str_method (fun s => Py.rstrip (Py.lower s)) in
  upstream_df ← map_column "FlowName" "FlowName" normal upstream_df;
  upstream_df ← map_column "Compartment" "Compartment" normal upstream_df;
  upstream_df ← map_column "Compartment_path" "Compartment_path" normal upstream_df;
  Ok (assign_where (fun r => bool_decide (r !! "Unit" = None)) "Unit"
        (fun _ => Some (VStr "<blank>")) upstream_df).

(** Lines 201-208. *)
Definition upstream_df_grp `{Library} (upstream_df : DataFrame)
  : Result DataFrame :=
  if has_column upstream_df "Electricity"
  then groupby_agg groupby_cols
         [("FlowAmount", AggSum); ("quantity", AggMean); ("Electricity", AggMean)]
         upstream_df
  else groupby_agg groupby_cols
         [("FlowAmount", AggSum); ("quantity", AggMean)] upstream_df.

(** [a * b] on two cells of numeric columns. *)
Definition cell_mul `{Library} (a b : option val) : Result (option val) :=
  match a, b with
  | Some (VStr _), _ | _, Some (VStr _) => Raise TypeError
  | Some (VNum x), Some (VNum y) => Ok (Some (VNum (float_mul x y)))
  | _, _ => Ok None
  end.

(** Lines 232-234. *)
Definition apply_conversion `{Library} (df : DataFrame) : Result DataFrame :=
  if has_column df "FlowAmount" && has_column df "ConversionFactor" then
    rs ← mapM (fun r : Row =>
                 v ← cell_mul (r !! "FlowAmount") (r !! "ConversionFactor");
                 Ok (set_cell "FlowAmount" v r)) (rows df);
    Ok {| columns := columns df; rows := rs |}
  else Raise KeyError.

(** Lines 241-245: the mask of [str.contains] must not hold a NaN. *)
Definition prime_context (df : DataFrame) : Result DataFrame :=
  if has_column df "Compartment" then
    rs ← mapM (fun r : Row =>
                 match r !! "Compartment" with
                 | Some (VStr s) =>
                     Ok (<["ElementaryFlowPrimeContext" :=
                            VStr (if Py.contains "resource" s
                                  then "resource" else "emission")]> r)
                 | _ => Raise ValueError
                 end) (rows df);
    Ok {| columns := add_column "ElementaryFlowPrimeContext" (columns df);
          rows := rs |}
  else Raise KeyError.

Definition final_columns (upstream_columns : list string) : list string :=
  [ "plant_id";
    "FuelCategory";
    "stage_code";
    "FlowName";
    "Compartment";
    "Compartment_path";
    "FlowUUID";
    "Unit";
    "ElementaryFlowPrimeContext";
    "FlowAmount";
    "quantity";
    "Source";
    "Year" ]
  ++ (if bool_decide ("Electricity" ∈ upstream_columns) then ["Electricity"] else [])
  ++ (if bool_decide ("input" ∈ upstream_columns) then ["input"] else []).

(** Lines 211-247: from the grouped frame to the mapped frame, before the
    final column selection. *)
Definition upstream_mapped `{Library} (grp flow_mapping : DataFrame)
  : Result DataFrame :=
  m ← merge_left grp flow_mapping
        ["FlowName"; "Compartment_path"] ["SourceFlowName"; "SourceFlowContext"];
  m ← drop_column "FlowName" m;
  m ← drop_column "Compartment" m;
  m ← drop_column "Unit" m;
  let m := rename mapped_column_dict m in
  m ← drop_duplicates ["plant_id"; "FlowName"; "Compartment_path"; "FlowAmount"] m;
  m ← dropna ["FlowName"] m;
  m ← apply_conversion m;
  let m := rename (fun c => if String.eqb c "fuel_type" then "FuelCategory" else c) m in
  m ← map_column "FuelCategory" "FuelCategory" (str_method Py.upper) m;
  m ← prime_context m;
  let m := assign "Source" (fun _ => Some (VStr "netl")) m in
  Ok (assign "Year" (fun _ => Some (VNum (Q2Qc (inject_Z eia_gen_year)))) m).

(** [concat_map_upstream_databases]: [args] are the positional arguments
    and [kwargs] the keys of the keyword arguments.  The text file of the
    diagnostics mode is not modelled. *)
Definition concat_map_upstream_databases `{Library} (args : list arg)
    (kwargs : list string)
  : Result (DataFrame
            * option (list (list (option val)) * list (list (option val)))) :=
  upstream_df ← upstream_df_concat args;
  flow_mapping ← flow_mapping_lowered;
  upstream_df ← upstream_df_prepared upstream_df;
  let upstream_columns := columns upstream_df in
  grp ← upstream_df_grp upstream_df;
  upstream_df ← select ["FlowName_orig"; "Compartment_path_orig"; "stage_code"]
                  upstream_df;
  upstream_mapped_df ← upstream_mapped grp flow_mapping;
  if bool_decide ("group_name" ∈ kwargs) then
    unique_orig_set ← groups_keys ["FlowName_orig"; "Compartment_path_orig"] upstream_df;
    unique_mapped_set ←
      groups_keys ["FlowName_orig"; "Compartment_path_orig"; "Unit_orig";
                   "FlowName"; "Compartment"; "Unit"] upstream_mapped_df;
    unmatched_list ← sorted (elements (unique_orig_set ∖ unique_mapped_set));
    matched_list ← sorted (elements unique_mapped_set);
    out ← select (final_columns upstream_columns) upstream_mapped_df;
    Ok (out, Some (unmatched_list, matched_list))
  else
    out ← select (final_columns upstream_columns) upstream_mapped_df;
    Ok (out, None).

Definition region_cols : list string :=
  [ "NERC";
    "Balancing Authority Code";
    "Balancing Authority Name";
    "Subregion" ].

Definition categories_to_delete : list string :=
  [ "plant_id";
    "FuelCategory_right";
    "Net Generation (MWh)";
    "PrimaryFuel_right" ].

(** [try: df.drop(columns=[x]) except KeyError: warning] *)
Definition try_drop (df : DataFrame) (x : string) : DataFrame :=
  match drop_column x df with
  | Ok df' => df'
  | Raise _ => df
  end.

(** Lines 336-376: the frame handed to [fill_nans]. *)
Definition combined_before_fill `{Library} (pl_df up_df : DataFrame)
  : Result DataFrame :=
  right ← select ("eGRID_ID" :: region_cols) pl_df;
  right ← drop_duplicates (columns right) right;
  up_df ← merge_left up_df right ["plant_id"] ["eGRID_ID"];
  combined_df ← concat [pl_df; up_df];
  combined_df ← map_column "Balancing Authority Code" "Balancing Authority Name"
                  ba_codes_BA_Name combined_df;
  combined_df ← map_column "Balancing Authority Code" "FERC_Region"
                  ba_codes_FERC_Region combined_df;
  combined_df ← map_column "Balancing Authority Code" "EIA_Region"
                  ba_codes_EIA_Region combined_df;
  let combined_df := foldl try_drop combined_df categories_to_delete in
  combined_df ← copy_column "eGRID_ID" "FacilityID" combined_df;
  combined_df ←
    (if has_column combined_df "stage_code"
     then Ok (assign_where
                (fun r => negb (bool_decide
                                  (r !! "stage_code" = Some (VStr "Power plant"))))
                "FuelCategory" (fun _ => None) combined_df)
     else Raise KeyError);
  Ok (assign_where
        (fun r => bool_decide (r !! "FuelCategory" = Some (VStr "CONSTRUCTION")))
        "FuelCategory" (fun _ => None) combined_df).

(** One entry of [generation_filter]: the share is compared with the float
    [min_plant_percent_generation_from_primary_fuel_category / 100]; NaN
    compares false, a string raises. *)
Definition below_threshold `{Library} (r : Row) : Result bool :=
  match r !! "PercentGenerationfromDesignatedFuelCategory" with
  | None => Ok false
  | Some (VNum q) =>
      Ok (bool_decide
            (q < float_div
                   min_plant_percent_generation_from_primary_fuel_category
                   (Q2Qc 100))%Qc)
  | Some (VStr _) => Raise TypeError
  end.

(** Lines 381-390. *)
Definition mixed_policy `{Library} (combined_df : DataFrame) : Result DataFrame :=
  if has_column combined_df "PercentGenerationfromDesignatedFuelCategory" then
    generation_filter ← mapM below_threshold (rows combined_df);
    let marked := zip generation_filter (rows combined_df) in
    if keep_mixed_plant_category then
      Ok {| columns := add_column "PrimaryFuel"
                         (add_column "FuelCategory" (columns combined_df));
            rows := (fun br : bool * Row =>
                       if br.1
                       then <["PrimaryFuel" := VStr "Mixed Fuel Type"]>
                              (<["FuelCategory" := VStr "MIXED"]> br.2)
                       else br.2) <$> marked |}
    else
      Ok {| columns := columns combined_df;
            rows := snd <$> filter (fun br : bool * Row => negb br.1) marked |}
  else Raise KeyError.

Definition concat_clean_upstream_and_plant `{Library} (pl_df up_df : DataFrame)
  : Result DataFrame :=
  combined_df ← combined_before_fill pl_df up_df;
  combined_df ← (fill_nans combined_df "FacilityID" [] true).2;
  mixed_policy combined_df.

End Externals.

End Combinator.
(** ** electricitylci/__init__.py: the callers *)

Module Init.
Import Writer Pandas Combinator.

(** [d[k] = v] on a dict in insertion order. *)
Fixpoint dict_set (d : list (string * pyobj)) (k : string) (v : pyobj)
  : list (string * pyobj) :=
  match d with
  | [] => [(k, v)]
  | (k', v') :: r =>
      if String.eqb k' k then (k', v) :: r else (k', v') :: dict_set r k v
  end.

(** The dict display with two unpackings: the items of [a], then those of
    [b], a repeated key keeping its place and taking the later value. *)
Definition dict_merge (a b : list (string * pyobj)) : list (string * pyobj) :=
  foldl (fun acc kv => dict_set acc kv.1 kv.2) a b.

Section Externals.
Variable uuid3_oid : string -> string.
Variable repr : pyobj -> string.

(** [write_process_dicts_to_jsonld]: what is written at the output path. *)
Definition write_process_dicts_to_jsonld
    (process_dicts : list (list (string * pyobj))) : Result Archive :=
  let all_process_dicts := foldl dict_merge [] process_dicts in
  write uuid3_oid repr all_process_dicts.

Definition write_upstream_dicts_to_jsonld
    (upstream_dicts : list (string * pyobj)) : Result Archive :=
  write_process_dicts_to_jsonld [upstream_dicts].

End Externals.

Section Generation.
Variable plant_ba_State : val -> option val.
Variable ba_codes_BA_Name : val -> option val.
Variable ba_codes_FERC_Region : val -> option val.
Variable ba_codes_EIA_Region : val -> option val.
Variable flow_mapping_eLCI : DataFrame.
Variable eia_gen_year : Z.
Variable keep_mixed_plant_category : bool.
Variable min_plant_percent_generation_from_primary_fuel_category : Qc.
(** The tables of the upstream and generation modules. *)
Variable geo_df solar_df wind_df : DataFrame.
Variable gen_df : DataFrame.

Definition netl_scores (netl_gen : DataFrame) : DataFrame :=
  let one := VNum (Q2Qc 1) in
  let netl_gen :=
    assign "DataCollection" (fun _ => Some (VNum (Q2Qc 5))) netl_gen in
  let netl_gen := assign "GeographicalCorrelation" (fun _ => Some one) netl_gen in
  let netl_gen := assign "TechnologicalCorrelation" (fun _ => Some one) netl_gen in
  assign "ReliabilityScore" (fun _ => Some one) netl_gen.

Definition get_alternate_gen_plus_netl `{Library} : Result DataFrame :=
  netl_gen ← concat_map_upstream_databases flow_mapping_eLCI eia_gen_year
                [ADataFrame geo_df; ADataFrame solar_df; ADataFrame wind_df] [];
  let netl_gen := netl_scores netl_gen.1 in
  concat_clean_upstream_and_plant plant_ba_State ba_codes_BA_Name
    ba_codes_FERC_Region ba_codes_EIA_Region keep_mixed_plant_category
    min_plant_percent_generation_from_primary_fuel_category gen_df netl_gen.

End Generation.

End Init.


(** ** IEEE 754 binary64

    The operations of [Pandas.Library] computed with the rounding of the
    standard library's [SpecFloat] (53 bits of precision, exponents up to
    1024, ties to even), for the worked examples. *)

Module Binary64.
Import Pandas.

(** The rational that a float denotes; [otherwise] for an infinity or NaN. *)
Definition of_float (f : spec_float) (otherwise : Qc) : Qc :=
  match f with
  | S754_zero _ => Q2Qc 0
  | S754_finite s m e =>
      let v := match e with
               | Zneg k => Q2Qc (Zpos m # Pos.shiftl 1 (Npos k))
               | _ => Q2Qc (inject_Z (Zpos m * 2 ^ e))
               end in
      if s then (- v)%Qc else v
  | _ => otherwise
  end.

(** The float nearest to [q]: the correctly rounded quotient of its
    numerator by its denominator.  Beyond the largest float the value is
    left as it is (infinities are outside the modelled range). *)
Definition round64 (q : Qc) : Qc :=
  match Qnum q with
  | Z0 => Q2Qc 0
  | Zpos n =>
      of_float (SFdiv 53 1024 (S754_finite false n 0)
                  (S754_finite false (Qden q) 0)) q
  | Zneg n =>
      of_float (SFdiv 53 1024 (S754_finite true n 0)
                  (S754_finite false (Qden q) 0)) q
  end.

Definition div64 (a b : Qc) : Qc := round64 (a / b).

Definition mul64 (a b : Qc) : Qc := round64 (a * b).

(** The sum of the cells from left to right, rounded at every addition. *)
Definition sum64 (qs : list Qc) : Qc :=
  foldl (fun acc q => round64 (acc + q)) (Q2Qc 0) qs.

Definition mean64 (qs : list Qc) : Qc :=
  div64 (sum64 qs) (Q2Qc (inject_Z (Z.of_nat (length qs)))).

Definition holds_str (c : string) (df : DataFrame) : bool :=
  existsb (fun r : Row => match r !! c with
                          | Some (VStr _) => true
                          | _ => false
                          end) (rows df).

(** The types of two key columns read off their cells: a column with a
    string cell is a column of strings, a column without one is numeric
    (NaN is a float); a frame without rows agrees with any. *)
Definition key_agrees (left right : DataFrame) (lr : string * string) : bool :=
  match rows left, rows right with
  | [], _ | _, [] => true
  | _, _ => eqb (holds_str lr.1 left) (holds_str lr.2 right)
  end.

Definition keys_agree (left right : DataFrame) (left_on right_on : list string)
  : bool :=
  forallb (key_agrees left right) (zip left_on right_on).

Definition reference : Library :=
  {| float_div := div64;
     float_mul := mul64;
     group_sum := sum64;
     group_mean := mean64;
     merge_keys_agree := keys_agree |}.

End Binary64.

(** ** Vocabulary of the properties *)

Module WriterSpec.
Import Py Writer.
Section Vocabulary.
Variable uuid3_oid : string -> string.
Variable repr : pyobj -> string.

(** The identifiers of the Category records of an archive, in write order. *)
Definition category_ids (a : Archive) : list string :=
  omap (fun e => match e with
                 | ECategory c => Some (c_id c)
                 | EProcess _ => None
                 end) a.

(** The reference to the category of the path [done]; no reference for the
    empty path. *)
Definition parent_ref (mtype : ModelType) (done : list string) : option Ref :=
  match done with
  | [] => None
  | _ =>
      Some (set_category_path
              (ref "Category" (_uid uuid3_oid repr (PStr <$> value mtype :: done))
                 (PStr (strip (List.last done EmptyString))))
              done)
  end.

(** The Category record of the path [done ++ [part]]. *)
Definition category_record (mtype : ModelType) (done : list string)
    (part : string) : Category :=
  {| c_id := _uid uuid3_oid repr (PStr <$> value mtype :: done ++ [part]);
     c_model_type := mtype;
     c_name := strip part;
     c_category := parent_ref mtype done |}.

(** What a run of [write] maintains. *)
Definition consistent (st : State) : Prop :=
  NoDup (category_ids st.1)
  ∧ (forall u, u ∈ st.2 <-> u ∈ category_ids st.1)
  ∧ (forall c, ECategory c ∈ st.1 ->
       exists mtype done part, c = category_record mtype done part).

(** A 'category' value for which [_category] makes no category. *)
Definition blank_category (v : pyobj) : Prop :=
  match v with
  | PStr s => all_space s = true
  | _ => True
  end.
End Vocabulary.
End WriterSpec.


Module CombinatorSpec.
Import Pandas Combinator.

(** The value that the first row with key [k], a non-null key and a non-null
    [col] has in [col]. *)
Fixpoint first_value (key_column col : string) (rs : list Row) (k : val)
  : option val :=
  match rs with
  | [] => None
  | r :: rest =>
      match r !! key_column, r !! col with
      | Some k', Some v =>
          if bool_decide (k' = k) then Some v
          else first_value key_column col rest k
      | _, _ => first_value key_column col rest k
      end
  end.

(** A cell after the key fill of the columns [cols]. *)
Definition key_filled_cell (key_column : string) (cols : list string)
    (rs : list Row) (r : Row) (c : string) : option val :=
  match r !! c with
  | Some v => Some v
  | None =>
      if bool_decide (c ∈ cols)
      then r !! key_column ≫= first_value key_column c rs
      else None
  end.

(** One pass of the loop, cell by cell. *)
Definition fill_row (key_column col : string) (rs : list Row) (r : Row) : Row :=
  match r !! col with
  | None => set_cell col (r !! key_column ≫= first_value key_column col rs) r
  | Some _ => r
  end.

(** The warnings for the requested columns that are absent. *)
Definition fill_warnings (df : DataFrame) (target_columns : list string)
  : list string :=
  column_warning
    <$> filter (fun x => x ∉ columns df) (targets_or_default target_columns).

(** [confirmed_target] of [fill_nans] when it reaches [dropna]. *)
Definition confirmed_target (df : DataFrame) (target_columns : list string)
  : list string :=
  filter (fun x => x ∈ columns df) (targets_or_default target_columns)
  ++ (if has_column df "State" then [] else ["State"]).

Section Vocabulary.
Variable plant_ba_State : val -> option val.

(** A cell after the key fill and the fallback for "State". *)
Definition filled_cell (key_column : string) (cols : list string)
    (has_state : bool) (rs : list Row) (r : Row) (c : string) : option val :=
  if bool_decide (c = "State") then
    match (if has_state then key_filled_cell key_column cols rs r "State"
           else None) with
    | Some v => Some v
    | None => key_filled_cell key_column cols rs r "eGRID_ID" ≫= plant_ba_State
    end
  else key_filled_cell key_column cols rs r c.
End Vocabulary.
End CombinatorSpec.


Module MapperSpec.
Import Pandas Combinator.



End MapperSpec.


Module CombinerSpec.
Import Pandas Combinator.

(** The share of the designated fuel category is a number below
    [threshold] percent: below the float [threshold / 100]. *)
Definition below_percent `{Library} (threshold : Qc) (r : Row) : bool :=
  match r !! "PercentGenerationfromDesignatedFuelCategory" with
  | Some (VNum q) => bool_decide (q < float_div threshold (Q2Qc 100))%Qc
  | _ => false
  end.

(** The row relabelled as a mixed plant. *)
Definition mixed (r : Row) : Row :=
  <["PrimaryFuel" := VStr "Mixed Fuel Type"]> (<["FuelCategory" := VStr "MIXED"]> r).
End CombinerSpec.


(** ** Worked examples *)

Module Examples.
Import Writer Pandas Combinator.

(** The examples run with binary64 arithmetic. *)
#[local] Existing Instance Binary64.reference.

(** Stand-ins for the externals, used to run the model on small inputs. *)
Definition example_uuid3 (path : string) : string := "uuid3(" +:+ path +:+ ")".

Definition example_repr (v : pyobj) : string :=
  match v with
  | PNone => "None"
  | PBool true => "True"
  | PBool false => "False"
  | _ => "<object>"
  end.

Definition example_coal : pyobj :=
  PDict [("name", PStr "Electricity; Coal");
         ("category", PStr "Utilities/Electric Power");
         ("exchanges",
          PList [PDict [("amount", PFloat 1);
                        ("unit", PDict [("name", PStr "MWh")])];
                 PNone])].

Definition example_COAL : pyobj :=
  PDict [("name", PStr "ELECTRICITY; COAL");
         ("category", PStr "utilities/electric power")].

Definition example_gas : pyobj :=
  PDict [("name", PStr "Electricity; Gas"); ("category", PStr "Utilities/Gas")].

Definition example_blank : pyobj :=
  PDict [("name", PStr "No category"); ("category", PStr "  ")].

Definition example_processes : list (string * pyobj) :=
  [ ("coal", example_coal); ("COAL", example_COAL); ("gas", example_gas);
    ("blank", example_blank) ].

Definition example_archive : Archive :=
  match write example_uuid3 example_repr example_processes with
  | Ok a => a
  | Raise _ => []
  end.

Definition str (s : string) : val := VStr s.
Definition num (z : Z) : val := VNum (Q2Qc (inject_Z z)).
(** The float written [n/d] in decimal, e.g. [frac 4 10] for [0.4]. *)
Definition frac (n : Z) (d : positive) : val :=
  VNum (Binary64.round64 (Q2Qc (n # d))).
Definition row_of (l : list (string * val)) : Row := list_to_map l.

Definition example_plant_ba_State (v : val) : option val :=
  if bool_decide (v = num 1) then Some (str "OH") else None.

Definition example_ba_codes (field : string) (v : val) : option val :=
  if bool_decide (v = str "PJM") then Some (str (field +:+ " of PJM")) else None.

(** A plant table with one coal plant, 40 percent of whose generation is
    from its designated fuel category. *)
Definition example_pl_df : DataFrame :=
  {| columns := ["eGRID_ID"; "NERC"; "Balancing Authority Code";
                 "Balancing Authority Name"; "Subregion"; "FuelCategory";
                 "PrimaryFuel"; "stage_code";
                 "PercentGenerationfromDesignatedFuelCategory"; "FlowName"];
     rows := [row_of [("eGRID_ID", num 1); ("NERC", str "RFC");
                      ("Balancing Authority Code", str "PJM");
                      ("Balancing Authority Name", str "PJM Interconnection");
                      ("Subregion", str "RFCW"); ("FuelCategory", str "COAL");
                      ("PrimaryFuel", str "BIT");
                      ("stage_code", str "Power plant");
                      ("PercentGenerationfromDesignatedFuelCategory", frac 4 10);
                      ("FlowName", str "Carbon dioxide")]] |}.

(** An upstream table with a construction row for that plant and for a
    plant that the plant table does not have. *)
Definition example_up_df : DataFrame :=
  {| columns := ["plant_id"; "FuelCategory"; "stage_code"; "FlowName"];
     rows := [row_of [("plant_id", num 1); ("FuelCategory", str "CONSTRUCTION");
                      ("stage_code", str "Upstream construction");
                      ("FlowName", str "Steel")];
              row_of [("plant_id", num 2); ("FuelCategory", str "CONSTRUCTION");
                      ("stage_code", str "Upstream construction");
                      ("FlowName", str "Steel")]] |}.

Definition example_clean (keep_mixed : bool) (threshold : Z) : Result DataFrame :=
  concat_clean_upstream_and_plant example_plant_ba_State
    (example_ba_codes "BA_Name") (example_ba_codes "FERC_Region")
    (example_ba_codes "EIA_Region") keep_mixed (Q2Qc (inject_Z threshold))
    example_pl_df example_up_df.

Definition frame_or_empty (r : Result DataFrame) : DataFrame :=
  match r with
  | Ok df => df
  | Raise _ => {| columns := []; rows := [] |}
  end.

(** A table without the column "eGRID_ID". *)
Definition example_no_egrid : DataFrame :=
  {| columns := ["FacilityID"; "NERC"];
     rows := [row_of [("FacilityID", num 1); ("NERC", str "RFC")];
              row_of [("FacilityID", num 1)]] |}.

(** A table without the column "State". *)
Definition example_no_state : DataFrame :=
  {| columns := ["FacilityID"; "eGRID_ID"; "NERC"];
     rows := [row_of [("FacilityID", num 1); ("eGRID_ID", num 1); ("NERC", str "RFC")];
              row_of [("FacilityID", num 1)];
              row_of [("FacilityID", num 2); ("eGRID_ID", num 2); ("NERC", str "SERC")]] |}.

Definition example_flow_mapping : DataFrame :=
  {| columns := ["SourceFlowName"; "SourceFlowContext"; "ConversionFactor";
                 "TargetFlowName"; "TargetFlowUUID"; "TargetFlowContext";
                 "TargetUnit"];
     rows := [row_of [("SourceFlowName", str "Carbon Dioxide");
                      ("SourceFlowContext", str "emission/air");
                      ("ConversionFactor", num 1);
                      ("TargetFlowName", str "Carbon dioxide");
                      ("TargetFlowUUID", str "b6f010fb-a764-3063-af2d-bcb8309a97b7");
                      ("TargetFlowContext", str "emission/air");
                      ("TargetUnit", str "kg")]] |}.

(** An upstream table with a flow that the mapping has, reported twice,
    and a flow that it does not have. *)
Definition example_upstream : DataFrame :=
  {| columns := ["fuel_type"; "stage_code"; "FlowName"; "Compartment"; "input";
                 "plant_id"; "Unit"; "FlowAmount"; "quantity"];
     rows := [row_of [("fuel_type", str "Coal"); ("stage_code", str "Mining");
                      ("FlowName", str "Carbon dioxide"); ("Compartment", str "air");
                      ("input", num 0); ("plant_id", num 1); ("Unit", str "kg");
                      ("FlowAmount", num 2); ("quantity", num 10)];
              row_of [("fuel_type", str "Coal"); ("stage_code", str "Mining");
                      ("FlowName", str "Carbon dioxide"); ("Compartment", str "air");
                      ("input", num 0); ("plant_id", num 1); ("Unit", str "kg");
                      ("FlowAmount", num 3); ("quantity", num 20)];
              row_of [("fuel_type", str "Coal"); ("stage_code", str "Mining");
                      ("FlowName", str "Unobtainium"); ("Compartment", str "air");
                      ("input", num 0); ("plant_id", num 1); ("Unit", str "kg");
                      ("FlowAmount", num 5); ("quantity", num 10)]] |}.

Definition example_prepared : DataFrame :=
  frame_or_empty
    (upstream_df_concat [ADataFrame example_upstream] ≫= upstream_df_prepared).

Definition example_mapped :=
  concat_map_upstream_databases example_flow_mapping 2016
    [ADataFrame example_upstream] ["group_name"].

Definition example_filled : DataFrame :=
  frame_or_empty
    (fill_nans example_plant_ba_State example_no_state "FacilityID" ["NERC"] true).2.

Definition example_out : DataFrame := frame_or_empty (example_clean true 50).

Definition example_kept : DataFrame := frame_or_empty (example_clean false 0).

Definition example_grp : DataFrame :=
  frame_or_empty (upstream_df_grp example_prepared).

End Examples.

(** ** Vocabulary of the further properties of the writer *)

Module WriterMore.
Import Py Writer WriterSpec.

(** The Process records of an archive, in write order. *)
Definition process_records (a : Archive) : list Process :=
  omap (fun e => match e with
                 | EProcess p => Some p
                 | ECategory _ => None
                 end) a.

(** The category reference that a record carries. *)
Definition entity_category (e : Entity) : option Ref :=
  match e with
  | ECategory c => c_category c
  | EProcess p => p_category p
  end.

(** Every category reference of the archive names a Category record that
    was written before the record that carries it. *)
Definition references_resolved (a : list Entity) : Prop :=
  forall i e r,
    a !! i = Some e -> entity_category e = Some r ->
    ref_id r ∈ category_ids (take i a).

Definition is_dict (d : pyobj) : bool :=
  match d with
  | PDict _ => true
  | _ => false
  end.

Definition is_none (d : pyobj) : bool :=
  match d with
  | PNone => true
  | _ => false
  end.

(** [unit_name == s] *)
Definition named (u : pyobj) (s : string) : bool :=
  match u with
  | PStr t => String.eqb t s
  | _ => false
  end.

Definition known_unit (u : pyobj) : bool :=
  named u "MWh" || named u "MJ" || named u "kg".

(** What [write] maintains for the references. *)
Definition resolved_state (st : State) : Prop :=
  (forall u, u ∈ st.2 -> u ∈ category_ids st.1) ∧ references_resolved st.1.

Definition known_parent (parent : option Ref) (st : State) : Prop :=
  match parent with
  | Some r => ref_id r ∈ st.2
  | None => True
  end.

Section Vocabulary.
Variable uuid3_oid : string -> string.
Variable repr : pyobj -> string.

(** The Process record of one value of the dictionary, when its exchanges
    can be iterated; the category reference is the one of an empty
    archive. *)
Definition process_record (d : pyobj) : option Process :=
  es ← py_iter (_val d ["exchanges"] (Some (PList [])));
  Some {| p_name := _val d ["name"] None;
          p_id := _uid uuid3_oid repr
                    [PModelType PROCESS; _val d ["category"] None;
                     _val d ["name"] None];
          p_category :=
            (_category uuid3_oid repr (_val d ["category"] None) PROCESS
               ([], ∅)).1;
          p_exchanges := exchanges_loop es 0 |}.
End Vocabulary.

End WriterMore.

(** ** Vocabulary of the further properties of the Combiner *)

Module CombinerMore.
Import Pandas Combinator.

(** The columns in which every returned row of the Combiner has a value. *)
Definition filled_columns : list string :=
  [ "Balancing Authority Code";
    "Balancing Authority Name";
    "FuelCategory";
    "NERC";
    "PercentGenerationfromDesignatedFuelCategory";
    "eGRID_ID";
    "Subregion";
    "FERC_Region";
    "EIA_Region";
    "State";
    "FacilityID" ].

(** The columns that the Combiner reads from its two arguments. *)
Definition combiner_ready (pl_df up_df : DataFrame) : Prop :=
  has_columns pl_df ("eGRID_ID" :: region_cols) = true
  ∧ "plant_id" ∈ columns up_df
  ∧ ("stage_code" ∈ columns pl_df ∨ "stage_code" ∈ columns up_df)
  ∧ ("PercentGenerationfromDesignatedFuelCategory" ∈ columns pl_df
     ∨ "PercentGenerationfromDesignatedFuelCategory" ∈ columns up_df).

(** A label that the merge of the Combiner can neither produce by a suffix
    nor take from the plant columns it selects. *)
Definition plain_label (c : string) : bool :=
  bool_decide (c ∉ "eGRID_ID" :: region_cols)
  && bool_decide (c ∉ (fun x => x +:+ "_x") <$> "eGRID_ID" :: region_cols)
  && bool_decide (c ∉ (fun x => x +:+ "_y") <$> "eGRID_ID" :: region_cols).

End CombinerMore.

(** ** Vocabulary of the further properties of the mapper *)

Module MapperMore.
Import Pandas Combinator.

(** [s.str.lower().str.rstrip()] on one cell. *)
Definition normal (v : val) : option val :=
  str_method (fun s => Py.rstrip (Py.lower s)) v.

(** The columns of the mapped table, with the optional one. *)
Definition mapped_columns (electricity : bool) : list string :=
  [ "plant_id";
    "FuelCategory";
    "stage_code";
    "FlowName";
    "Compartment";
    "Compartment_path";
    "FlowUUID";
    "Unit";
    "ElementaryFlowPrimeContext";
    "FlowAmount";
    "quantity";
    "Source";
    "Year" ]
  ++ (if electricity then ["Electricity"] else [])
  ++ ["input"].

(** A frame among the arguments has the column [c]. *)
Definition some_frame_has (args : list arg) (c : string) : Prop :=
  exists df, ADataFrame df ∈ args ∧ c ∈ columns df.

End MapperMore.

(** ** Further worked examples *)

Module MoreExamples.
Import Writer Pandas Combinator Init Examples.

#[local] Existing Instance Binary64.reference.

(** A process dictionary with a value that is a string. *)
Definition example_not_dict : list (string * pyobj) :=
  [ ("coal", example_coal); ("broken", PStr "not a dict") ].

(** Two process dictionaries that both define the key "coal". *)
Definition example_dicts : list (list (string * pyobj)) :=
  [ [("coal", example_coal); ("gas", example_gas)];
    [("blank", example_blank); ("coal", example_COAL)] ].

Definition example_merged_archive : Archive :=
  match write_process_dicts_to_jsonld example_uuid3 example_repr example_dicts with
  | Ok a => a
  | Raise _ => []
  end.


Definition example_concat : DataFrame :=
  frame_or_empty (upstream_df_concat [ADataFrame example_upstream]).

Definition example_mapped_out : DataFrame :=
  match example_mapped with
  | Ok (out, _) => out
  | Raise _ => {| columns := []; rows := [] |}
  end.

Definition example_unmatched : list (list (option val)) :=
  match example_mapped with
  | Ok (_, Some (unmatched, _)) => unmatched
  | _ => []
  end.

Definition example_matched : list (list (option val)) :=
  match example_mapped with
  | Ok (_, Some (_, matched)) => matched
  | _ => []
  end.

(** The upstream table with one more row, whose compartment "Air" is not
    one of the compartment mapping: its compartment path is NaN. *)
Definition example_upstream_air : DataFrame :=
  {| columns := columns example_upstream;
     rows := rows example_upstream
             ++ [row_of [("fuel_type", str "Coal"); ("stage_code", str "Mining");
                         ("FlowName", str "Methane"); ("Compartment", str "Air");
                         ("input", num 0); ("plant_id", num 1);
                         ("Unit", str "kg"); ("FlowAmount", num 7);
                         ("quantity", num 10)]] |}.

(** The same with the flow name of a row that has a compartment path. *)
Definition example_upstream_clash : DataFrame :=
  {| columns := columns example_upstream;
     rows := rows example_upstream
             ++ [row_of [("fuel_type", str "Coal"); ("stage_code", str "Mining");
                         ("FlowName", str "Unobtainium");
                         ("Compartment", str "Air");
                         ("input", num 0); ("plant_id", num 1);
                         ("Unit", str "kg"); ("FlowAmount", num 7);
                         ("quantity", num 10)]] |}.

(** An upstream table whose plant ids are strings. *)
Definition example_up_df_str : DataFrame :=
  {| columns := ["plant_id"; "FuelCategory"; "stage_code"; "FlowName"];
     rows := [row_of [("plant_id", str "1"); ("FuelCategory", str "CONSTRUCTION");
                      ("stage_code", str "Upstream construction");
                      ("FlowName", str "Steel")]] |}.

(** The mapped table of three sources that report the same rows. *)
Definition example_netl : DataFrame :=
  match concat_map_upstream_databases example_flow_mapping 2016
          [ADataFrame example_upstream; ADataFrame example_upstream;
           ADataFrame example_upstream] [] with
  | Ok (out, _) => out
  | Raise _ => {| columns := []; rows := [] |}
  end.

End MoreExamples.

(** ** Proof steps shared by the further properties *)

Module Steps.
Import Pandas.

(** Follow the decision tree of a match on a string literal. *)
Ltac walk :=
  repeat match goal with
  | |- context [match ?x with _ => _ end] => is_var x; destruct x; cbn
  | |- context [if ?x then _ else _] => is_var x; destruct x; cbn
  end.

(** Case analysis on the result of the next operation of a pipeline in the
    goal, with what the lemma [L] says about that result. *)
Ltac step L :=
  let H := fresh "Hstep" in
  pose proof L as H;
  match type of H with
  | match ?x with _ => _ end =>
      let y := fresh "y" in
      let e := fresh "e" in
      destruct x as [y|e]; cbn [mbind Result_bind]
  end.

(** The same on a hypothesis [H] which says that the pipeline returned. *)
Ltac ok_step H L :=
  let Hs := fresh "Hs" in
  cbv zeta in H;
  pose proof L as Hs;
  match type of Hs with
  | match ?x with _ => _ end =>
      let y := fresh "m" in
      let e := fresh "e" in
      destruct x as [y|e]; cbn [mbind Result_bind] in H; [|discriminate H]
  end.

(** The next operation returned; nothing is recorded about its result. *)
Ltac ok_skip H :=
  cbv zeta in H;
  match type of H with
  | (?x ≫= _) = Ok _ =>
      let y := fresh "m" in
      let e := fresh "e" in
      destruct x as [y|e]; cbn [mbind Result_bind] in H; [|discriminate H]
  end.

(** Name the row [r1] that one assignment makes of the row [r0]. *)
Ltac name_step r0 r1 H :=
  match goal with
  | |- context [set_cell ?d (r0 !! ?s ≫= ?f) r0] =>
      set (r1 := set_cell d (r0 !! s ≫= f) r0);
      assert (H : r1 !! d = r0 !! s ≫= f
                  ∧ forall c, d ≠ c -> r1 !! c = r0 !! c)
        by (subst r1; unfold set_cell; destruct (r0 !! s ≫= f); split; intros;
            rewrite ?lookup_insert_eq, ?lookup_insert_ne, ?lookup_delete_eq,
              ?lookup_delete_ne by done; done);
      clearbody r1
  end.

(** Look a cell up through the named rows. *)
Ltac chase :=
  repeat match goal with
  | H : ?x !! ?d = _ ∧ (forall c, _ ≠ c -> ?x !! c = _) |- context [?x !! ?c] =>
      first [ rewrite (proj1 H) | rewrite (proj2 H c) by done ]
  end.

End Steps.


(** * Properties *)

Module PyProps.
Import Py.

Lemma isspace_lower_char c : isspace (lower_char c) = isspace c.
Proof. destruct c as [[] [] [] [] [] [] [] []]; reflexivity. Qed.

Lemma lower_lstrip s : lower (lstrip s) = lstrip (lower s).
Proof.
  induction s as [|c s IH]; simpl; [done|].
  rewrite isspace_lower_char. destruct (isspace c); [done|]. reflexivity.
Qed.

Lemma lower_empty s : lower s = EmptyString ↔ s = EmptyString.
Proof. destruct s; simpl; split; congruence. Qed.

Lemma lower_rstrip s : lower (rstrip s) = rstrip (lower s).
Proof.
  induction s as [|c s IH]; simpl; [done|].
  rewrite <- IH, isspace_lower_char.
  destruct (rstrip s) as [|c' r']; simpl; [|done].
  destruct (isspace c); done.
Qed.

Lemma lower_strip s : lower (strip s) = strip (lower s).
Proof. unfold strip. by rewrite lower_rstrip, lower_lstrip. Qed.

Lemma lower_app a b : lower (a +:+ b) = lower a +:+ lower b.
Proof. induction a as [|c a IH]; simpl; [done|]. by rewrite IH. Qed.

Lemma lower_join sep l : lower (join sep l) = join (lower sep) (lower <$> l).
Proof.
  induction l as [|x l IH]; simpl; [done|].
  destruct l as [|y l]; simpl in *; [done|].
  by rewrite !lower_app, IH.
Qed.

Lemma rstrip_empty s : rstrip s = EmptyString ↔ all_space s = true.
Proof.
  induction s as [|c s IH]; simpl; [done|].
  destruct (rstrip s) as [|c' r'].
  - destruct (isspace c); simpl; [|split; [congruence|done]].
    split; intros _; [by apply IH|done].
  - split; [done|]. intros [_ H]%andb_prop. apply IH in H. done.
Qed.

Lemma strip_empty s : strip s = EmptyString ↔ all_space s = true.
Proof.
  unfold strip. rewrite rstrip_empty.
  induction s as [|c s IH]; simpl; [done|].
  destruct (isspace c) eqn:Hc; simpl; [done|]. by rewrite Hc.
Qed.
End PyProps.

Module WriterProps.
Import Py Writer PyProps WriterSpec.
Section Props.
Variable uuid3_oid : string -> string.
Variable repr : pyobj -> string.

Abbreviation uid := (_uid uuid3_oid repr).
Abbreviation consistent := (WriterSpec.consistent uuid3_oid repr).
Abbreviation parent_ref := (WriterSpec.parent_ref uuid3_oid repr).
Abbreviation category_record := (WriterSpec.category_record uuid3_oid repr).

Lemma uid_lowered args :
  uid args = uuid3_oid (join "/" ((fun a => strip (lower (py_str repr a))) <$> args)).
Proof.
  unfold _uid. rewrite lower_join, <- list_fmap_compose. f_equal. f_equal.
  apply list_fmap_ext. intros _ a _. simpl. apply lower_strip.
Qed.

Lemma category_ids_app a b : category_ids (a ++ b) = category_ids a ++ category_ids b.
Proof. unfold category_ids. apply omap_app. Qed.

Lemma consistent_empty : consistent ([], ∅).
Proof.
  split; [constructor|]. split.
  - intros u. simpl. set_solver.
  - intros c H. simpl in H. by apply elem_of_nil in H.
Qed.

Lemma consistent_process p st :
  consistent st -> consistent (st.1 ++ [EProcess p], st.2).
Proof.
  intros (Hnd & Hset & Hrec). split; [|split]; simpl.
  - rewrite category_ids_app. simpl. by rewrite app_nil_r.
  - intros u. rewrite category_ids_app. simpl. rewrite app_nil_r. apply Hset.
  - intros c [H|H]%elem_of_app; [by apply Hrec|].
    apply list_elem_of_singleton in H. discriminate.
Qed.

Lemma last_snoc (l : list string) x : List.last (l ++ [x]) EmptyString = x.
Proof. apply List.last_last. Qed.

Lemma parent_ref_snoc mtype done part :
  parent_ref mtype (done ++ [part]) =
  Some (set_category_path
          (ref "Category" (uid (PStr <$> value mtype :: done ++ [part]))
             (PStr (strip part))) (done ++ [part])).
Proof.
  unfold WriterSpec.parent_ref. rewrite last_snoc.
  destruct (done ++ [part]) eqn:E; [|done].
  by destruct done.
Qed.

Lemma category_loop_spec mtype todo : forall done parent st r st',
  consistent st ->
  parent = parent_ref mtype done ->
  _category_loop uuid3_oid repr mtype done todo parent st = (r, st') ->
  consistent st'
  ∧ r = parent_ref mtype (done ++ todo)
  ∧ st.2 ⊆ st'.2
  ∧ (forall pre, pre `prefix_of` todo -> pre ≠ [] ->
       uid (PStr <$> value mtype :: done ++ pre) ∈ st'.2).
Proof.
  induction todo as [|part todo IH]; intros done parent st r st' Hc Hp Hrun.
  - simpl in Hrun. injection Hrun as <- <-. rewrite app_nil_r.
    split; [done|]. split; [done|]. split; [done|].
    intros pre [k Hk] Hne. symmetry in Hk. apply app_eq_nil in Hk as [? _]. done.
  - simpl in Hrun.
    eapply IH in Hrun as (Hc' & Hr & Hsub & Hpre).
    + split; [exact Hc'|]. split; [by rewrite <- app_assoc in Hr|].
      split.
      { etrans; [|exact Hsub]. case_decide; simpl; [done|apply union_subseteq_l]. }
      intros pre [k Hk] Hne. destruct pre as [|x pre]; [done|].
      simpl in Hk. injection Hk as <- ->.
      destruct pre as [|y pre].
      * apply Hsub. case_decide; simpl; [done|].
        apply elem_of_union_r, elem_of_singleton. done.
      * specialize (Hpre (y :: pre)). rewrite <- app_assoc in Hpre. simpl in Hpre.
        apply Hpre; [by eexists|done].
    + destruct Hc as (Hnd & Hset & Hrec). case_decide as Hin; [done|].
      split; [|split]; simpl.
      * rewrite category_ids_app. simpl. apply NoDup_app. split; [done|].
        split; [|apply NoDup_singleton].
        intros u Hu ->%list_elem_of_singleton. apply Hin. by apply Hset.
      * intros u. rewrite category_ids_app, elem_of_app, elem_of_union, Hset.
        simpl. rewrite list_elem_of_singleton, elem_of_singleton. done.
      * intros c [H|H]%elem_of_app; [by apply Hrec|].
        apply list_elem_of_singleton in H. injection H as ->.
        exists mtype, done, part. unfold WriterSpec.category_record. by rewrite Hp.
    + by rewrite parent_ref_snoc.
Qed.

Lemma category_spec path mtype st r st' :
  consistent st ->
  _category uuid3_oid repr path mtype st = (r, st') ->
  consistent st' ∧ st.2 ⊆ st'.2
  ∧ (forall s pre, path = PStr s -> strip s ≠ EmptyString ->
       pre `prefix_of` split "/" s -> pre ≠ [] ->
       uid (PStr <$> value mtype :: pre) ∈ st'.2).
Proof.
  intros Hc Hrun. unfold _category in Hrun.
  destruct path as [| | | |s| | |];
    try (injection Hrun as <- <-; split; [done|]; split; done).
  destruct (String.eqb (strip s) "") eqn:E.
  - injection Hrun as <- <-. apply String.eqb_eq in E.
    split; [done|]. split; [done|]. intros ? ? [= <-]. done.
  - eapply category_loop_spec in Hrun as (Hc' & _ & Hsub & Hpre); [|done..].
    split; [done|]. split; [done|]. intros ? pre [= <-] _. apply Hpre.
Qed.

Lemma write_process_spec d st st' :
  consistent st ->
  write_process uuid3_oid repr d st = Ok st' ->
  consistent st' ∧ st.2 ⊆ st'.2
  ∧ (forall s pre, _val d ["category"] None = PStr s -> strip s ≠ EmptyString ->
       pre `prefix_of` split "/" s -> pre ≠ [] ->
       uid (PStr <$> value PROCESS :: pre) ∈ st'.2).
Proof.
  intros Hc Hrun. unfold write_process in Hrun.
  destruct (_category _ _ _ _ st) as [r st1] eqn:Hcat.
  apply category_spec in Hcat as (Hc1 & Hsub & Hpre); [|done].
  destruct (py_iter _); [|done]. injection Hrun as <-.
  split; [by apply consistent_process|]. split; [done|]. exact Hpre.
Qed.

Lemma write_loop_spec ds : forall st st',
  consistent st ->
  write_loop uuid3_oid repr ds st = Ok st' ->
  consistent st' ∧ st.2 ⊆ st'.2
  ∧ (forall d s pre, d ∈ ds ->
       _val d ["category"] None = PStr s -> strip s ≠ EmptyString ->
       pre `prefix_of` split "/" s -> pre ≠ [] ->
       uid (PStr <$> value PROCESS :: pre) ∈ st'.2).
Proof.
  induction ds as [|d ds IH]; intros st st' Hc Hrun; simpl in Hrun.
  - injection Hrun as <-. split; [done|]. split; [done|].
    intros d s pre Hd. by apply elem_of_nil in Hd.
  - destruct (write_process uuid3_oid repr d st) as [st1|] eqn:Hd; [|done].
    simpl in Hrun.
    apply write_process_spec in Hd as (Hc1 & Hsub1 & Hpre1); [|done].
    apply IH in Hrun as (Hc' & Hsub' & Hpre'); [|done].
    split; [done|]. split; [by etrans|].
    intros d' s pre [->|Hin]%elem_of_cons Hs Hne Hp Hpne.
    + apply Hsub'. by eapply Hpre1.
    + by eapply Hpre'.
Qed.

Lemma filter_eq_absent (l : list string) u :
  u ∉ l -> filter (fun x => x = u) l = [].
Proof.
  induction l as [|x l IH]; intros Hu; [done|].
  apply not_elem_of_cons in Hu as [Hne Hu].
  rewrite filter_cons, decide_False by done. by apply IH.
Qed.

Lemma NoDup_count_one (l : list string) u :
  NoDup l -> u ∈ l -> length (filter (fun x => x = u) l) = 1.
Proof.
  induction 1 as [|x l Hx Hnd IH]; intros Hu; [by apply elem_of_nil in Hu|].
  rewrite filter_cons. apply elem_of_cons in Hu as [->|Hu].
  - rewrite decide_True by done. simpl. f_equal.
    by rewrite filter_eq_absent.
  - rewrite decide_False; [by apply IH|]. intros ->. done.
Qed.

(** The record that one iteration of [write] hands to the archive writer. *)
Lemma write_process_record d st st' :
  write_process uuid3_oid repr d st = Ok st' ->
  (forall e, e ∈ st.1 -> e ∈ st'.1)
  ∧ exists p, EProcess p ∈ st'.1
      ∧ p_name p = _val d ["name"] None
      ∧ p_id p = uid [PModelType PROCESS; _val d ["category"] None;
                      _val d ["name"] None].
Proof.
  unfold write_process. intros Hrun.
  destruct (_category _ _ _ _ st) as [r st1] eqn:Hcat.
  assert (Hmono : forall e, e ∈ st.1 -> e ∈ st1.1).
  { unfold _category in Hcat.
    assert (Hloop : forall todo done parent s r' s',
      _category_loop uuid3_oid repr PROCESS done todo parent s = (r', s') ->
      forall e, e ∈ s.1 -> e ∈ s'.1).
    { induction todo as [|part todo IH]; intros done parent s r' s' H e He;
        simpl in H; [by injection H as <- <-|].
      eapply IH; [exact H|]. case_decide; simpl; [done|].
      apply elem_of_app. by left. }
    destruct (_val d ["category"] None) as [| | | |s| | |];
      try (by injection Hcat as <- <-).
    destruct (String.eqb _ _); [by injection Hcat as <- <-|].
    by eapply Hloop. }
  destruct (py_iter _) as [es|]; [|done]. injection Hrun as <-. simpl. split.
  - intros e He. apply elem_of_app. left. by apply Hmono.
  - eexists. split; [apply elem_of_app; right; apply list_elem_of_singleton; done|].
    done.
Qed.

Lemma write_loop_record ds : forall st st' d,
  write_loop uuid3_oid repr ds st = Ok st' ->
  (forall e, e ∈ st.1 -> e ∈ st'.1)
  ∧ (d ∈ ds ->
     exists p, EProcess p ∈ st'.1
      ∧ p_name p = _val d ["name"] None
      ∧ p_id p = uid [PModelType PROCESS; _val d ["category"] None;
                      _val d ["name"] None]).
Proof.
  induction ds as [|d0 ds IH]; intros st st' d Hrun; simpl in Hrun.
  - injection Hrun as <-. split; [done|]. intros H. by apply elem_of_nil in H.
  - destruct (write_process uuid3_oid repr d0 st) as [st1|] eqn:Hd; [|done].
    simpl in Hrun.
    apply write_process_record in Hd as (Hm1 & p & Hp & Hn & Hi).
    destruct (IH _ _ d Hrun) as (Hm2 & Hrest).
    split; [by intros e He; apply Hm2, Hm1|].
    intros [->|Hin]%elem_of_cons; [|by apply Hrest].
    exists p. split; [by apply Hm2|done].
Qed.

Lemma write_inv processes archive :
  write uuid3_oid repr processes = Ok archive ->
  exists created,
    write_loop uuid3_oid repr (processes.*2) ([], ∅) = Ok (archive, created).
Proof.
  unfold write. intros H.
  destruct (write_loop _ _ _ _) as [[a c]|] eqn:E; [|done].
  injection H as <-. by exists c.
Qed.

Lemma process_uid c n :
  uid [PModelType PROCESS; PStr c; PStr n]
  = uuid3_oid (join "/" ["modeltype.process"; strip (lower c); strip (lower n)]).
Proof. by rewrite uid_lowered. Qed.

(** C1: two processes whose category path and name agree after lower-casing
    get the same process identifier, in one run of [write] or in two; the
    identifier is [uuid3] of the lower-cased model-type tag, category path
    and name, each stripped and joined by a slash. *)
Theorem process_id_deterministic processes1 processes2 archive1 archive2
    k1 k2 d1 d2 c1 c2 n1 n2 :
  write uuid3_oid repr processes1 = Ok archive1 ->
  write uuid3_oid repr processes2 = Ok archive2 ->
  (k1, d1) ∈ processes1 ->
  (k2, d2) ∈ processes2 ->
  _val d1 ["category"] None = PStr c1 ->
  _val d1 ["name"] None = PStr n1 ->
  _val d2 ["category"] None = PStr c2 ->
  _val d2 ["name"] None = PStr n2 ->
  lower c1 = lower c2 ->
  lower n1 = lower n2 ->
  exists p1 p2,
    EProcess p1 ∈ archive1 ∧ EProcess p2 ∈ archive2
    ∧ p_name p1 = PStr n1 ∧ p_name p2 = PStr n2
    ∧ p_id p1 = p_id p2
    ∧ p_id p1 = uuid3_oid (join "/" ["modeltype.process"; strip (lower c1);
                                     strip (lower n1)]).
Proof.
  intros [cr1 H1]%write_inv [cr2 H2]%write_inv Hin1 Hin2 Hc1 Hn1 Hc2 Hn2 Hc Hn.
  destruct (write_loop_record _ _ _ d1 H1) as (_ & Hp1).
  destruct (write_loop_record _ _ _ d2 H2) as (_ & Hp2).
  destruct Hp1 as (p1 & Hp1 & Hname1 & Hid1).
  { apply list_elem_of_fmap. by exists (k1, d1). }
  destruct Hp2 as (p2 & Hp2 & Hname2 & Hid2).
  { apply list_elem_of_fmap. by exists (k2, d2). }
  exists p1, p2. simpl in *.
  rewrite Hc1, Hn1 in *. rewrite Hc2, Hn2 in *.
  rewrite process_uid in Hid1, Hid2.
  repeat split; try done. by rewrite Hid1, Hid2, Hc, Hn.
Qed.

(** C7: in one run of [write] no two Category records carry the same
    identifier; every non-empty prefix of the category path of every process
    has exactly one Category record; and every Category record is the record
    of a path [done ++ [part]], named by [part] and linked to the category of
    [done] through the identifier of that path. *)
Theorem category_created_once processes archive :
  write uuid3_oid repr processes = Ok archive ->
  NoDup (category_ids archive)
  ∧ (forall k d s pre,
       (k, d) ∈ processes ->
       _val d ["category"] None = PStr s ->
       strip s ≠ EmptyString ->
       pre `prefix_of` split "/" s ->
       pre ≠ [] ->
       length (filter (fun x => x = uid (PStr <$> value PROCESS :: pre))
                 (category_ids archive)) = 1)
  ∧ (forall c, ECategory c ∈ archive ->
       exists mtype done part, c = category_record mtype done part).
Proof.
  intros [created Hrun]%write_inv.
  apply write_loop_spec in Hrun as ((Hnd & Hset & Hrec) & _ & Hpre);
    [|apply consistent_empty].
  split; [done|]. split; [|done].
  intros k d s pre Hin Hs Hne Hp Hpne.
  apply NoDup_count_one; [done|]. apply Hset.
  eapply Hpre; try done. apply list_elem_of_fmap. by exists (k, d).
Qed.

(** C9, in the form that the code satisfies: a process whose 'category' is
    not a string, or is an empty or white-space-only string, gets no
    category: [_category] returns no reference and leaves the archive and
    the created identifiers as they were.  When the 'exchanges' of the
    entry can be iterated, [write] returns, having written no Category
    record and the Process record of the entry, with its name, its
    identifier, its exchanges and a null category; when they cannot (the
    entry is None, say), [write] raises TypeError. *)
Theorem blank_category_tolerated k d st :
  blank_category (_val d ["category"] None) ->
  _category uuid3_oid repr (_val d ["category"] None) PROCESS st = (None, st)
  ∧ match py_iter (_val d ["exchanges"] (Some (PList []))) with
    | Some es =>
        let p := {| p_name := _val d ["name"] None;
                    p_id := _uid uuid3_oid repr
                              [PModelType PROCESS; _val d ["category"] None;
                               _val d ["name"] None];
                    p_category := None;
                    p_exchanges := exchanges_loop es 0 |} in
        write_process uuid3_oid repr d st = Ok (st.1 ++ [EProcess p], st.2)
        ∧ write uuid3_oid repr [(k, d)] = Ok [EProcess p]
    | None =>
        write_process uuid3_oid repr d st = Raise TypeError
        ∧ write uuid3_oid repr [(k, d)] = Raise TypeError
    end.
Proof.
  intros Hblank.
  assert (Hcat : forall st0,
    _category uuid3_oid repr (_val d ["category"] None) PROCESS st0 = (None, st0)).
  { intros st0. unfold _category.
    destruct (_val d ["category"] None) as [| | | |s| | |]; try done.
    simpl in Hblank. apply strip_empty in Hblank. by rewrite Hblank. }
  split; [apply Hcat|].
  unfold write. cbn [fmap list_fmap snd write_loop]. unfold write_process.
  rewrite !Hcat.
  destruct (py_iter (_val d ["exchanges"] (Some (PList [])))) as [es|]; done.
Qed.
End Props.
End WriterProps.

Module FillProps.
Import Pandas Combinator CombinatorSpec.

Lemma series_at_first_by (l : list (val * val)) : forall seen k,
  series_at (first_by fst seen l) k
  = if bool_decide (k ∈ seen) then None else series_at l k.
Proof.
  induction l as [|[i v] l IH]; intros seen k; simpl.
  - by case_bool_decide.
  - case_bool_decide as Hi.
    + rewrite IH. case_bool_decide as Hk; [done|].
      case_bool_decide; [by subst|done].
    + simpl. rewrite IH.
      case_bool_decide as Hik.
      * subst. by rewrite bool_decide_eq_false_2.
      * case_bool_decide as H1; case_bool_decide as H2; try done.
        -- apply elem_of_cons in H1 as [->|]; done.
        -- exfalso. apply H1. by right.
Qed.

Lemma series_at_key_df key_column col rs k :
  series_at (key_df key_column col rs) k = first_value key_column col rs k.
Proof.
  unfold key_df. rewrite series_at_first_by.
  rewrite bool_decide_eq_false_2 by apply not_elem_of_nil.
  induction rs as [|r rs IH]; [done|]. cbn [omap list_omap first_value].
  destruct (r !! key_column) as [k'|]; cbn [mbind option_bind]; [|done].
  destruct (r !! col) as [v|]; cbn [mbind option_bind series_at]; [|done].
  by rewrite IH.
Qed.

Lemma first_value_elem key_column col rs k v :
  first_value key_column col rs k = Some v ->
  exists r, r ∈ rs ∧ r !! key_column = Some k ∧ r !! col = Some v.
Proof.
  induction rs as [|r rs IH]; simpl; [done|].
  destruct (r !! key_column) as [k'|] eqn:Hk;
    [destruct (r !! col) as [w|] eqn:Hc; [case_bool_decide|]|].
  - intros [= <-]. exists r. subst. split; [left|done].
  - intros (r0 & ? & ?)%IH. exists r0. split; [by right|done].
  - intros (r0 & ? & ?)%IH. exists r0. split; [by right|done].
  - intros (r0 & ? & ?)%IH. exists r0. split; [by right|done].
Qed.

Lemma set_cell_lookup c o (r : Row) c' :
  set_cell c o r !! c' = if bool_decide (c = c') then o else r !! c'.
Proof.
  unfold set_cell. destruct o; case_bool_decide; subst.
  - apply lookup_insert_eq.
  - by apply lookup_insert_ne.
  - apply lookup_delete_eq.
  - by apply lookup_delete_ne.
Qed.

Lemma fill_column_rows key_column df col :
  rows (fill_column key_column df col)
  = fill_row key_column col (rows df) <$> rows df.
Proof.
  unfold fill_column. simpl. apply list_fmap_ext. intros _ r _.
  unfold fill_row. destruct (r !! col); [done|]. f_equal.
  destruct (r !! key_column); simpl; [|done]. apply series_at_key_df.
Qed.

Lemma fill_row_lookup key_column col rs r c :
  fill_row key_column col rs r !! c
  = if bool_decide (c = col)
    then match r !! c with
         | Some v => Some v
         | None => r !! key_column ≫= first_value key_column c rs
         end
    else r !! c.
Proof.
  unfold fill_row. destruct (r !! col) eqn:E.
  - case_bool_decide; [subst; by rewrite E|done].
  - rewrite set_cell_lookup. case_bool_decide; subst.
    + rewrite bool_decide_eq_true_2 by done. by rewrite E.
    + by rewrite bool_decide_eq_false_2.
Qed.

(** The lookup of a column is not changed by a pass over another or over
    the same column. *)
Lemma first_value_other key_column c0 c (G : list Row) rs k :
  key_column ≠ c0 -> c ≠ c0 ->
  first_value key_column c (fill_row key_column c0 G <$> rs) k
  = first_value key_column c rs k.
Proof.
  intros Hk Hc. induction rs as [|r rs IH]; [done|].
  rewrite fmap_cons. cbn [first_value].
  rewrite !fill_row_lookup, !bool_decide_eq_false_2 by done. by rewrite IH.
Qed.

Lemma first_value_same_none key_column c0 (G : list Row) rs k :
  key_column ≠ c0 ->
  first_value key_column c0 G k = None ->
  first_value key_column c0 (fill_row key_column c0 G <$> rs) k
  = first_value key_column c0 rs k.
Proof.
  intros Hk HG. induction rs as [|r rs IH]; [done|].
  rewrite fmap_cons. cbn [first_value].
  rewrite !fill_row_lookup, bool_decide_eq_false_2 by done.
  rewrite bool_decide_eq_true_2 by done.
  destruct (r !! key_column) as [k'|]; [|done].
  destruct (r !! c0) as [v|]; [by rewrite IH|]. simpl.
  destruct (first_value key_column c0 G k') as [w|] eqn:E; [|done].
  case_bool_decide; [congruence|done].
Qed.

Lemma first_value_same_some key_column c0 (G : list Row) rs k v :
  key_column ≠ c0 ->
  first_value key_column c0 G k = Some v ->
  first_value key_column c0 rs k = Some v ->
  first_value key_column c0 (fill_row key_column c0 G <$> rs) k = Some v.
Proof.
  intros Hk HG. induction rs as [|r rs IH]; [done|].
  rewrite fmap_cons. cbn [first_value].
  rewrite !fill_row_lookup, bool_decide_eq_false_2 by done.
  rewrite bool_decide_eq_true_2 by done.
  destruct (r !! key_column) as [k'|]; [|done].
  destruct (r !! c0) as [w|]; [by case_bool_decide|]. simpl.
  intros H. destruct (first_value key_column c0 G k') as [w|] eqn:E.
  - case_bool_decide; [congruence|by apply IH].
  - by apply IH.
Qed.

Lemma first_value_fill_column key_column df c0 c k :
  key_column ≠ c0 ->
  first_value key_column c (rows (fill_column key_column df c0)) k
  = first_value key_column c (rows df) k.
Proof.
  intros Hk. rewrite fill_column_rows.
  destruct (decide (c = c0)) as [->|Hc]; [|by apply first_value_other].
  destruct (first_value key_column c0 (rows df) k) as [v|] eqn:E.
  - by apply first_value_same_some.
  - rewrite first_value_same_none; done.
Qed.

Lemma bind_first_value_fill_column key_column df c0 c (o : option val) :
  key_column ≠ c0 ->
  o ≫= first_value key_column c (rows (fill_column key_column df c0))
  = o ≫= first_value key_column c (rows df).
Proof.
  intros Hk. destruct o; [|done]. by apply first_value_fill_column.
Qed.

Lemma key_filled cols : forall key_column df,
  key_column ∉ cols ->
  columns (foldl (fill_column key_column) df cols) = columns df
  ∧ Forall2 (fun r r' : Row =>
               forall c, r' !! c = key_filled_cell key_column cols (rows df) r c)
      (rows df) (rows (foldl (fill_column key_column) df cols)).
Proof.
  induction cols as [|c0 cols IH]; intros key_column df Hk; simpl.
  - split; [done|]. apply Forall2_same_length_lookup_2; [done|].
    intros i r r' H1 H2 c. simplify_eq. unfold key_filled_cell.
    rewrite bool_decide_eq_false_2 by apply not_elem_of_nil. by destruct (_ !! c).
  - apply not_elem_of_cons in Hk as [Hk0 Hk].
    destruct (IH key_column (fill_column key_column df c0) Hk) as [Hcols Hrows].
    split; [by rewrite Hcols|].
    rewrite fill_column_rows in Hrows at 1. apply Forall2_fmap_l in Hrows.
    eapply Forall2_impl; [exact Hrows|]. intros r r' H c. unfold compose in H.
    rewrite H. unfold key_filled_cell.
    rewrite bind_first_value_fill_column by done.
    rewrite !fill_row_lookup. rewrite (bool_decide_eq_false_2 (key_column = c0)) by done.
    case_bool_decide as Hc.
    + subst c. rewrite (bool_decide_eq_true_2 (c0 ∈ c0 :: cols)) by left.
      destruct (r !! c0); [done|].
      destruct (r !! key_column ≫= first_value key_column c0 (rows df)) eqn:E; [done|].
      by case_bool_decide.
    + destruct (r !! c); [done|].
      case_bool_decide as H1; case_bool_decide as H2; try done.
      * exfalso. apply H2. by right.
      * apply elem_of_cons in H2 as [?|?]; done.
Qed.

Lemma has_column_true df c : has_column df c = true <-> c ∈ columns df.
Proof. unfold has_column. apply bool_decide_eq_true. Qed.

Lemma has_column_false df c : has_column df c = false <-> c ∉ columns df.
Proof. unfold has_column. apply bool_decide_eq_false. Qed.

Lemma has_columns_true df cs :
  has_columns df cs = true <-> forall c, c ∈ cs -> c ∈ columns df.
Proof.
  unfold has_columns. rewrite forallb_forall. split; intros H c Hc.
  - apply has_column_true, H. by apply list_elem_of_In.
  - apply has_column_true, H. by apply list_elem_of_In.
Qed.

Lemma elem_of_add_column c c' cols :
  c' ∈ add_column c cols <-> c' = c ∨ c' ∈ cols.
Proof.
  unfold add_column. case_bool_decide.
  - split; [by right|]. by intros [->|].
  - rewrite elem_of_app, list_elem_of_singleton. tauto.
Qed.

Lemma add_column_present c cols : c ∈ cols -> add_column c cols = cols.
Proof. intros H. unfold add_column. by rewrite bool_decide_eq_true_2. Qed.

Lemma add_column_idemp c cols :
  add_column c (add_column c cols) = add_column c cols.
Proof. apply add_column_present, elem_of_add_column. by left. Qed.

Section Fill.
Variable plant_ba_State : val -> option val.

Abbreviation fill_nans := (Combinator.fill_nans plant_ba_State).
Abbreviation filled_cell := (CombinatorSpec.filled_cell plant_ba_State).

Lemma fill_nans_ok df key_column target_columns dropna_ :
  key_column ∈ columns df ->
  "eGRID_ID" ∈ columns df ->
  key_column ∉ targets_or_default target_columns ->
  exists filled,
    Forall2 (fun r r' : Row =>
               forall c, r' !! c
                 = filled_cell key_column
                     (filter (fun x => x ∈ columns df)
                        (targets_or_default target_columns))
                     (has_column df "State") (rows df) r c)
      (rows df) filled
    ∧ fill_nans df key_column target_columns dropna_
      = (fill_warnings df target_columns,
         Ok {| columns := add_column "State" (columns df);
               rows := if dropna_
                       then filter (fun r => complete
                                      (confirmed_target df target_columns) r)
                              filled
                       else filled |}).
Proof.
  intros Hkey Hegrid Hnot.
  set (cols := filter (fun x => x ∈ columns df) (targets_or_default target_columns)).
  assert (Hk : key_column ∉ cols).
  { intros [_ H]%list_elem_of_filter. done. }
  destruct (key_filled cols key_column df Hk) as [Hcols Hrows].
  unfold Combinator.fill_nans. fold cols.
  rewrite (proj2 (has_column_true df key_column) Hkey). cbn [negb].
  set (kf := foldl (fill_column key_column) df cols) in *.
  assert (HS : has_column kf "State" = has_column df "State").
  { unfold has_column. by rewrite Hcols. }
  rewrite HS. unfold confirmed_target. fold cols.
  destruct (has_column df "State") eqn:Hst; cbn [negb].
  - (* the column exists *)
    eexists. split; [|unfold state_fallback].
    2:{ rewrite (proj2 (has_column_true kf "eGRID_ID")) by by rewrite Hcols.
        cbn [mbind Result_bind]. unfold dropna, assign_where. cbn [columns rows].
        rewrite Hcols, app_nil_r.
        rewrite add_column_present by by apply has_column_true.
        replace (has_columns _ cols) with true.
        2:{ symmetry. apply has_columns_true. cbn [columns].
            intros c [H _]%list_elem_of_filter. done. }
        destruct dropna_; reflexivity. }
    apply Forall2_fmap_r. eapply Forall2_impl; [exact Hrows|].
    intros r r' H c. cbn beta.
    unfold CombinatorSpec.filled_cell. rewrite <- !H.
    case_bool_decide as Hn.
    + rewrite set_cell_lookup, Hn.
      case_bool_decide; subst.
      * by rewrite bool_decide_eq_true_2.
      * by rewrite bool_decide_eq_false_2.
    + case_bool_decide; [|done]. subst. by destruct (r' !! "State").
  - (* the column is created *)
    eexists. split; [|unfold state_fallback].
    2:{ replace (has_column (assign "State" _ kf) "eGRID_ID") with true.
        2:{ symmetry. apply has_column_true. cbn [assign columns].
            apply elem_of_add_column. right. by rewrite Hcols. }
        cbn [mbind Result_bind]. unfold dropna, assign_where, assign.
        cbn [columns rows]. rewrite Hcols, add_column_idemp.
        replace (has_columns _ (cols ++ ["State"])) with true.
        2:{ symmetry. apply has_columns_true. cbn [columns].
            intros c [[H _]%list_elem_of_filter|H]%elem_of_app;
              apply elem_of_add_column; [by right|].
            apply list_elem_of_singleton in H. by left. }
        destruct dropna_; reflexivity. }
    apply Forall2_fmap_r, Forall2_fmap_r. eapply Forall2_impl; [exact Hrows|].
    intros r r' H c. cbn beta.
    rewrite bool_decide_eq_true_2 by apply lookup_delete_eq.
    rewrite !set_cell_lookup. unfold CombinatorSpec.filled_cell.
    rewrite (bool_decide_eq_false_2 ("State" = "eGRID_ID")) by done.
    case_bool_decide as Hc; subst.
    + rewrite bool_decide_eq_true_2 by done. by rewrite H.
    + rewrite bool_decide_eq_false_2 by done. apply H.
Qed.

Lemma fill_nans_no_key df key_column target_columns dropna_ :
  key_column ∉ columns df ->
  fill_nans df key_column target_columns dropna_
  = (fill_warnings df target_columns ++ [key_warning key_column], Raise KeyError).
Proof.
  intros H. unfold Combinator.fill_nans.
  by rewrite (proj2 (has_column_false df key_column) H).
Qed.

Lemma foldl_fill_column_columns key_column cols : forall df,
  columns (foldl (fill_column key_column) df cols) = columns df.
Proof. induction cols as [|c cols IH]; intros df; simpl; [done|]. by rewrite IH. Qed.

Lemma fill_nans_no_egrid df key_column target_columns dropna_ :
  key_column ∈ columns df ->
  "eGRID_ID" ∉ columns df ->
  fill_nans df key_column target_columns dropna_
  = (fill_warnings df target_columns, Raise KeyError).
Proof.
  intros Hk He. unfold Combinator.fill_nans.
  rewrite (proj2 (has_column_true df key_column) Hk). cbn [negb].
  set (kf := foldl _ _ _).
  assert (Hcols : columns kf = columns df) by apply foldl_fill_column_columns.
  destruct (negb (has_column kf "State")); unfold state_fallback.
  - replace (has_column (assign "State" _ kf) "eGRID_ID") with false; [done|].
    symmetry. apply has_column_false. cbn [assign columns].
    rewrite elem_of_add_column, Hcols. intros [?|?]; done.
  - replace (has_column kf "eGRID_ID") with false; [done|].
    symmetry. apply has_column_false. by rewrite Hcols.
Qed.

Lemma fill_nans_ok_inv df key_column target_columns dropna_ df' :
  (fill_nans df key_column target_columns dropna_).2 = Ok df' ->
  key_column ∈ columns df ∧ "eGRID_ID" ∈ columns df.
Proof.
  intros H. destruct (decide (key_column ∈ columns df)) as [Hk|Hk].
  - split; [done|]. destruct (decide ("eGRID_ID" ∈ columns df)) as [He|He]; [done|].
    by rewrite fill_nans_no_egrid in H.
  - by rewrite fill_nans_no_key in H.
Qed.
End Fill.
End FillProps.

Module FillTheorems.
Import Pandas Combinator CombinatorSpec FillProps.
Section Fill.
Variable plant_ba_State : val -> option val.

Abbreviation fill_nans := (Combinator.fill_nans plant_ba_State).
Abbreviation filled_cell := (CombinatorSpec.filled_cell plant_ba_State).

Lemma elem_of_confirmed df (targets : list string) c :
  c ∈ columns df ->
  bool_decide (c ∈ filter (fun x => x ∈ columns df) targets)
  = bool_decide (c ∈ targets).
Proof.
  intros Hc. apply bool_decide_ext. rewrite list_elem_of_filter. tauto.
Qed.

(** C5: [fill_nans] leaves every non-null cell as it was; a null cell of a
    target column receives the value that the first row with the same key,
    a non-null key and a non-null value in that column has there (and a
    null "State" for which there is no such row, the fallback value).  Rows
    are compared by position; with [dropna] the rows still incomplete are
    removed afterwards. *)
Theorem fill_nans_only_fills_nulls df key_column target_columns dropna_ df' :
  key_column ∉ targets_or_default target_columns ->
  (fill_nans df key_column target_columns dropna_).2 = Ok df' ->
  exists filled,
    rows df' = (if dropna_
                then filter (fun r => complete
                               (confirmed_target df target_columns) r) filled
                else filled)
    ∧ Forall2 (fun r r' : Row => forall c, c ∈ columns df ->
         match r !! c with
         | Some v => r' !! c = Some v
         | None =>
             let from_key :=
               if bool_decide (c ∈ targets_or_default target_columns)
               then r !! key_column ≫= first_value key_column c (rows df)
               else None in
             if bool_decide (c = "State")
             then r' !! c = match from_key with
                            | Some v => Some v
                            | None => r' !! "eGRID_ID" ≫= plant_ba_State
                            end
             else r' !! c = from_key
         end) (rows df) filled.
Proof.
  intros Hnot Hok.
  destruct (fill_nans_ok_inv _ _ _ _ _ _ Hok) as [Hk He].
  destruct (fill_nans_ok plant_ba_State df key_column target_columns dropna_
              Hk He Hnot) as (filled & Hrows & Heq).
  rewrite Heq in Hok. injection Hok as <-. exists filled. split; [done|].
  eapply Forall2_impl; [exact Hrows|]. intros r r' H c Hc. cbn beta in H.
  pose proof (H c) as Hcell. pose proof (H "eGRID_ID") as Heg.
  unfold CombinatorSpec.filled_cell in Hcell, Heg.
  rewrite (bool_decide_eq_false_2 ("eGRID_ID" = "State")) in Heg by done.
  rewrite <- Heg in Hcell. clear Heg. unfold key_filled_cell in Hcell.
  case_bool_decide as HS.
  - subst c. rewrite (proj2 (has_column_true df "State") Hc) in Hcell.
    rewrite elem_of_confirmed in Hcell by done.
    destruct (r !! "State"); [done|]. cbn zeta. exact Hcell.
  - rewrite elem_of_confirmed in Hcell by done.
    destruct (r !! c); [done|]. exact Hcell.
Qed.

(** When [fill_nans] raises: exactly when the key column or the column
    "eGRID_ID", which the "State" fallback reads, is absent from the table.
    It logs one warning for every requested target column that is absent
    (and one for an absent key column), and when it returns, every
    requested column that is present has been filled. *)
Lemma fill_nans_raises_iff df key_column target_columns dropna_ :
  key_column ∉ targets_or_default target_columns ->
  let out := fill_nans df key_column target_columns dropna_ in
  (out.2 = Raise KeyError
     <-> key_column ∉ columns df ∨ "eGRID_ID" ∉ columns df)
  ∧ (out.2 = Raise KeyError ∨ exists df', out.2 = Ok df')
  ∧ out.1 = (column_warning
               <$> filter (fun x => x ∉ columns df)
                     (targets_or_default target_columns))
            ++ (if bool_decide (key_column ∈ columns df) then []
                else [key_warning key_column])
  ∧ (key_column ∈ columns df -> "eGRID_ID" ∈ columns df ->
     exists df' filled,
       out.2 = Ok df'
       ∧ rows df' = (if dropna_
                     then filter (fun r => complete
                                    (confirmed_target df target_columns) r)
                            filled
                     else filled)
       ∧ Forall2 (fun r r' : Row => forall c,
            c ∈ targets_or_default target_columns ->
            c ∈ columns df -> c ≠ "State" ->
            r' !! c = match r !! c with
                      | Some v => Some v
                      | None => r !! key_column
                                ≫= first_value key_column c (rows df)
                      end) (rows df) filled).
Proof.
  intros Hnot out. subst out.
  destruct (decide (key_column ∈ columns df)) as [Hk|Hk].
  2:{ rewrite fill_nans_no_key by done. cbn [fst snd].
      rewrite bool_decide_eq_false_2 by done.
      split; [split; [by left|done]|]. split; [by left|]. split; [done|]. done. }
  destruct (decide ("eGRID_ID" ∈ columns df)) as [He|He].
  2:{ rewrite fill_nans_no_egrid by done. cbn [fst snd].
      rewrite bool_decide_eq_true_2, app_nil_r by done.
      split; [split; [by right|done]|]. split; [by left|]. split; [done|]. done. }
  destruct (fill_nans_ok plant_ba_State df key_column target_columns dropna_
              Hk He Hnot) as (filled & Hrows & Heq).
  rewrite Heq. cbn [fst snd]. rewrite bool_decide_eq_true_2, app_nil_r by done.
  split; [split; [done|by intros [?|?]]|].
  split; [right; by eexists|]. split; [done|]. intros _ _.
  eexists _, filled. split; [done|]. split; [done|].
  eapply Forall2_impl; [exact Hrows|]. intros r r' H c Hc Hcol HS.
  cbn beta in H. rewrite H. unfold CombinatorSpec.filled_cell, key_filled_cell.
  rewrite bool_decide_eq_false_2 by done.
  rewrite elem_of_confirmed by done. by rewrite bool_decide_eq_true_2.
Qed.

Lemma complete_app a b (r : Row) :
  complete (a ++ b) r = complete a r && complete b r.
Proof. unfold complete. apply forallb_app. Qed.

Lemma complete_insert_other cs c v (r : Row) :
  c ∉ cs -> complete cs (<[c:=v]> r) = complete cs r.
Proof.
  unfold complete. induction cs as [|x cs IH]; intros H; simpl; [done|].
  apply not_elem_of_cons in H as [Hx H].
  rewrite lookup_insert_ne by done. by rewrite IH.
Qed.

(** C10: when the table has no "State" column, [fill_nans] with [dropna]
    creates the column and puts it among the columns that [dropna] checks;
    the returned rows are the key-filled rows, each with "State" set to the
    fallback value at its "eGRID_ID", without those rows whose fallback
    lookup gives nothing or that are incomplete in another target column. *)
Theorem fill_nans_creates_state df key_column target_columns df' :
  "State" ∉ columns df ->
  key_column ∉ targets_or_default target_columns ->
  (fill_nans df key_column target_columns true).2 = Ok df' ->
  let confirmed :=
    filter (fun x => x ∈ columns df) (targets_or_default target_columns) in
  "State" ∈ columns df'
  ∧ confirmed_target df target_columns = confirmed ++ ["State"]
  ∧ rows df'
    = omap (fun r : Row =>
              v ← r !! "eGRID_ID" ≫= plant_ba_State;
              if complete confirmed r then Some (<["State" := v]> r) else None)
        (rows (foldl (fill_column key_column) df confirmed))
  ∧ (forall r', r' ∈ rows df' ->
       exists v, r' !! "State" = Some v
                 ∧ r' !! "eGRID_ID" ≫= plant_ba_State = Some v).
Proof.
  intros HS Hnot Hok confirmed.
  destruct (fill_nans_ok_inv _ _ _ _ _ _ Hok) as [Hk He].
  assert (Hconf : confirmed_target df target_columns = confirmed ++ ["State"]).
  { unfold confirmed_target. by rewrite (proj2 (has_column_false df "State") HS). }
  assert (Hrows : rows df'
    = omap (fun r : Row =>
              v ← r !! "eGRID_ID" ≫= plant_ba_State;
              if complete confirmed r then Some (<["State" := v]> r) else None)
        (rows (foldl (fill_column key_column) df confirmed))
    ∧ "State" ∈ columns df').
  { unfold Combinator.fill_nans in Hok. fold confirmed in Hok.
    rewrite (proj2 (has_column_true df key_column) Hk) in Hok. cbn [negb] in Hok.
    set (kf := foldl (fill_column key_column) df confirmed) in *.
    assert (Hcols : columns kf = columns df) by apply foldl_fill_column_columns.
    replace (has_column kf "State") with false in Hok.
    2:{ symmetry. apply has_column_false. by rewrite Hcols. }
    cbn [negb snd] in Hok. unfold state_fallback in Hok.
    replace (has_column (assign "State" _ kf) "eGRID_ID") with true in Hok.
    2:{ symmetry. apply has_column_true. cbn [assign columns].
        apply elem_of_add_column. right. by rewrite Hcols. }
    cbn [mbind Result_bind] in Hok. unfold dropna in Hok.
    destruct (has_columns _ _); [|done]. injection Hok as <-.
    cbn [rows columns assign assign_where]. split.
    2:{ apply elem_of_add_column. by left. }
    assert (HSc : "State" ∉ confirmed).
    { intros [H _]%list_elem_of_filter. done. }
    induction (rows kf) as [|r rs IH]; [done|].
    rewrite !fmap_cons, filter_cons. cbn [omap list_omap].
    rewrite <- IH. clear IH.
    rewrite bool_decide_eq_true_2 by apply lookup_delete_eq.
    cbn [set_cell]. rewrite lookup_delete_ne by done.
    destruct (r !! "eGRID_ID" ≫= plant_ba_State) as [v|] eqn:E;
      cbn [set_cell mbind option_bind].
    - rewrite insert_delete_eq.
      assert (Hcomp : complete (confirmed ++ ["State"]) (<["State" := v]> r)
                      = complete confirmed r).
      { rewrite complete_app, complete_insert_other by done.
        unfold complete at 2. cbn [forallb]. rewrite lookup_insert_eq.
        rewrite bool_decide_eq_true_2 by by eexists. by rewrite !andb_true_r. }
      rewrite Hcomp. destruct (complete confirmed r); reflexivity.
    - rewrite decide_False; [reflexivity|]. rewrite complete_app.
      unfold complete at 2. cbn [forallb]. rewrite !lookup_delete_eq.
      rewrite bool_decide_eq_false_2 by by intros [? ?].
      rewrite andb_false_r. intros H. exact H. }
  destruct Hrows as [Hrows Hcol]. split; [done|]. split; [done|]. split; [done|].
  intros r' Hr'. rewrite Hrows in Hr'.
  apply list_elem_of_omap in Hr' as (r & _ & Hr).
  destruct (r !! "eGRID_ID" ≫= plant_ba_State) as [v|] eqn:E; [|done].
  cbn [mbind option_bind] in Hr. destruct (complete confirmed r); [|done].
  injection Hr as <-. exists v. rewrite lookup_insert_eq.
  by rewrite lookup_insert_ne.
Qed.
End Fill.
End FillTheorems.

Module MapperProps.
Import Pandas Combinator MapperSpec FillProps.

Section Grouping.
Context {lib : Library}.

Lemma mapM_Ok {A B} (f : A -> Result B) l rs :
  mapM f l = Ok rs -> Forall2 (fun x r => f x = Ok r) l rs.
Proof.
  revert rs. induction l as [|x l IH]; intros rs; simpl.
  - intros [= <-]. constructor.
  - destruct (f x) as [y|] eqn:Hx; [|done]. simpl.
    destruct (mapM f l) as [k|]; [|done]. simpl. intros [= <-].
    constructor; [done|]. by apply IH.
Qed.



Lemma group_key_cells by_ (r : Row) k :
  group_key by_ r = Some k <-> cells by_ r = Some <$> k.
Proof.
  unfold group_key, cells. revert k.
  induction by_ as [|c by_ IH]; intros k.
  - simpl. split; [by intros [= <-]|]. destruct k; [done|]. done.
  - rewrite fmap_cons. cbn [mapM]. destruct (r !! c) as [v|]; simpl.
    + destruct (mapM _ by_) as [k'|] eqn:E; simpl.
      * split.
        -- intros [= <-]. rewrite fmap_cons. f_equal. by apply IH.
        -- destruct k as [|v' k]; [done|]. rewrite fmap_cons. intros [= -> H].
           apply IH in H. by injection H as ->.
      * split; [done|]. destruct k as [|v' k]; [done|].
        rewrite fmap_cons. intros [= -> H]. apply IH in H. done.
    + split; [done|]. by destruct k.
Qed.


Lemma group_key_length by_ (r : Row) k :
  group_key by_ r = Some k -> length k = length by_.
Proof.
  intros H%group_key_cells. unfold cells in H.
  apply (f_equal length) in H. by rewrite !length_fmap in H.
Qed.


Lemma set_cells_lookup_other kvs (m : Row) c :
  c ∉ kvs.*1 -> set_cells kvs m !! c = m !! c.
Proof.
  induction kvs as [|[k v] kvs IH]; intros H; simpl; [done|].
  rewrite fmap_cons in H. apply not_elem_of_cons in H as [Hk H]. simpl in Hk.
  rewrite set_cell_lookup, bool_decide_eq_false_2 by done. by apply IH.
Qed.

Lemma zip_lookup_key (by_ : list string) : forall (k : list val),
  NoDup by_ -> length k = length by_ ->
  group_key by_ (list_to_map (zip by_ k)) = Some k.
Proof.
  intros k Hnd Hlen. apply group_key_cells. unfold cells.
  revert k Hlen. induction Hnd as [|c by_ Hc Hnd IH]; intros k Hlen.
  - by destruct k.
  - destruct k as [|v k]; [done|]. simpl in Hlen. injection Hlen as Hlen.
    change (list_to_map (zip (c :: by_) (v :: k)))
      with (<[c:=v]> (list_to_map (zip by_ k) : Row)).
    rewrite !fmap_cons, lookup_insert_eq. f_equal.
    rewrite <- (IH k Hlen). apply list_fmap_ext. intros i c' Hc'.
    rewrite lookup_insert_ne; [done|]. intros ->.
    apply Hc. by eapply list_elem_of_lookup_2.
Qed.

Lemma group_key_set_cells by_ kvs (m : Row) :
  (forall c, c ∈ by_ -> c ∉ kvs.*1) ->
  group_key by_ (set_cells kvs m) = group_key by_ m.
Proof.
  intros H. unfold group_key. induction by_ as [|c by_ IH]; [done|].
  cbn [mapM]. rewrite set_cells_lookup_other by (apply H; left).
  rewrite IH; [done|]. intros c' Hc'. apply H. by right.
Qed.

Lemma set_cells_lookup kvs (m : Row) c v :
  NoDup kvs.*1 -> (c, v) ∈ kvs -> set_cells kvs m !! c = v.
Proof.
  induction kvs as [|[k w] kvs IH]; intros Hnd Hin; [by apply elem_of_nil in Hin|].
  rewrite fmap_cons in Hnd. apply NoDup_cons in Hnd as [Hk Hnd]. simpl in Hk.
  simpl. rewrite set_cell_lookup. apply elem_of_cons in Hin as [[= <- <-]|Hin].
  - by rewrite bool_decide_eq_true_2.
  - rewrite bool_decide_eq_false_2; [by apply IH|]. intros <-.
    apply Hk. apply list_elem_of_fmap. by exists (k, v).
Qed.

Lemma group_row_spec by_ spec rs k g :
  NoDup by_ -> NoDup spec.*1 -> (forall c, c ∈ by_ -> c ∉ spec.*1) ->
  length k = length by_ ->
  group_row by_ spec rs k = Ok g ->
  group_key by_ g = Some k
  ∧ forall c f, (c, f) ∈ spec ->
      aggregate f ((fun r : Row => r !! c) <$> group_members by_ k rs)
      = Ok (g !! c).
Proof.
  intros Hby Hspec Hdisj Hlen. unfold group_row.
  destruct (mapM _ spec) as [aggs|] eqn:E; [|done]. simpl. intros [= <-].
  apply mapM_Ok in E.
  assert (Hfst : aggs.*1 = spec.*1).
  { clear -E. induction E as [|[c f] [c' v] ? ? H ? IH]; [done|].
    rewrite !fmap_cons, IH. f_equal. simpl in H.
    destruct (aggregate _ _); [|done]. simpl in H. by injection H as -> _. }
  split.
  - rewrite group_key_set_cells by by rewrite Hfst. by apply zip_lookup_key.
  - intros c f Hin.
    apply list_elem_of_lookup in Hin as [i Hi].
    destruct (Forall2_lookup_l _ _ _ _ _ E Hi) as ([c' v] & Hi' & Hv).
    simpl in Hv. destruct (aggregate _ _) as [w|]; [|done]. simpl in Hv.
    injection Hv as <- <-. f_equal. symmetry. apply set_cells_lookup.
    + by rewrite Hfst.
    + by eapply list_elem_of_lookup_2.
Qed.

Lemma group_keys_spec by_ (rs : list Row) :
  NoDup (group_keys by_ rs)
  ∧ forall k, k ∈ group_keys by_ rs <-> exists r, r ∈ rs ∧ group_key by_ r = Some k.
Proof.
  unfold group_keys, sort_keys. split.
  - rewrite merge_sort_Permutation. apply NoDup_remove_dups.
  - intros k. rewrite merge_sort_Permutation, elem_of_remove_dups.
    rewrite list_elem_of_omap. done.
Qed.




Lemma groupby_agg_spec by_ spec df grp :
  NoDup by_ -> NoDup spec.*1 -> (forall c, c ∈ by_ -> c ∉ spec.*1) ->
  groupby_agg by_ spec df = Ok grp ->
  Forall2 (fun k (g : Row) =>
             group_key by_ g = Some k
             ∧ forall c f, (c, f) ∈ spec ->
                 aggregate f ((fun r : Row => r !! c)
                                <$> group_members by_ k (rows df))
                 = Ok (g !! c))
    (group_keys by_ (rows df)) (rows grp).
Proof.
  intros Hby Hspec Hdisj. unfold groupby_agg.
  destruct (has_columns _ _); [|done].
  destruct (mapM _ _) as [rs|] eqn:E; [|done]. simpl. intros [= <-]. simpl.
  apply mapM_Ok in E.
  assert (Hk : Forall (fun k => length k = length by_) (group_keys by_ (rows df))).
  { apply Forall_forall. intros k Hk. apply group_keys_spec in Hk as (r & _ & Hr).
    by eapply group_key_length. }
  revert Hk. induction E as [|k g ks gs Hkg E IH]; intros Hk; [constructor|].
  apply Forall_cons in Hk as [Hk1 Hk]. constructor; [|by apply IH].
  by eapply group_row_spec.
Qed.



Lemma groupby_cols_NoDup : NoDup groupby_cols.
Proof. apply (bool_decide_unpack _). vm_compute. exact I. Qed.



End Grouping.
End MapperProps.

Module CombinerProps.
Import Pandas Combinator CombinatorSpec CombinerSpec FillProps MapperProps.

Section Combiner.
Context {lib : Library}.
Variable plant_ba_State : val -> option val.
Variable ba_codes_BA_Name : val -> option val.
Variable ba_codes_FERC_Region : val -> option val.
Variable ba_codes_EIA_Region : val -> option val.
Variable keep_mixed_plant_category : bool.
Variable min_plant_percent_generation_from_primary_fuel_category : Qc.

Abbreviation fill_nans := (Combinator.fill_nans plant_ba_State).
Abbreviation combined_before_fill :=
  (Combinator.combined_before_fill ba_codes_BA_Name ba_codes_FERC_Region
     ba_codes_EIA_Region).
Abbreviation mixed_policy :=
  (Combinator.mixed_policy keep_mixed_plant_category
     min_plant_percent_generation_from_primary_fuel_category).
Abbreviation concat_clean_upstream_and_plant :=
  (Combinator.concat_clean_upstream_and_plant plant_ba_State ba_codes_BA_Name
     ba_codes_FERC_Region ba_codes_EIA_Region keep_mixed_plant_category
     min_plant_percent_generation_from_primary_fuel_category).
Abbreviation below :=
  (below_percent min_plant_percent_generation_from_primary_fuel_category).

Lemma bind_Ok {A B} (r : Result A) (k : A -> Result B) b :
  r ≫= k = Ok b -> exists a, r = Ok a ∧ k a = Ok b.
Proof. destruct r as [a|]; [|done]. intros H. by exists a. Qed.

Lemma concat_clean_inv pl_df up_df out :
  concat_clean_upstream_and_plant pl_df up_df = Ok out ->
  exists combined filled,
    combined_before_fill pl_df up_df = Ok combined
    ∧ (fill_nans combined "FacilityID" [] true).2 = Ok filled
    ∧ mixed_policy filled = Ok out.
Proof.
  unfold Combinator.concat_clean_upstream_and_plant.
  intros (combined & Hc & (filled & Hf & Hm)%bind_Ok)%bind_Ok.
  by exists combined, filled.
Qed.

Lemma below_threshold_spec (r : Row) b :
  below_threshold min_plant_percent_generation_from_primary_fuel_category r = Ok b ->
  b = below r.
Proof.
  unfold below_threshold, below_percent.
  destruct (r !! _) as [[s|q]|]; [done| |]; by intros [= <-].
Qed.

Lemma mixed_policy_spec filled out :
  mixed_policy filled = Ok out ->
  if keep_mixed_plant_category
  then Forall2 (fun r r' : Row => r' = if below r then mixed r else r)
         (rows filled) (rows out)
  else rows out = filter (fun r => negb (below r)) (rows filled).
Proof.
  unfold Combinator.mixed_policy. destruct (has_column _ _); [|done].
  intros (gf & Hgf & H)%bind_Ok. apply mapM_Ok in Hgf.
  assert (Hb : Forall2 (fun (r : Row) b => b = below r) (rows filled) gf).
  { eapply Forall2_impl; [exact Hgf|]. intros r b. apply below_threshold_spec. }
  clear Hgf. destruct keep_mixed_plant_category; injection H as <-; cbn [rows].
  - induction Hb as [|r b rs bs Hrb Hb IH]; [constructor|].
    cbn [zip zip_with]. rewrite fmap_cons. constructor; [|exact IH].
    cbn [fst snd]. by rewrite Hrb.
  - induction Hb as [|r b rs bs Hrb Hb IH]; [done|].
    cbn [zip zip_with]. rewrite !filter_cons. cbn [fst snd]. subst b.
    destruct (below r); cbn [negb].
    + rewrite decide_False by (intros H; exact H).
      rewrite decide_False by (intros H; exact H). exact IH.
    + rewrite decide_True by exact I. rewrite decide_True by exact I.
      rewrite fmap_cons. cbn [snd]. by rewrite IH.
Qed.

(** C8: of the table that [fill_nans] returns, a row whose share of the
    designated fuel category is below the configured threshold (a number
    below the float quotient of the threshold by 100) is relabelled FuelCategory "MIXED" and PrimaryFuel "Mixed Fuel Type" when
    the keep-mixed flag is set, and is absent from the returned table when
    it is not; every other row is returned as it is. *)
Theorem mixed_plant_policy pl_df up_df out :
  concat_clean_upstream_and_plant pl_df up_df = Ok out ->
  exists combined filled,
    combined_before_fill pl_df up_df = Ok combined
    ∧ (fill_nans combined "FacilityID" [] true).2 = Ok filled
    ∧ if keep_mixed_plant_category
      then Forall2 (fun r r' : Row =>
                      if below r
                      then r' = mixed r
                           ∧ r' !! "FuelCategory" = Some (VStr "MIXED")
                           ∧ r' !! "PrimaryFuel" = Some (VStr "Mixed Fuel Type")
                      else r' = r)
             (rows filled) (rows out)
      else rows out = filter (fun r => negb (below r)) (rows filled).
Proof.
  intros (combined & filled & Hc & Hf & Hm)%concat_clean_inv.
  exists combined, filled. split; [done|]. split; [done|].
  apply mixed_policy_spec in Hm. destruct keep_mixed_plant_category; [|done].
  eapply Forall2_impl; [exact Hm|]. intros r r' ->. cbn beta.
  destruct (below r); [|done]. split; [done|]. unfold mixed.
  rewrite lookup_insert_ne by done. by rewrite !lookup_insert_eq.
Qed.

Lemma combined_nulled pl_df up_df combined :
  combined_before_fill pl_df up_df = Ok combined ->
  "FuelCategory" ∈ columns combined
  ∧ forall r, r ∈ rows combined ->
      (r !! "stage_code" ≠ Some (VStr "Power plant") -> r !! "FuelCategory" = None)
      ∧ r !! "FuelCategory" ≠ Some (VStr "CONSTRUCTION").
Proof.
  unfold Combinator.combined_before_fill. intros H.
  repeat (apply bind_Ok in H as (? & ? & H)).
  injection H as <-.
  match goal with
  | Hz : (if has_column ?y "stage_code" then _ else _) = Ok _ |- _ =>
      destruct (has_column y "stage_code"); [|done]; rename Hz into Hz'
  end.
  injection Hz' as <-. split.
  - cbn [columns assign_where]. apply elem_of_add_column. by left.
  - cbn [rows assign_where]. intros r Hr.
    apply list_elem_of_fmap in Hr as (r1 & -> & Hr).
    apply list_elem_of_fmap in Hr as (r0 & -> & _).
    set (r1 := if negb (bool_decide (r0 !! "stage_code" = Some (VStr "Power plant")))
               then set_cell "FuelCategory" None r0 else r0).
    assert (Hs1 : r1 !! "stage_code" = r0 !! "stage_code").
    { unfold r1. destruct (negb _); [|done]. by rewrite set_cell_lookup. }
    assert (Hf1 : r0 !! "stage_code" ≠ Some (VStr "Power plant") ->
                  r1 !! "FuelCategory" = None).
    { intros Hne. unfold r1. rewrite bool_decide_eq_false_2 by done.
      cbn [negb]. by rewrite set_cell_lookup. }
    case_bool_decide as Hcons.
    + rewrite !set_cell_lookup. cbn. split; [done|]. done.
    + split; [|done]. rewrite Hs1. exact Hf1.
Qed.

Lemma complete_lookup cs (r : Row) c :
  complete cs r = true -> c ∈ cs -> is_Some (r !! c).
Proof.
  unfold complete. rewrite forallb_forall. intros H Hc.
  apply list_elem_of_In, H in Hc. by apply bool_decide_eq_true in Hc.
Qed.

Lemma mixed_policy_rows filled out r :
  mixed_policy filled = Ok out -> r ∈ rows out ->
  exists rf, rf ∈ rows filled ∧ (r = rf ∨ r = mixed rf).
Proof.
  intros Hm%mixed_policy_spec Hr. destruct keep_mixed_plant_category.
  - apply list_elem_of_lookup in Hr as [i Hi].
    destruct (Forall2_lookup_r _ _ _ _ _ Hm Hi) as (rf & Hrf & ->).
    exists rf. split; [by eapply list_elem_of_lookup_2|].
    destruct (below rf); [by right|by left].
  - rewrite Hm in Hr. apply list_elem_of_filter in Hr as [_ Hr].
    exists r. split; [done|by left].
Qed.

(** C2, in the form that the code satisfies: the Combiner nulls
    FuelCategory, before the key fill, in every row whose stage code is not
    "Power plant" and in every row tagged "CONSTRUCTION"; the key fill then
    gives such a row the FuelCategory of a "Power plant" row with the same
    FacilityID and drops the rows it cannot fill, so every returned row has
    a FuelCategory: that of a "Power plant" row of its facility, or
    "MIXED". *)
Theorem fuel_category_nulled_then_refilled pl_df up_df out :
  concat_clean_upstream_and_plant pl_df up_df = Ok out ->
  exists combined,
    combined_before_fill pl_df up_df = Ok combined
    ∧ (forall r, r ∈ rows combined ->
         (r !! "stage_code" ≠ Some (VStr "Power plant") ->
          r !! "FuelCategory" = None)
         ∧ r !! "FuelCategory" ≠ Some (VStr "CONSTRUCTION"))
    ∧ (forall r, r ∈ rows out ->
         exists v, r !! "FuelCategory" = Some v
           ∧ (v = VStr "MIXED"
              ∨ exists r0, r0 ∈ rows combined
                  ∧ r0 !! "stage_code" = Some (VStr "Power plant")
                  ∧ r0 !! "FacilityID" = r !! "FacilityID"
                  ∧ r0 !! "FuelCategory" = Some v)).
Proof.
  intros (combined & filled & Hc & Hf & Hm)%concat_clean_inv.
  exists combined. split; [done|].
  destruct (combined_nulled _ _ _ Hc) as [Hcol Hnull]. split; [exact Hnull|].
  intros r Hr.
  destruct (mixed_policy_rows _ _ _ Hm Hr) as (rf & Hrf & Hcase).
  destruct (fill_nans_ok_inv _ _ _ _ _ _ Hf) as [Hk He].
  assert (Hnot : "FacilityID" ∉ targets_or_default []).
  { apply (bool_decide_unpack _). vm_compute. exact I. }
  destruct (fill_nans_ok plant_ba_State combined "FacilityID" [] true Hk He Hnot)
    as (filled0 & Hrows & Heq).
  rewrite Heq in Hf. injection Hf as <-. cbn [rows] in Hrf.
  apply list_elem_of_filter in Hrf as [Hcomp Hrf0].
  apply Is_true_true in Hcomp.
  assert (HFC : is_Some (rf !! "FuelCategory")).
  { eapply complete_lookup; [exact Hcomp|]. unfold confirmed_target.
    apply elem_of_app. left. apply list_elem_of_filter. split; [done|].
    apply (bool_decide_unpack _). vm_compute. exact I. }
  destruct Hcase as [->| ->].
  2:{ exists (VStr "MIXED"). split; [|by left]. unfold mixed.
      rewrite lookup_insert_ne by done. apply lookup_insert_eq. }
  destruct HFC as [v Hv]. exists v. split; [done|]. right.
  apply list_elem_of_lookup in Hrf0 as [i Hi].
  destruct (Forall2_lookup_r _ _ _ _ _ Hrows Hi) as (rc & Hrc & Hcell).
  apply list_elem_of_lookup_2 in Hrc.
  pose proof (Hcell "FuelCategory") as H1. pose proof (Hcell "FacilityID") as H2.
  unfold CombinatorSpec.filled_cell, key_filled_cell in H1, H2.
  rewrite bool_decide_eq_false_2 in H1, H2 by done.
  rewrite (bool_decide_eq_false_2 ("FacilityID" ∈ _)) in H2.
  2:{ intros [_ ?]%list_elem_of_filter. done. }
  assert (Hfac : rf !! "FacilityID" = rc !! "FacilityID").
  { rewrite H2. by destruct (rc !! "FacilityID"). }
  assert (exists r0, r0 ∈ rows combined
            ∧ r0 !! "FacilityID" = rf !! "FacilityID"
            ∧ r0 !! "FuelCategory" = Some v) as (r0 & Hr0 & Hr0f & Hr0v).
  { rewrite Hv in H1. destruct (rc !! "FuelCategory") as [w|] eqn:E.
    - exists rc. split; [done|]. split; [done|]. congruence.
    - case_bool_decide; [|done].
      destruct (rc !! "FacilityID") as [k|] eqn:Ek; [|done].
      cbn [mbind option_bind] in H1. symmetry in H1.
      apply first_value_elem in H1 as (r0 & ? & ? & ?).
      exists r0. split; [done|]. split; [congruence|done]. }
  exists r0. split; [done|]. split; [|done].
  destruct (decide (r0 !! "stage_code" = Some (VStr "Power plant"))) as [|Hne];
    [done|].
  apply (Hnull r0 Hr0) in Hne. congruence.
Qed.
End Combiner.
End CombinerProps.

(** ** The properties on the worked examples *)

Module WriterExamples.
Import Py Writer WriterSpec WriterProps Examples.

Lemma process_id_deterministic_witness :
  exists p1 p2,
    EProcess p1 ∈ example_archive ∧ EProcess p2 ∈ example_archive
    ∧ p_name p1 = PStr "Electricity; Coal"
    ∧ p_name p2 = PStr "ELECTRICITY; COAL"
    ∧ p_id p1 = p_id p2
    ∧ p_id p1 = example_uuid3
                  (join "/" ["modeltype.process";
                             strip (lower "Utilities/Electric Power");
                             strip (lower "Electricity; Coal")]).
Proof.
  apply (process_id_deterministic example_uuid3 example_repr
           example_processes example_processes example_archive example_archive
           "coal" "COAL" example_coal example_COAL
           "Utilities/Electric Power" "utilities/electric power"
           "Electricity; Coal" "ELECTRICITY; COAL").
  - vm_compute. reflexivity.
  - vm_compute. reflexivity.
  - left.
  - right. left.
  - reflexivity.
  - reflexivity.
  - reflexivity.
  - reflexivity.
  - reflexivity.
  - reflexivity.
Defined.

Lemma category_created_once_witness :
  NoDup (category_ids example_archive)
  ∧ length (filter (fun x => x = _uid example_uuid3 example_repr
                                   (PStr <$> ["PROCESS"; "Utilities"]))
              (category_ids example_archive)) = 1.
Proof.
  destruct (category_created_once example_uuid3 example_repr
              example_processes example_archive) as (Hnd & Hone & _).
  - vm_compute. reflexivity.
  - split; [exact Hnd|].
    apply (Hone "gas" example_gas "Utilities/Gas" ["Utilities"]).
    + right. right. left.
    + reflexivity.
    + vm_compute. discriminate.
    + exists ["Gas"]. reflexivity.
    + discriminate.
Defined.

Lemma blank_category_tolerated_witness :
  exists p,
    p_name p = PStr "No category" ∧ p_category p = None ∧ p_exchanges p = []
    ∧ write example_uuid3 example_repr [("blank", example_blank)]
      = Ok [EProcess p].
Proof.
  destruct (blank_category_tolerated example_uuid3 example_repr
              "blank" example_blank ([], ∅)) as [_ [_ Hw]].
  - reflexivity.
  - eexists. split; [|split; [|split; [|exact Hw]]]; reflexivity.
Defined.

(** C9 as it was claimed fails on an entry that is None: its 'category' is
    not a string, and [write] raises TypeError at the loop over its
    exchanges, [_val] giving None for them and not the default. *)
Lemma blank_category_raises_on_none_entry :
  blank_category (_val PNone ["category"] None)
  ∧ write example_uuid3 example_repr [("none", PNone)] = Raise TypeError.
Proof. split; [exact I|reflexivity]. Qed.
End WriterExamples.

Module FillExamples.
Import Pandas Combinator CombinatorSpec FillProps FillTheorems Examples.

Lemma fill_nans_only_fills_nulls_witness :
  exists filled,
    rows example_filled
    = filter (fun r => complete (confirmed_target example_no_state ["NERC"]) r)
        filled
    ∧ Forall2 (fun r r' : Row => forall c, c ∈ columns example_no_state ->
         match r !! c with
         | Some v => r' !! c = Some v
         | None =>
             let from_key :=
               if bool_decide (c ∈ targets_or_default ["NERC"])
               then (r !! "FacilityID"
                     ≫= first_value "FacilityID" c (rows example_no_state))
               else None in
             if bool_decide (c = "State")
             then r' !! c = match from_key with
                            | Some v => Some v
                            | None => r' !! "eGRID_ID" ≫= example_plant_ba_State
                            end
             else r' !! c = from_key
         end) (rows example_no_state) filled.
Proof.
  apply (fill_nans_only_fills_nulls example_plant_ba_State example_no_state
           "FacilityID" ["NERC"] true example_filled).
  - apply (bool_decide_unpack _). vm_compute. exact I.
  - vm_compute. reflexivity.
Defined.

(** C6 on a table that has the key column and the one requested target
    column, and no column "eGRID_ID": nothing is missing that the caller
    asked for, no warning is logged, and the call raises KeyError at the
    "State" fallback. *)
Lemma fill_nans_raises_without_egrid :
  "FacilityID" ∈ columns example_no_egrid
  ∧ Forall (fun x => x ∈ columns example_no_egrid) (targets_or_default ["NERC"])
  ∧ fill_nans example_plant_ba_State example_no_egrid "FacilityID" ["NERC"] true
    = ([], Raise KeyError).
Proof.
  split; [|split].
  - apply (bool_decide_unpack _). vm_compute. exact I.
  - apply (bool_decide_unpack _). vm_compute. exact I.
  - vm_compute. reflexivity.
Qed.

Lemma fill_nans_creates_state_witness :
  "State" ∈ columns example_filled
  ∧ forall r', r' ∈ rows example_filled ->
      exists v, r' !! "State" = Some v
                ∧ r' !! "eGRID_ID" ≫= example_plant_ba_State = Some v.
Proof.
  destruct (fill_nans_creates_state example_plant_ba_State example_no_state
              "FacilityID" ["NERC"] example_filled) as (H1 & _ & _ & H2).
  - apply (bool_decide_unpack _). vm_compute. exact I.
  - apply (bool_decide_unpack _). vm_compute. exact I.
  - vm_compute. reflexivity.
  - split; [exact H1|exact H2].
Defined.
End FillExamples.

Module CombinerExamples.
Import Pandas Combinator CombinatorSpec CombinerSpec CombinerProps Examples.

#[local] Existing Instance Binary64.reference.

Lemma mixed_plant_policy_witness :
  exists combined filled,
    combined_before_fill (example_ba_codes "BA_Name")
      (example_ba_codes "FERC_Region") (example_ba_codes "EIA_Region")
      example_pl_df example_up_df = Ok combined
    ∧ (fill_nans example_plant_ba_State combined "FacilityID" [] true).2 = Ok filled
    ∧ Forall2 (fun r r' : Row =>
                 if below_percent (Q2Qc (inject_Z 50)) r
                 then r' = mixed r
                      ∧ r' !! "FuelCategory" = Some (VStr "MIXED")
                      ∧ r' !! "PrimaryFuel" = Some (VStr "Mixed Fuel Type")
                 else r' = r)
        (rows filled) (rows example_out).
Proof.
  apply (mixed_plant_policy example_plant_ba_State (example_ba_codes "BA_Name")
           (example_ba_codes "FERC_Region") (example_ba_codes "EIA_Region")
           true (Q2Qc (inject_Z 50)) example_pl_df example_up_df example_out).
  vm_compute. reflexivity.
Defined.

(** The comparison is the one of floats: the share 0.3 is not below a
    threshold of 30, whose quotient by 100 is the same float, while the
    rational 3/10 is above that float. *)
Lemma share_at_threshold_is_not_below :
  below_percent (Q2Qc (inject_Z 30))
    (row_of [("PercentGenerationfromDesignatedFuelCategory", frac 3 10)]) = false
  ∧ match frac 3 10 with
    | VNum q => bool_decide (q < Q2Qc (3 # 10))%Qc = true
    | VStr _ => False
    end.
Proof. split; vm_compute; reflexivity. Qed.

Lemma fuel_category_nulled_then_refilled_witness :
  Forall (fun r : Row => is_Some (r !! "FuelCategory")) (rows example_kept).
Proof.
  apply Forall_forall.
  destruct (fuel_category_nulled_then_refilled example_plant_ba_State
              (example_ba_codes "BA_Name") (example_ba_codes "FERC_Region")
              (example_ba_codes "EIA_Region") false (Q2Qc (inject_Z 0))
              example_pl_df example_up_df example_kept) as (c & _ & _ & H).
  - vm_compute. reflexivity.
  - intros r Hr. destruct (H r Hr) as (v & Hv & _). by exists v.
Defined.

(** The construction row of plant 1 comes back with the fuel category of
    the plant. *)
Lemma nulling_does_not_survive_fill :
  exists out r,
    concat_clean_upstream_and_plant example_plant_ba_State
      (example_ba_codes "BA_Name") (example_ba_codes "FERC_Region")
      (example_ba_codes "EIA_Region") false (Q2Qc (inject_Z 0))
      example_pl_df example_up_df = Ok out
    ∧ r ∈ rows out
    ∧ r !! "stage_code" = Some (VStr "Upstream construction")
    ∧ r !! "FlowName" = Some (VStr "Steel")
    ∧ r !! "FuelCategory" = Some (VStr "COAL").
Proof.
  exists example_kept.
  assert (Exists (fun r : Row =>
            r !! "stage_code" = Some (VStr "Upstream construction")
            ∧ r !! "FlowName" = Some (VStr "Steel")
            ∧ r !! "FuelCategory" = Some (VStr "COAL")) (rows example_kept)) as H.
  { apply (bool_decide_unpack _). vm_compute. exact I. }
  apply Exists_exists in H as (r & Hr & H). exists r.
  split; [vm_compute; reflexivity|]. split; [exact Hr|exact H].
Qed.
End CombinerExamples.

Module MapperExamples.
Import Pandas Combinator MapperSpec MapperProps Examples.

#[local] Existing Instance Binary64.reference.


(** The two reports of carbon dioxide, 2 and 3, make one row of amount 5
    and quantity 15; the row of the other flow is as it was. *)
Lemma example_grp_amounts :
  (fun g : Row => (g !! "FlowName", g !! "FlowAmount", g !! "quantity"))
    <$> rows example_grp
  = [ (Some (VStr "carbon dioxide"), Some (num 5), Some (num 15));
      (Some (VStr "unobtainium"), Some (num 5), Some (num 10)) ].
Proof. apply (bool_decide_unpack _). vm_compute. exact I. Qed.

(** C3 on a run in the diagnostics mode: the flow "Carbon dioxide" is
    mapped, it is in the matched list, and it is in the unmatched list as
    well: a pair of the original table is never equal to a tuple of six of
    the mapped table, so the set difference removes nothing. *)
Lemma unmatched_list_holds_matched_flows :
  exists out,
    concat_map_upstream_databases example_flow_mapping 2016
      [ADataFrame example_upstream] ["group_name"]
    = Ok (out,
          Some (map Some
                  <$> [ [VStr "Carbon dioxide"; VStr "emission/air"];
                        [VStr "Unobtainium"; VStr "emission/air"] ],
                map Some
                  <$> [ [VStr "Carbon dioxide"; VStr "emission/air"; VStr "kg";
                         VStr "Carbon dioxide"; VStr "emission/air";
                         VStr "kg"] ]))
    ∧ (fun r : Row => r !! "FlowName") <$> rows out
      = [Some (VStr "Carbon dioxide")].
Proof.
  eexists. split.
  - vm_compute. reflexivity.
  - vm_compute. reflexivity.
Qed.
End MapperExamples.

(** * Further properties of the code *)

Module ListFacts.
Import Pandas.

Lemma Forall2_elem_of_r {A B} (R : A -> B -> Prop) l l' y :
  Forall2 R l l' -> y ∈ l' -> exists x, x ∈ l ∧ R x y.
Proof.
  intros HF [i Hi]%list_elem_of_lookup.
  destruct (Forall2_lookup_r _ _ _ _ _ HF Hi) as (x & Hx & HR).
  exists x. split; [|done]. by eapply list_elem_of_lookup_2.
Qed.

Lemma Forall2_same_cells (l l' : list Row) :
  Forall2 (fun r r' : Row => forall c, r' !! c = r !! c) l l' -> l' = l.
Proof.
  induction 1 as [|r r' l l' H _ IH]; [done|].
  f_equal; [|done]. by apply map_eq.
Qed.

Lemma Forall2_impl_l {A B} (P Q : A -> B -> Prop) l k :
  Forall2 P l k -> (forall x y, x ∈ l -> P x y -> Q x y) -> Forall2 Q l k.
Proof.
  induction 1 as [|x y l k HP _ IH]; intros HQ; constructor.
  - apply HQ; [by left|done].
  - apply IH. intros x' y' Hx'. apply HQ. by right.
Qed.

Lemma filter_all {A} (P : A -> Prop) `{forall x, Decision (P x)} (l : list A) :
  Forall P l -> filter P l = l.
Proof.
  induction 1 as [|x l Hx _ IH]; [done|].
  by rewrite filter_cons, decide_True, IH.
Qed.

Lemma mapM_Raise {A B} (f : A -> Result B) l e :
  mapM f l = Raise e -> exists x, x ∈ l ∧ f x = Raise e.
Proof.
  induction l as [|x l IH]; [done|]. cbn [mapM].
  destruct (f x) as [y|e'] eqn:E; cbn [mbind Result_bind].
  - destruct (mapM f l) as [ys|e'']; [done|]. cbn [mbind Result_bind].
    intros [= <-]. destruct IH as (x' & Hx' & Hf); [done|].
    exists x'. split; [by right|done].
  - intros [= <-]. exists x. split; [by left|done].
Qed.

End ListFacts.

Module WriterMoreProps.
Import Py Writer WriterSpec WriterMore Steps PyProps.

(** *** The exchanges of a process *)

Lemma exchanges_loop_ids es : forall k,
  e_internal_id <$> exchanges_loop es k
  = (fun i => (k + Z.of_nat i)%Z) <$> seq 1 (length (omap _exchange es)).
Proof.
  induction es as [|e es IH]; intros k; [done|].
  cbn [exchanges_loop omap list_omap].
  destruct (_exchange e) as [x|]; [|apply IH].
  cbn [length]. rewrite fmap_cons. cbn [seq]. rewrite fmap_cons. f_equal.
  rewrite IH, <- (fmap_S_seq 1). rewrite <- list_fmap_compose.
  apply list_fmap_ext. intros _ i _. simpl. lia.
Qed.

Lemma exchanges_loop_bodies es : forall k,
  (fun x => set_internal_id x 0) <$> exchanges_loop es k = omap _exchange es.
Proof.
  induction es as [|e es IH]; intros k; [done|].
  cbn [exchanges_loop omap list_omap].
  destruct (_exchange e) as [x|] eqn:E; [|apply IH].
  rewrite fmap_cons, IH. f_equal.
  destruct e; try discriminate; cbn in E; injection E as <-; reflexivity.
Qed.

(** X1: the exchanges of a written process are the exchanges of the
    entries that are not None, in the order of the list, and their internal
    identifiers are 1, 2, ..., n. *)
Theorem exchange_internal_ids es :
  e_internal_id <$> exchanges_loop es 0
  = Z.of_nat <$> seq 1 (length (filter (fun e => negb (is_none e)) es))
  ∧ (fun x => set_internal_id x 0) <$> exchanges_loop es 0 = omap _exchange es.
Proof.
  split; [|apply exchanges_loop_bodies].
  rewrite exchanges_loop_ids. f_equal. f_equal.
  induction es as [|e es IH]; [done|].
  rewrite filter_cons. cbn [omap list_omap].
  destruct e; cbn; by rewrite IH.
Qed.

Lemma unit_cases s :
  _unit (PStr s) =
  if known_unit (PStr s)
  then Some (ref "Unit"
               (if String.eqb s "MWh" then "92e3bd49-8ed5-4885-9db6-fc88c7afcfcb"
                else if String.eqb s "MJ" then "52765a6c-3896-43c2-b2f4-c679acf13efe"
                else "20aadc24-a391-41cf-b340-3e4529f44bde") (PStr s))
  else None.
Proof. unfold _unit, known_unit, named. cbn. walk; reflexivity. Qed.

Lemma flow_property_cases s :
  _flow_property (PStr s) =
  if known_unit (PStr s)
  then Some (ref "FlowProperty"
               (if String.eqb s "kg" then "93a60a56-a3c8-11da-a746-0800200b9a66"
                else "f6811440-ee37-11de-8a39-0800200c9a66")
               (PStr (if String.eqb s "kg" then "Mass" else "Energy")))
  else None.
Proof. unfold _flow_property, known_unit, named. cbn. walk; reflexivity. Qed.

(** X2: an exchange gets a unit reference exactly when it gets a flow
    property reference, and that is exactly when the unit name is one of
    the strings MWh, MJ and kg, spelled so; the unit reference carries the
    unit name, the property is Mass for kg and Energy for the other two. *)
Theorem unit_and_flow_property_agree u :
  (is_Some (_unit u) <-> known_unit u = true)
  ∧ (is_Some (_flow_property u) <-> known_unit u = true)
  ∧ (forall r, _unit u = Some r -> ref_type r = "Unit" ∧ ref_name r = u)
  ∧ (forall r, _flow_property u = Some r ->
       ref_type r = "FlowProperty"
       ∧ ref_name r = PStr (if named u "kg" then "Mass" else "Energy")).
Proof.
  destruct u as [| | | |s| | |];
    try (repeat split; try (intros [? [=]]); try (intros [=]); done).
  rewrite unit_cases, flow_property_cases.
  destruct (known_unit (PStr s)).
  - split; [done|]. split; [done|].
    split; intros r [= <-]; split; reflexivity.
  - split; [split; [intros [? [=]]|done]|].
    split; [split; [intros [? [=]]|done]|].
    split; intros r [=].
Qed.

Section Props.
Variable uuid3_oid : string -> string.
Variable repr : pyobj -> string.

Abbreviation uid := (_uid uuid3_oid repr).
Abbreviation parent_ref := (WriterSpec.parent_ref uuid3_oid repr).
Abbreviation _category_loop := (Writer._category_loop uuid3_oid repr).
Abbreviation _category := (Writer._category uuid3_oid repr).
Abbreviation write_process := (Writer.write_process uuid3_oid repr).
Abbreviation write_loop := (Writer.write_loop uuid3_oid repr).
Abbreviation write := (Writer.write uuid3_oid repr).

(** *** Errors of [write] *)

Lemma val_not_dict d p path default :
  is_dict d = false -> _val d (p :: path) default = PNone.
Proof. by destruct d. Qed.

Lemma write_process_not_dict d st :
  is_dict d = false -> write_process d st = Raise TypeError.
Proof.
  intros Hd. unfold Writer.write_process.
  destruct (Writer._category _ _ _ _ _) as [c st1].
  by rewrite (val_not_dict _ _ _ _ Hd).
Qed.

Lemma write_process_raises d st e :
  write_process d st = Raise e -> e = TypeError.
Proof.
  unfold Writer.write_process.
  destruct (Writer._category _ _ _ _ _) as [c st1].
  destruct (py_iter _); [done|]. by intros [= <-].
Qed.

Lemma write_loop_raises ds : forall st e,
  write_loop ds st = Raise e -> e = TypeError.
Proof.
  induction ds as [|d ds IH]; intros st e; cbn [Writer.write_loop]; [done|].
  destruct (Writer.write_process _ _ d st) as [st1|e1] eqn:Hd; cbn.
  - apply IH.
  - intros [= <-]. by apply write_process_raises in Hd.
Qed.

Lemma write_loop_not_dict ds d : forall st,
  d ∈ ds -> is_dict d = false -> write_loop ds st = Raise TypeError.
Proof.
  induction ds as [|d0 ds IH]; intros st Hin Hd; [by apply elem_of_nil in Hin|].
  cbn [Writer.write_loop].
  destruct (Writer.write_process _ _ d0 st) as [st1|e1] eqn:Hd0; cbn.
  - apply elem_of_cons in Hin as [->|Hin]; [|by apply IH].
    by rewrite write_process_not_dict in Hd0.
  - f_equal. by apply write_process_raises in Hd0.
Qed.

(** X3: [write] raises nothing but TypeError, and it raises TypeError as
    soon as one value of the dictionary is not a dict (None, a string, a
    list): [_val] then returns None before it looks at the default, and
    the loop over the exchanges iterates over None. *)
Theorem write_rejects_entry_that_is_no_dict processes k d :
  (k, d) ∈ processes ->
  is_dict d = false ->
  write processes = Raise TypeError
  ∧ _val d ["exchanges"] (Some (PList [])) = PNone.
Proof.
  intros Hin Hd. split; [|by apply val_not_dict].
  unfold Writer.write.
  rewrite (write_loop_not_dict _ d); [done| |done].
  apply list_elem_of_fmap. by exists (k, d).
Qed.

(** *** Categories *)

Lemma split_nonempty sep s : split sep s ≠ [].
Proof.
  destruct s as [|c s]; cbn; [done|].
  destruct (Ascii.eqb c sep); [done|]. by destruct (split sep s).
Qed.

Lemma join_cons sep x l :
  l ≠ [] -> join sep (x :: l) = x +:+ sep +:+ join sep l.
Proof. by destruct l. Qed.

Lemma join_split sep s : join (String sep EmptyString) (split sep s) = s.
Proof.
  induction s as [|c s IH]; [done|]. cbn [split].
  destruct (Ascii.eqb c sep) eqn:E.
  - apply Ascii.eqb_eq in E as ->.
    rewrite join_cons by apply split_nonempty. by rewrite IH.
  - pose proof (split_nonempty sep s) as Hne.
    destruct (split sep s) as [|h t]; [done|].
    destruct t as [|h' t]; cbn in *; by rewrite <- IH.
Qed.

(** The reference that the loop returns does not depend on the state. *)
Lemma category_loop_result mtype todo : forall done parent st,
  todo ≠ [] ->
  (_category_loop mtype done todo parent st).1 = parent_ref mtype (done ++ todo).
Proof.
  induction todo as [|part todo IH]; intros seen parent st Hne; [done|].
  cbn [Writer._category_loop]. cbv zeta.
  destruct todo as [|part' todo].
  - cbn [Writer._category_loop fst]. symmetry.
    apply (WriterProps.parent_ref_snoc uuid3_oid repr).
  - rewrite IH by done. by rewrite <- app_assoc.
Qed.

Lemma category_loop_grows mtype todo : forall done parent st,
  st.2 ⊆ (_category_loop mtype done todo parent st).2.2
  ∧ (forall pre, pre `prefix_of` todo -> pre ≠ [] ->
       uid (PStr <$> value mtype :: done ++ pre)
       ∈ (_category_loop mtype done todo parent st).2.2).
Proof.
  induction todo as [|part todo IH]; intros seen parent st.
  - split; [done|]. intros pre Hpre Hne. by apply prefix_nil_inv in Hpre.
  - cbn [Writer._category_loop]. cbv zeta.
    match goal with
    | |- context [Writer._category_loop _ _ _ _ _ ?p ?s] =>
        destruct (IH (seen ++ [part]) p s) as [Hsub Hpre];
        assert (Hin : uid (PStr <$> value mtype :: seen ++ [part]) ∈ s.2)
    end.
    { destruct (decide _) as [Hd|Hd]; [done|]. cbn.
      apply elem_of_union. right. by apply elem_of_singleton. }
    split.
    + etrans; [|exact Hsub]. destruct (decide _); [done|]. cbn.
      apply union_subseteq_l.
    + intros pre Hp Hne. destruct pre as [|x pre]; [done|].
      apply prefix_cons_inv_1 in Hp as Hx. subst x.
      apply prefix_cons_inv_2 in Hp.
      destruct pre as [|y pre].
      * by apply Hsub.
      * specialize (Hpre (y :: pre) Hp ltac:(done)).
        by rewrite <- app_assoc in Hpre.
Qed.

Lemma category_loop_fixed mtype todo : forall done parent st,
  (forall pre, pre `prefix_of` todo -> pre ≠ [] ->
     uid (PStr <$> value mtype :: done ++ pre) ∈ st.2) ->
  (_category_loop mtype done todo parent st).2 = st.
Proof.
  induction todo as [|part todo IH]; intros seen parent st Hpre; [done|].
  cbn [Writer._category_loop]. cbv zeta.
  rewrite decide_True.
  2:{ apply (Hpre [part]); [|done]. apply prefix_cons, prefix_nil. }
  apply IH. intros pre Hp Hne. rewrite <- app_assoc. apply Hpre; [|done].
  by apply prefix_cons.
Qed.

Lemma category_result_stateless path mtype st :
  (_category path mtype st).1 = (_category path mtype ([], ∅)).1.
Proof.
  unfold Writer._category.
  destruct path as [| | | |s| | |]; try done.
  destruct (String.eqb (strip s) ""); [done|].
  pose proof (split_nonempty "/" s) as Hne.
  by rewrite !category_loop_result.
Qed.

(** X4: a second call of [_category] with the same path and model type
    writes nothing, adds no identifier and returns the same reference:
    the reference does not depend on what was created before. *)
Theorem category_call_is_idempotent path mtype st :
  _category path mtype (_category path mtype st).2 = _category path mtype st
  ∧ (_category path mtype st).1 = (_category path mtype ([], ∅)).1.
Proof.
  split; [|apply category_result_stateless].
  unfold Writer._category.
  destruct path as [| | | |s| | |]; try done.
  destruct (String.eqb (strip s) ""); [done|].
  pose proof (split_nonempty "/" s) as Hne.
  apply injective_projections.
  - by rewrite !category_loop_result.
  - apply category_loop_fixed. intros pre Hp Hn.
    by apply category_loop_grows.
Qed.

(** X5: for a path that is not blank, the reference that [_category]
    returns is a Category reference whose identifier is the one of the
    model type and all parts of the path, whose name is the last part
    stripped, and whose category path joined by slashes is the path
    itself, as it was given. *)
Theorem category_reference_holds_path s mtype st :
  strip s ≠ EmptyString ->
  exists r,
    (_category (PStr s) mtype st).1 = Some r
    ∧ ref_type r = "Category"
    ∧ ref_id r = uid (PStr <$> value mtype :: split "/" s)
    ∧ ref_name r = PStr (strip (List.last (split "/" s) EmptyString))
    ∧ join "/" <$> ref_category_path r = Some s.
Proof.
  intros Hs. unfold Writer._category.
  apply String.eqb_neq in Hs. rewrite Hs.
  pose proof (split_nonempty "/" s) as Hne.
  rewrite category_loop_result by done. cbn [app].
  unfold WriterSpec.parent_ref.
  destruct (split "/" s) as [|h t] eqn:E; [done|].
  eexists. split; [reflexivity|]. cbn [ref_type ref_id ref_name ref set_category_path ref_category_path].
  repeat split. cbn [fmap option_fmap option_map]. f_equal.
  rewrite <- E. apply join_split.
Qed.

(** *** References inside the archive *)

Lemma references_resolved_snoc a e :
  references_resolved a ->
  (forall r, entity_category e = Some r -> ref_id r ∈ category_ids a) ->
  references_resolved (a ++ [e]).
Proof.
  intros Ha He i x r Hi Hx.
  destruct (decide (i < length a)) as [Hlt|Hge].
  - rewrite lookup_app_l in Hi by done.
    rewrite take_app_le by lia. by eapply Ha.
  - rewrite lookup_app_r in Hi by lia.
    apply list_lookup_singleton_Some in Hi as [Hi <-].
    assert (i = length a) as -> by lia.
    rewrite take_app_length. by apply He.
Qed.

Lemma category_loop_resolved mtype todo : forall done parent st,
  resolved_state st -> known_parent parent st ->
  resolved_state (_category_loop mtype done todo parent st).2
  ∧ known_parent (_category_loop mtype done todo parent st).1
      (_category_loop mtype done todo parent st).2.
Proof.
  induction todo as [|part todo IH]; intros seen parent st Hst Hp; [done|].
  cbn [Writer._category_loop]. cbv zeta. apply IH.
  - destruct (decide _) as [Hd|Hd]; [done|].
    destruct Hst as [Hset Hres]. split; cbn [fst snd].
    + intros u Hu. rewrite WriterProps.category_ids_app.
      apply elem_of_app. apply elem_of_union in Hu as [Hu|Hu]; [left; by apply Hset|].
      right. apply elem_of_singleton in Hu as ->. cbn. by apply list_elem_of_singleton.
    + apply references_resolved_snoc; [done|]. cbn [entity_category c_category].
      intros r ->. by apply Hset.
  - cbn [known_parent set_category_path ref ref_id].
    destruct (decide _) as [Hd|Hd]; [done|]. cbn.
    apply elem_of_union. right. by apply elem_of_singleton.
Qed.

Lemma category_resolved path mtype st :
  resolved_state st ->
  resolved_state (_category path mtype st).2
  ∧ known_parent (_category path mtype st).1 (_category path mtype st).2.
Proof.
  intros Hst. unfold Writer._category.
  destruct path as [| | | |s| | |]; try done.
  destruct (String.eqb (strip s) ""); [done|].
  by apply category_loop_resolved.
Qed.

Lemma write_process_resolved d st st' :
  resolved_state st -> write_process d st = Ok st' -> resolved_state st'.
Proof.
  intros Hst. unfold Writer.write_process.
  pose proof (category_resolved (_val d ["category"] None) PROCESS st Hst) as [H1 Hp].
  destruct (Writer._category _ _ _ _ _) as [c st1]. cbn [fst snd] in *.
  destruct (py_iter _); [|done]. intros [= <-].
  destruct H1 as [Hset Hres]. split; cbn [fst snd].
  - intros u Hu. rewrite WriterProps.category_ids_app. apply elem_of_app. left.
    by apply Hset.
  - apply references_resolved_snoc; [done|]. cbn [entity_category p_category].
    intros r ->. by apply Hset.
Qed.

Lemma write_loop_resolved ds : forall st st',
  resolved_state st -> write_loop ds st = Ok st' -> resolved_state st'.
Proof.
  induction ds as [|d ds IH]; intros st st' Hst; cbn [Writer.write_loop].
  - by intros [= <-].
  - destruct (Writer.write_process _ _ d st) as [st1|] eqn:Hd; cbn; [|done].
    apply IH. by eapply write_process_resolved.
Qed.

(** X6: in the archive that [write] produces, the category reference of
    every Process record and the parent reference of every Category record
    carries the identifier of a Category record that was written before
    it. *)
Theorem archive_references_resolved processes archive :
  write processes = Ok archive ->
  references_resolved archive.
Proof.
  intros H. apply (WriterProps.write_inv uuid3_oid repr) in H as [created H].
  apply write_loop_resolved in H; [by destruct H|].
  split; [intros u Hu; by apply elem_of_empty in Hu|]. intros i e r Hi. done.
Qed.

(** *** The Process records *)

Lemma process_records_app a b :
  process_records (a ++ b) = process_records a ++ process_records b.
Proof. apply omap_app. Qed.

Lemma category_loop_processes mtype todo : forall done parent st,
  process_records (_category_loop mtype done todo parent st).2.1
  = process_records st.1.
Proof.
  induction todo as [|part todo IH]; intros seen parent st; [done|].
  cbn [Writer._category_loop]. cbv zeta. rewrite IH.
  destruct (decide _); [done|]. cbn [fst snd].
  rewrite process_records_app. cbn. by rewrite app_nil_r.
Qed.

Lemma category_processes path mtype st :
  process_records (_category path mtype st).2.1 = process_records st.1.
Proof.
  unfold Writer._category.
  destruct path as [| | | |s| | |]; try done.
  destruct (String.eqb (strip s) ""); [done|].
  apply category_loop_processes.
Qed.

Lemma write_process_records d st st' :
  write_process d st = Ok st' ->
  exists p, process_record uuid3_oid repr d = Some p
    ∧ process_records st'.1 = process_records st.1 ++ [p].
Proof.
  unfold Writer.write_process, process_record.
  pose proof (category_processes (_val d ["category"] None) PROCESS st) as Hp.
  pose proof (category_result_stateless (_val d ["category"] None) PROCESS st) as Hc.
  destruct (Writer._category _ _ _ _ st) as [c st1]. cbn [fst snd] in *.
  destruct (py_iter _) as [es|]; [|done]. intros [= <-].
  eexists. split; [reflexivity|]. cbn [fst].
  rewrite process_records_app, Hp. cbn. by rewrite Hc.
Qed.

Lemma write_loop_records ds : forall st st',
  write_loop ds st = Ok st' ->
  exists ps, mapM (process_record uuid3_oid repr) ds = Some ps
    ∧ process_records st'.1 = process_records st.1 ++ ps.
Proof.
  induction ds as [|d ds IH]; intros st st'; cbn [Writer.write_loop].
  - intros [= <-]. exists []. by rewrite app_nil_r.
  - destruct (Writer.write_process _ _ d st) as [st1|] eqn:Hd; cbn; [|done].
    intros Hrun. apply write_process_records in Hd as (p & Hp & Hrec).
    apply IH in Hrun as (ps & Hmap & Happ). exists (p :: ps).
    rewrite Hp. cbn. rewrite Hmap. cbn. split; [done|].
    by rewrite Happ, Hrec, <- app_assoc.
Qed.

(** X7: [write] puts one Process record per value of the dictionary into
    the archive, in the order of the dictionary; the record of a value is
    a function of that value alone, whatever the other processes are. *)
Theorem one_process_record_per_entry processes archive :
  write processes = Ok archive ->
  mapM (process_record uuid3_oid repr) (processes.*2)
  = Some (process_records archive).
Proof.
  intros H. apply (WriterProps.write_inv uuid3_oid repr) in H as [created H].
  apply write_loop_records in H as (ps & H & Hrec).
  rewrite H. f_equal. exact (eq_sym Hrec).
Qed.

End Props.
End WriterMoreProps.

Module FillMoreProps.
Import Pandas Combinator CombinatorSpec FillProps CombinerProps ListFacts.
Section Fill.
Variable plant_ba_State : val -> option val.

Abbreviation fill_nans := (Combinator.fill_nans plant_ba_State).
Abbreviation filled_cell := (CombinatorSpec.filled_cell plant_ba_State).

(** X8: [fill_nans] raises KeyError exactly when the key column or the
    column eGRID_ID is absent, and raises nothing else; when it returns,
    the columns are those of the argument and "State", and without
    [dropna] no row is added or lost.  It warns once for each requested
    column that is absent and once for an absent key column. *)
Theorem fill_nans_outcome df key_column target_columns dropna_ :
  key_column ∉ targets_or_default target_columns ->
  let out := fill_nans df key_column target_columns dropna_ in
  (out.2 = Raise KeyError
     <-> key_column ∉ columns df ∨ "eGRID_ID" ∉ columns df)
  ∧ (forall e, out.2 = Raise e -> e = KeyError)
  ∧ (forall df', out.2 = Ok df' ->
       columns df' = add_column "State" (columns df)
       ∧ (dropna_ = false -> length (rows df') = length (rows df)))
  ∧ out.1 = fill_warnings df target_columns
            ++ (if bool_decide (key_column ∈ columns df) then []
                else [key_warning key_column]).
Proof.
  intros Hk out. subst out.
  destruct (decide (key_column ∈ columns df)) as [Hkey|Hkey].
  2:{ rewrite fill_nans_no_key by done. cbn [fst snd].
      rewrite bool_decide_eq_false_2 by done.
      split; [split; [by left|done]|]. split; [by intros e [= <-]|]. done. }
  rewrite bool_decide_eq_true_2, app_nil_r by done.
  destruct (decide ("eGRID_ID" ∈ columns df)) as [He|He].
  2:{ rewrite fill_nans_no_egrid by done. cbn [fst snd].
      split; [split; [by right|done]|]. split; [by intros e [= <-]|]. done. }
  destruct (fill_nans_ok plant_ba_State df key_column target_columns dropna_
              Hkey He Hk) as (filled & HF & ->).
  cbn [fst snd]. split; [split; [done|by intros [|]]|]. split; [done|].
  split; [|done]. intros df' [= <-]. cbn [columns rows]. split; [done|].
  intros ->. symmetry. by eapply Forall2_length.
Qed.



(** X10: with [dropna], [fill_nans] is idempotent: applied to its own
    result, with the same key and targets, it returns that result. *)
Theorem fill_nans_dropna_idempotent df key_column target_columns df' :
  key_column ∉ targets_or_default target_columns ->
  (fill_nans df key_column target_columns true).2 = Ok df' ->
  (fill_nans df' key_column target_columns true).2 = Ok df'.
Proof.
  intros Hk Hrun.
  apply fill_nans_ok_inv in Hrun as Hcols. destruct Hcols as [Hkey He].
  destruct (fill_nans_ok plant_ba_State df key_column target_columns true
              Hkey He Hk) as (filled & HF & Heq).
  rewrite Heq in Hrun. cbn [snd] in Hrun. injection Hrun as <-.
  set (T := targets_or_default target_columns) in *.
  set (cols := filter (fun x => x ∈ columns df) T) in *.
  set (conf := confirmed_target df target_columns) in *.
  set (rs' := filter (fun r => complete conf r) filled).
  set (df' := {| columns := add_column "State" (columns df); rows := rs' |}).
  assert (Hkey' : key_column ∈ columns df').
  { apply elem_of_add_column. by right. }
  assert (He' : "eGRID_ID" ∈ columns df').
  { apply elem_of_add_column. by right. }
  destruct (fill_nans_ok plant_ba_State df' key_column target_columns true
              Hkey' He' Hk) as (filled2 & HF2 & Heq2).
  rewrite Heq2. cbn [snd]. f_equal. unfold df' at 1 3 4. cbn [columns].
  rewrite add_column_idemp. f_equal. fold T in HF2.
  set (cols' := filter (fun x => x ∈ columns df') T) in *.
  assert (Hsub : forall c, c ∈ cols' -> c ∈ conf).
  { intros c [Hc HT]%list_elem_of_filter. unfold conf, confirmed_target. fold T.
    apply elem_of_app. cbn [columns df'] in Hc.
    apply elem_of_add_column in Hc as [->|Hc].
    - destruct (has_column df "State") eqn:HS.
      + left. apply list_elem_of_filter. split; [|done]. by apply has_column_true.
      + right. by apply list_elem_of_singleton.
    - left. by apply list_elem_of_filter. }
  assert (Hst : has_column df' "State" = true).
  { apply has_column_true. apply elem_of_add_column. by left. }
  rewrite Hst in HF2.
  assert (Hrows : filled2 = rs').
  { apply Forall2_same_cells. eapply Forall2_impl_l; [exact HF2|].
    intros r r2 Hr H c. rewrite H. clear H.
    apply list_elem_of_filter in Hr as [Hcomp Hr].
    apply Is_true_true in Hcomp.
    destruct (Forall2_elem_of_r _ _ _ _ HF Hr) as (r0 & _ & H0).
    assert (Hkfc : forall c, key_filled_cell key_column cols' rs' r c = r !! c).
    { intros c0. unfold key_filled_cell. destruct (r !! c0) eqn:E; [done|].
      case_bool_decide as Hc0; [|done]. apply Hsub in Hc0.
      apply (complete_lookup _ _ _ Hcomp) in Hc0. rewrite E in Hc0.
      by destruct Hc0. }
    unfold CombinatorSpec.filled_cell. rewrite !Hkfc.
    case_bool_decide as HS; [|done]. subst c.
    destruct (r !! "State") eqn:E; [done|].
    rewrite (H0 "State") in E. rewrite (H0 "eGRID_ID").
    unfold CombinatorSpec.filled_cell in E |- *.
    rewrite bool_decide_eq_true_2 in E by done.
    rewrite bool_decide_eq_false_2 by done.
    by destruct (if has_column df "State" then _ else _). }
  rewrite Hrows. apply filter_all. apply Forall_forall. intros r Hr.
  apply list_elem_of_filter in Hr as [Hcomp Hr]. apply Is_true_true in Hcomp.
  apply Is_true_true. unfold complete. apply forallb_forall. intros c Hc.
  apply bool_decide_eq_true.
  apply (complete_lookup _ _ _ Hcomp).
  apply list_elem_of_In in Hc. unfold confirmed_target in Hc. fold T in Hc.
  rewrite Hst, app_nil_r in Hc. by apply Hsub.
Qed.

End Fill.
End FillMoreProps.

Module PandasProps.
Import Pandas FillProps.

Lemma kmap_lookup_unique (f : string -> string) (m : Row) k k0 :
  f k0 = k ->
  (forall c, is_Some (m !! c) -> f c = k -> c = k0) ->
  (kmap f m : Row) !! k = m !! k0.
Proof.
  intros Hk0 Huniq. unfold kmap.
  destruct (m !! k0) as [v|] eqn:E.
  - apply elem_of_list_to_map_1'.
    + intros y Hy. apply list_elem_of_fmap in Hy as ([c y'] & [= Hc ->] & Hin).
      apply elem_of_map_to_list in Hin.
      rewrite (Huniq c) in Hin by (by rewrite ?Hin). congruence.
    + apply list_elem_of_fmap. exists (k0, v). split; [by rewrite <- Hk0|].
      by apply elem_of_map_to_list.
  - apply not_elem_of_list_to_map_1. intros Hin.
    apply list_elem_of_fmap in Hin as ([k' y] & -> & Hin).
    apply list_elem_of_fmap in Hin as ([c y'] & [= -> ->] & Hin).
    apply elem_of_map_to_list in Hin.
    rewrite (Huniq c) in Hin by (by rewrite ?Hin). congruence.
Qed.

Lemma kmap_lookup_None (f : string -> string) (m : Row) k :
  (forall c, is_Some (m !! c) -> f c ≠ k) ->
  (kmap f m : Row) !! k = None.
Proof.
  intros Hne. unfold kmap. apply not_elem_of_list_to_map_1. intros Hin.
  apply list_elem_of_fmap in Hin as ([k' y] & -> & Hin).
  apply list_elem_of_fmap in Hin as ([c y'] & [= -> ->] & Hin).
  apply elem_of_map_to_list in Hin. by apply (Hne c).
Qed.

Lemma set_cell_lookup_ne c o (r : Row) c' :
  c ≠ c' -> set_cell c o r !! c' = r !! c'.
Proof. intros H. by rewrite set_cell_lookup, bool_decide_eq_false_2. Qed.

Lemma set_cell_lookup_eq c o (r : Row) : set_cell c o r !! c = o.
Proof. by rewrite set_cell_lookup, bool_decide_eq_true_2. Qed.

Lemma restrict_lookup cs (r : Row) c :
  restrict cs r !! c = if bool_decide (c ∈ cs) then r !! c else None.
Proof.
  unfold restrict. case_bool_decide as Hc.
  - destruct (r !! c) as [v|] eqn:E.
    + by apply map_lookup_filter_Some.
    + apply map_lookup_filter_None. left. done.
  - apply map_lookup_filter_None. right. intros v _. done.
Qed.

Lemma first_by_elem {A K} `{EqDecision K} (key : A -> K) l : forall seen x,
  x ∈ first_by key seen l -> x ∈ l.
Proof.
  induction l as [|y l IH]; intros seen x; cbn [first_by]; [done|].
  case_bool_decide.
  - intros H1. right. by eapply IH.
  - intros [->|H1]%elem_of_cons; [by left|]. right. by eapply IH.
Qed.

Lemma try_drop_rows df x (r : Row) :
  r ∈ rows (Combinator.try_drop df x) ->
  exists r0, r0 ∈ rows df ∧ forall c, c ≠ x -> r !! c = r0 !! c.
Proof.
  unfold Combinator.try_drop, drop_column.
  destruct (has_column df x); cbn [rows].
  - intros (r0 & -> & Hr0)%list_elem_of_fmap. exists r0. split; [done|].
    intros c Hc. by rewrite lookup_delete_ne.
  - intros Hr. by exists r.
Qed.

Lemma try_drop_columns df x c :
  c ∈ columns (Combinator.try_drop df x) <-> c ∈ columns df ∧ c ≠ x.
Proof.
  unfold Combinator.try_drop, drop_column.
  destruct (has_column df x) eqn:E; cbn [columns].
  - by rewrite list_elem_of_filter, (comm and).
  - apply has_column_false in E. split; [|by intros []].
    intros Hc. split; [done|]. by intros ->.
Qed.

Lemma foldl_try_drop_rows xs : forall df (r : Row),
  r ∈ rows (foldl Combinator.try_drop df xs) ->
  exists r0, r0 ∈ rows df ∧ forall c, c ∉ xs -> r !! c = r0 !! c.
Proof.
  induction xs as [|x xs IH]; intros df r; cbn [foldl].
  - intros Hr. by exists r.
  - intros (r1 & (r0 & Hr0 & H0)%try_drop_rows & H1)%IH.
    exists r0. split; [done|]. intros c [Hx Hxs]%not_elem_of_cons.
    rewrite H1 by done. by apply H0.
Qed.

Lemma foldl_try_drop_columns xs : forall df c,
  c ∈ columns (foldl Combinator.try_drop df xs) <-> c ∈ columns df ∧ c ∉ xs.
Proof.
  induction xs as [|x xs IH]; intros df c; cbn [foldl].
  - split; [intros H; split; [done|apply not_elem_of_nil]|by intros []].
  - rewrite IH, try_drop_columns, not_elem_of_cons. tauto.
Qed.

Lemma elem_of_union_columns a b c :
  c ∈ union_columns a b <-> c ∈ a ∨ c ∈ b.
Proof.
  unfold union_columns. rewrite elem_of_app, list_elem_of_filter.
  destruct (decide (c ∈ a)); tauto.
Qed.

End PandasProps.

Module FrameSteps.
Import Pandas Combinator FillProps MapperProps PandasProps.

(** What each frame operation returns or raises. *)

Lemma select_outcome cs df :
  match select cs df with
  | Ok y => has_columns df cs = true ∧ columns y = cs
            ∧ rows y = restrict cs <$> rows df
  | Raise e => e = KeyError ∧ has_columns df cs = false
  end.
Proof. unfold select. by destruct (has_columns df cs). Qed.

Lemma drop_duplicates_outcome cs df :
  match drop_duplicates cs df with
  | Ok y => has_columns df cs = true ∧ columns y = columns df
            ∧ rows y = first_by (cells cs) [] (rows df)
  | Raise e => e = KeyError ∧ has_columns df cs = false
  end.
Proof. unfold drop_duplicates. by destruct (has_columns df cs). Qed.

Lemma dropna_outcome cs df :
  match dropna cs df with
  | Ok y => has_columns df cs = true ∧ columns y = columns df
            ∧ rows y = filter (fun r => complete cs r) (rows df)
  | Raise e => e = KeyError ∧ has_columns df cs = false
  end.
Proof. unfold dropna. by destruct (has_columns df cs). Qed.

Lemma drop_column_outcome c df :
  match drop_column c df with
  | Ok y => c ∈ columns df
            ∧ columns y = filter (fun x => x ≠ c) (columns df)
            ∧ rows y = delete c <$> rows df
  | Raise e => e = KeyError ∧ c ∉ columns df
  end.
Proof.
  unfold drop_column. destruct (has_column df c) eqn:E.
  - by apply has_column_true in E.
  - by apply has_column_false in E.
Qed.

Lemma map_column_outcome src dst f df :
  match map_column src dst f df with
  | Ok y => src ∈ columns df
            ∧ columns y = add_column dst (columns df)
            ∧ rows y = (fun r : Row => set_cell dst (r !! src ≫= f) r) <$> rows df
  | Raise e => e = KeyError ∧ src ∉ columns df
  end.
Proof.
  unfold map_column. destruct (has_column df src) eqn:E.
  - by apply has_column_true in E.
  - by apply has_column_false in E.
Qed.

Lemma merge_left_outcome `{Library} left right left_on right_on :
  match merge_left left right left_on right_on with
  | Ok y =>
      has_columns left left_on = true ∧ has_columns right right_on = true
      ∧ columns y
        = ((fun c => if bool_decide (c ∈ columns right) then c +:+ "_x" else c)
             <$> columns left)
          ++ ((fun c => if bool_decide (c ∈ columns left) then c +:+ "_y" else c)
                <$> columns right)
      ∧ forall r, r ∈ rows y ->
          exists l, l ∈ rows left
            ∧ let l' : Row :=
                kmap (fun c => if bool_decide (c ∈ columns right)
                               then c +:+ "_x" else c) l in
              r = l'
              ∨ exists m, m ∈ rows right
                  ∧ cells right_on m = cells left_on l
                  ∧ r = l' ∪ (kmap (fun c => if bool_decide (c ∈ columns left)
                                             then c +:+ "_y" else c) m : Row)
  | Raise e =>
      (e = KeyError
       ∧ (has_columns left left_on = false ∨ has_columns right right_on = false))
      ∨ (e = ValueError
         ∧ has_columns left left_on = true ∧ has_columns right right_on = true
         ∧ merge_keys_agree left right left_on right_on = false)
  end.
Proof.
  unfold merge_left.
  destruct (has_columns left left_on); [|left; split; [done|by left]].
  destruct (has_columns right right_on); [|left; split; [done|by right]].
  cbn [andb]. destruct (merge_keys_agree _ _ _ _); [|by right].
  split; [done|]. split; [done|]. split; [done|].
  cbn [rows]. intros r (l & Hr & Hl)%list_elem_of_bind.
  exists l. split; [done|]. cbv zeta.
  destruct (filter _ (rows right)) as [|m0 ms] eqn:E.
  - left. by apply list_elem_of_singleton in Hr.
  - right. apply list_elem_of_fmap in Hr as (m & -> & Hm).
    rewrite <- E in Hm. apply list_elem_of_filter in Hm as [Hm1 Hm2].
    by exists m.
Qed.

Lemma has_columns_self df : has_columns df (columns df) = true.
Proof. by apply has_columns_true. Qed.

Lemma has_columns_singleton df c : has_columns df [c] = has_column df c.
Proof. unfold has_columns. cbn. by rewrite andb_true_r. Qed.

Lemma append_suffix_ne (c : string) (a b : ascii) k :
  (forall p, k ≠ p +:+ String a (String b EmptyString)) ->
  c +:+ String a (String b EmptyString) ≠ k.
Proof. intros H E. by apply (H c). Qed.

End FrameSteps.

Module CombinerMoreProps.
Import Pandas Combinator CombinatorSpec CombinerSpec CombinerMore FillProps
  MapperProps CombinerProps Steps ListFacts PandasProps FrameSteps.

Section Combiner.
Context {lib : Library}.
Variable plant_ba_State : val -> option val.
Variable ba_codes_BA_Name : val -> option val.
Variable ba_codes_FERC_Region : val -> option val.
Variable ba_codes_EIA_Region : val -> option val.
Variable keep_mixed_plant_category : bool.
Variable min_plant_percent_generation_from_primary_fuel_category : Qc.

Abbreviation fill_nans := (Combinator.fill_nans plant_ba_State).
Abbreviation combined_before_fill :=
  (Combinator.combined_before_fill ba_codes_BA_Name ba_codes_FERC_Region
     ba_codes_EIA_Region).
Abbreviation mixed_policy :=
  (Combinator.mixed_policy keep_mixed_plant_category
     min_plant_percent_generation_from_primary_fuel_category).
Abbreviation concat_clean_upstream_and_plant :=
  (Combinator.concat_clean_upstream_and_plant plant_ba_State ba_codes_BA_Name
     ba_codes_FERC_Region ba_codes_EIA_Region keep_mixed_plant_category
     min_plant_percent_generation_from_primary_fuel_category).

Lemma right_label_ne (c : string) suffix k :
  c ∈ "eGRID_ID" :: region_cols ->
  bool_decide (k ∈ (fun x => x +:+ suffix) <$> "eGRID_ID" :: region_cols) = false ->
  c +:+ suffix ≠ k.
Proof.
  intros Hc Hk%bool_decide_eq_false Heq. apply Hk.
  apply list_elem_of_fmap. by exists c.
Qed.

(** The cell eGRID_ID of a row of the merged upstream frame. *)
Lemma merged_egrid (up_cols : list string) (l m p : Row) :
  (forall c, m !! c = if bool_decide (c ∈ "eGRID_ID" :: region_cols)
                      then p !! c else None) ->
  let l' : Row :=
    kmap (fun c => if bool_decide (c ∈ "eGRID_ID" :: region_cols)
                   then c +:+ "_x" else c) l in
  let m' : Row :=
    kmap (fun c => if bool_decide (c ∈ up_cols) then c +:+ "_y" else c) m in
  l' !! "eGRID_ID" = None
  ∧ ((l' ∪ m') !! "eGRID_ID" = None
     ∨ (l' ∪ m') !! "eGRID_ID" = p !! "eGRID_ID").
Proof.
  intros Hm l' m'.
  assert (Hl : l' !! "eGRID_ID" = None).
  { apply kmap_lookup_None. intros c _. case_bool_decide as Hc.
    - by apply right_label_ne.
    - intros ->. apply Hc. by left. }
  split; [done|].
  rewrite lookup_union_r by done.
  destruct (decide ("eGRID_ID" ∈ up_cols)) as [Hin|Hin].
  - left. apply kmap_lookup_None. intros c [v Hc]. rewrite Hm in Hc.
    case_bool_decide as Hc5; [|done]. case_bool_decide.
    + by apply right_label_ne.
    + by intros ->.
  - right. unfold m'. rewrite (kmap_lookup_unique _ _ _ "eGRID_ID").
    + rewrite Hm. by rewrite bool_decide_eq_true_2 by by left.
    + by rewrite bool_decide_eq_false_2.
    + intros c [v Hc]. rewrite Hm in Hc.
      case_bool_decide as Hc5; [|done]. case_bool_decide; [|done].
      intros Heq. by apply right_label_ne in Heq.
Qed.

(** A label that no suffix touches is a column of the merged frame exactly
    when it is a column of the upstream frame. *)
Lemma merged_plain_column (up_cols : list string) c :
  plain_label c = true ->
  c ∈ ((fun c => if bool_decide (c ∈ "eGRID_ID" :: region_cols)
                 then c +:+ "_x" else c) <$> up_cols)
      ++ ((fun c => if bool_decide (c ∈ up_cols) then c +:+ "_y" else c)
            <$> "eGRID_ID" :: region_cols)
  <-> c ∈ up_cols.
Proof.
  unfold plain_label. rewrite !andb_true_iff, !bool_decide_eq_true.
  intros [[H1 H2] H3]. rewrite elem_of_app. split.
  - intros [(x & -> & Hx)%list_elem_of_fmap|(x & -> & Hx)%list_elem_of_fmap].
    + case_bool_decide as Hx5; [|done]. exfalso. apply H2.
      apply list_elem_of_fmap. by exists x.
    + case_bool_decide as Hxu; [|done]. exfalso. apply H3.
      apply list_elem_of_fmap. by exists x.
  - intros Hc. left. apply list_elem_of_fmap. exists c.
    by rewrite bool_decide_eq_false_2.
Qed.

Lemma combined_outcome pl_df up_df :
  match combined_before_fill pl_df up_df with
  | Ok combined =>
      has_columns pl_df ("eGRID_ID" :: region_cols) = true
      ∧ "plant_id" ∈ columns up_df
      ∧ ("stage_code" ∈ columns pl_df ∨ "stage_code" ∈ columns up_df)
      ∧ (forall c, c ∈ columns pl_df -> c ∉ categories_to_delete ->
           c ∈ columns combined)
      ∧ (forall c, c ∈ ["Balancing Authority Name"; "FERC_Region"; "EIA_Region";
                        "FacilityID"; "FuelCategory"] -> c ∈ columns combined)
      ∧ (forall c, plain_label c = true ->
           c ∉ ["Balancing Authority Name"; "FERC_Region"; "EIA_Region";
                "FacilityID"; "FuelCategory"] ->
           c ∉ categories_to_delete ->
           (c ∈ columns combined <-> c ∈ columns pl_df ∨ c ∈ columns up_df))
      ∧ (forall r, r ∈ rows combined ->
           r !! "FacilityID" = r !! "eGRID_ID"
           ∧ (r !! "eGRID_ID" = None
              ∨ exists p, p ∈ rows pl_df ∧ p !! "eGRID_ID" = r !! "eGRID_ID"))
  | Raise e =>
      (e = KeyError
       ∧ ¬ (has_columns pl_df ("eGRID_ID" :: region_cols) = true
            ∧ "plant_id" ∈ columns up_df
            ∧ ("stage_code" ∈ columns pl_df ∨ "stage_code" ∈ columns up_df)))
      ∨ (e = ValueError
         ∧ has_columns pl_df ("eGRID_ID" :: region_cols) = true
         ∧ "plant_id" ∈ columns up_df)
  end.
Proof.
  unfold Combinator.combined_before_fill.
  step (select_outcome ("eGRID_ID" :: region_cols) pl_df).
  2:{ destruct Hstep as [-> Hno]. left. split; [done|]. intros (H & _).
      congruence. }
  destruct Hstep as (Hpl & Hyc & Hyr).
  step (drop_duplicates_outcome (columns y) y).
  2:{ destruct Hstep as [_ Hno]. by rewrite has_columns_self in Hno. }
  destruct Hstep as (_ & Hy0c & Hy0r). rewrite Hyc in Hy0c, Hy0r.
  step (merge_left_outcome up_df y0 ["plant_id"] ["eGRID_ID"]).
  2:{ destruct Hstep as [[-> Hno]|(-> & Hup & _)].
      - left. split; [done|]. intros (_ & Hp & _).
        rewrite !has_columns_singleton in Hno. destruct Hno as [Hno|Hno].
        + apply has_column_false in Hno. done.
        + apply has_column_false in Hno. apply Hno. rewrite Hy0c. by left.
      - right. split; [done|]. split; [done|].
        rewrite has_columns_singleton in Hup. by apply has_column_true. }
  destruct Hstep as (Hup & _ & Hy1c & Hy1r).
  rewrite has_columns_singleton in Hup. apply has_column_true in Hup.
  rewrite Hy0c in Hy1c, Hy1r.
  cbn [concat mbind Result_bind].
  set (cc := {| columns := foldl union_columns [] (columns <$> [pl_df; y1]);
                rows := mjoin (rows <$> [pl_df; y1]) |}).
  assert (Hccc : forall c, c ∈ columns cc <-> c ∈ columns pl_df ∨ c ∈ columns y1).
  { intros c. cbn [cc columns fmap list_fmap foldl].
    rewrite !elem_of_union_columns. rewrite elem_of_nil. tauto. }
  assert (Hccr : forall r, r ∈ rows cc <-> r ∈ rows pl_df ∨ r ∈ rows y1).
  { intros r. cbn [cc rows fmap list_fmap mjoin list_join].
    rewrite app_nil_r. apply elem_of_app. }
  assert (Hba : "Balancing Authority Code" ∈ columns pl_df).
  { apply (proj1 (has_columns_true _ _) Hpl).
    apply (bool_decide_unpack _). vm_compute. exact I. }
  clearbody cc.
  step (map_column_outcome "Balancing Authority Code" "Balancing Authority Name"
          ba_codes_BA_Name cc).
  2:{ destruct Hstep as [_ Hno]. exfalso. apply Hno, Hccc. by left. }
  destruct Hstep as (_ & Hy2c & Hy2r).
  step (map_column_outcome "Balancing Authority Code" "FERC_Region"
          ba_codes_FERC_Region y2).
  2:{ destruct Hstep as [_ Hno]. exfalso. apply Hno. rewrite Hy2c.
      apply elem_of_add_column. right. apply Hccc. by left. }
  destruct Hstep as (_ & Hy3c & Hy3r).
  step (map_column_outcome "Balancing Authority Code" "EIA_Region"
          ba_codes_EIA_Region y3).
  2:{ destruct Hstep as [_ Hno]. exfalso. apply Hno. rewrite Hy3c, Hy2c.
      apply elem_of_add_column. right.
      apply elem_of_add_column. right. apply Hccc. by left. }
  destruct Hstep as (_ & Hy4c & Hy4r).
  set (dd := foldl try_drop y4 categories_to_delete).
  assert (Hddc : forall c, c ∈ columns dd <-> c ∈ columns y4 ∧ c ∉ categories_to_delete).
  { intros c. apply foldl_try_drop_columns. }
  assert (Hddr : forall r : Row, r ∈ rows dd ->
            exists r0, r0 ∈ rows y4 ∧ forall c, c ∉ categories_to_delete -> r !! c = r0 !! c).
  { intros r. apply foldl_try_drop_rows. }
  clearbody dd. unfold copy_column.
  assert (Heg : "eGRID_ID" ∈ columns pl_df).
  { apply (proj1 (has_columns_true _ _) Hpl).
    apply (bool_decide_unpack _). vm_compute. exact I. }
  step (map_column_outcome "eGRID_ID" "FacilityID" Some dd).
  2:{ destruct Hstep as [_ Hno]. exfalso. apply Hno. apply Hddc.
      split; [|by apply (bool_decide_unpack _)].
      rewrite Hy4c, Hy3c, Hy2c. rewrite !elem_of_add_column, Hccc. tauto. }
  destruct Hstep as (_ & Hy5c & Hy5r).
  assert (Hcols : forall c, c ∈ columns y5 <->
            c = "FacilityID"
            ∨ ((c = "EIA_Region" ∨ c = "FERC_Region" ∨ c = "Balancing Authority Name"
                ∨ c ∈ columns pl_df ∨ c ∈ columns y1)
               ∧ c ∉ categories_to_delete)).
  { intros c. rewrite Hy5c, elem_of_add_column, Hddc, Hy4c, Hy3c, Hy2c.
    rewrite !elem_of_add_column, Hccc. tauto. }
  assert (Hy1p : forall c, plain_label c = true ->
            (c ∈ columns y1 <-> c ∈ columns up_df)).
  { intros c Hc. rewrite Hy1c. by apply merged_plain_column. }
  assert (Hrows : forall r, r ∈ rows y5 ->
            r !! "FacilityID" = r !! "eGRID_ID"
            ∧ (r !! "eGRID_ID" = None
               ∨ exists p, p ∈ rows pl_df ∧ p !! "eGRID_ID" = r !! "eGRID_ID")).
  { intros r. rewrite Hy5r. intros (r5 & -> & Hr5)%list_elem_of_fmap.
    rewrite !set_cell_lookup. cbn.
    split; [by destruct (r5 !! "eGRID_ID")|].
    apply Hddr in Hr5 as (r4 & Hr4 & H4).
    rewrite H4 by (by apply (bool_decide_unpack _)).
    rewrite Hy4r in Hr4. apply list_elem_of_fmap in Hr4 as (r3 & -> & Hr3).
    rewrite Hy3r in Hr3. apply list_elem_of_fmap in Hr3 as (r2 & -> & Hr2).
    rewrite Hy2r in Hr2. apply list_elem_of_fmap in Hr2 as (r1 & -> & Hr1).
    rewrite !set_cell_lookup. cbn.
    apply Hccr in Hr1 as [Hr1|Hr1].
    - destruct (r1 !! "eGRID_ID") eqn:E; [|by left]. right. by exists r1.
    - apply Hy1r in Hr1 as (l & Hl & Hcase). cbv zeta in Hcase.
      destruct Hcase as [->|(m & Hm & _ & ->)].
      + left. apply (merged_egrid (columns up_df) l ∅ ∅). intros c.
        rewrite lookup_empty. by case_bool_decide.
      + rewrite Hy0r in Hm. apply first_by_elem in Hm. rewrite Hyr in Hm.
        apply list_elem_of_fmap in Hm as (p & -> & Hp).
        destruct (merged_egrid (columns up_df) l
                    (restrict ("eGRID_ID" :: region_cols) p) p) as [_ [H|H]].
        * intros c. apply restrict_lookup.
        * by left.
        * destruct (p !! "eGRID_ID") eqn:E; [|by left]. right. exists p.
          split; [done|]. by rewrite H, E. }
  destruct (has_column y5 "stage_code") eqn:Hst; cbn [mbind Result_bind].
  - apply has_column_true, Hcols in Hst.
    split; [done|]. split; [done|].
    split.
    { destruct Hst as [Hst|[Hst _]]; [done|].
      destruct Hst as [Hst|[Hst|[Hst|[Hst|Hst]]]]; try done; [by left|].
      right. by apply Hy1p. }
    cbn [assign_where columns rows].
    rewrite add_column_idemp.
    split; [|split; [|split]].
    + intros c Hc Hd. apply elem_of_add_column. right. apply Hcols. tauto.
    + intros c Hc. apply elem_of_add_column.
      repeat (apply elem_of_cons in Hc as [->|Hc]); [..|by apply elem_of_nil in Hc].
      1-4: right; apply Hcols.
      1-3: right; split; [tauto|by apply (bool_decide_unpack _)].
      * by left.
      * by left.
    + intros c Hp Ha Hd. rewrite elem_of_add_column, Hcols, (Hy1p c Hp).
      rewrite !not_elem_of_cons in Ha. tauto.
    + intros r (r6 & -> & (r5 & -> & Hr5)%list_elem_of_fmap)%list_elem_of_fmap.
      apply Hrows in Hr5.
      assert (Hsame : forall (m : Row) (b : bool) c, c ≠ "FuelCategory" ->
                (if b then set_cell "FuelCategory" None m else m) !! c = m !! c).
      { intros m b c Hc. destruct b; [|done]. rewrite set_cell_lookup.
        by rewrite bool_decide_eq_false_2. }
      by rewrite !Hsame.
  - apply has_column_false in Hst. left. split; [done|]. intros (_ & _ & Hsc).
    apply Hst, Hcols. right. split; [|by apply (bool_decide_unpack _)].
    destruct Hsc as [Hsc|Hsc]; [tauto|].
    do 4 right. by apply Hy1p.
Qed.

Lemma mixed_policy_outcome filled :
  match mixed_policy filled with
  | Ok out =>
      "PercentGenerationfromDesignatedFuelCategory" ∈ columns filled
  | Raise e =>
      (e = KeyError
       ∧ "PercentGenerationfromDesignatedFuelCategory" ∉ columns filled)
      ∨ (e = TypeError
         ∧ "PercentGenerationfromDesignatedFuelCategory" ∈ columns filled)
  end.
Proof.
  unfold Combinator.mixed_policy.
  destruct (has_column filled _) eqn:E.
  2:{ left. split; [done|]. by apply has_column_false. }
  apply has_column_true in E.
  destruct (mapM _ (rows filled)) as [gf|e] eqn:Hm; cbn [mbind Result_bind].
  - by destruct keep_mixed_plant_category.
  - right. split; [|done]. apply mapM_Raise in Hm as (r & _ & Hr).
    unfold below_threshold in Hr. destruct (r !! _) as [[?|?]|]; congruence.
Qed.

Lemma combined_fill pl_df up_df combined :
  combined_before_fill pl_df up_df = Ok combined ->
  exists filled0,
    (fill_nans combined "FacilityID" [] true).2
    = Ok {| columns := add_column "State" (columns combined);
            rows := filter (fun r => complete (confirmed_target combined []) r)
                      filled0 |}
    ∧ Forall2 (fun r r' : Row =>
                 r' !! "eGRID_ID" = r !! "eGRID_ID"
                 ∧ r' !! "FacilityID" = r !! "FacilityID")
        (rows combined) filled0
    ∧ (forall c, c ∈ filled_columns ->
         c ≠ "PercentGenerationfromDesignatedFuelCategory" ->
         c ≠ "FacilityID" ->
         c ∈ confirmed_target combined []).
Proof.
  intros Hc. pose proof (combined_outcome pl_df up_df) as Ho.
  rewrite Hc in Ho. destruct Ho as (Hpl & _ & _ & Hfrom & Hadd & _ & Hrows).
  assert (Hpl5 : forall c, c ∈ "eGRID_ID" :: region_cols -> c ∈ columns combined).
  { intros c Hc5. apply Hfrom.
    - by apply (proj1 (has_columns_true _ _) Hpl).
    - repeat (apply elem_of_cons in Hc5 as [->|Hc5]);
        [..|by apply elem_of_nil in Hc5]; by apply (bool_decide_unpack _). }
  assert (Hk : "FacilityID" ∈ columns combined).
  { apply Hadd. by apply (bool_decide_unpack _). }
  assert (He : "eGRID_ID" ∈ columns combined).
  { apply Hpl5. by left. }
  assert (Hnot : "FacilityID" ∉ targets_or_default []).
  { by apply (bool_decide_unpack _). }
  destruct (fill_nans_ok plant_ba_State combined "FacilityID" [] true Hk He Hnot)
    as (filled0 & HF & Heq).
  exists filled0. rewrite Heq. split; [done|]. split.
  - eapply Forall2_impl_l; [exact HF|]. intros r r' Hr Hcell.
    rewrite !Hcell. unfold CombinatorSpec.filled_cell, key_filled_cell.
    rewrite !bool_decide_eq_false_2 by done.
    destruct (Hrows r Hr) as [Hfe _].
    rewrite (bool_decide_eq_false_2 ("FacilityID" ∈ _)).
    2:{ intros [_ ?]%list_elem_of_filter. done. }
    split; [|by destruct (r !! "FacilityID")].
    destruct (r !! "eGRID_ID") eqn:E; [done|].
    rewrite Hfe. by case_bool_decide.
  - intros c Hc10 Hne Hnf. unfold confirmed_target.
    repeat (apply elem_of_cons in Hc10 as [->|Hc10]);
      [..|by apply elem_of_nil in Hc10]; try done.
    all: apply elem_of_app.
    9:{ destruct (has_column combined "State") eqn:HS.
         - left. apply list_elem_of_filter. split; [by apply has_column_true|].
           by apply (bool_decide_unpack _).
         - right. by left. }
    all: left; apply list_elem_of_filter;
      (split; [|by apply (bool_decide_unpack _)]).
    all: first [ apply Hpl5; by apply (bool_decide_unpack _)
               | apply Hadd; by apply (bool_decide_unpack _) ].
Qed.

Lemma mixed_lookup (r : Row) c :
  c ≠ "PrimaryFuel" -> c ≠ "FuelCategory" -> mixed r !! c = r !! c.
Proof. intros H1 H2. unfold mixed. by rewrite !lookup_insert_ne. Qed.

Lemma mixed_is_Some (r : Row) c : is_Some (r !! c) -> is_Some (mixed r !! c).
Proof.
  intros H. unfold mixed.
  destruct (decide (c = "PrimaryFuel")) as [->|H1]; [by rewrite lookup_insert_eq|].
  rewrite lookup_insert_ne by done.
  destruct (decide (c = "FuelCategory")) as [->|H2]; [by rewrite lookup_insert_eq|].
  by rewrite lookup_insert_ne.
Qed.

(** The rows that the Combiner returns, traced back to the combined frame. *)
Lemma returned_row pl_df up_df out r :
  concat_clean_upstream_and_plant pl_df up_df = Ok out ->
  r ∈ rows out ->
  exists combined rc rf,
    combined_before_fill pl_df up_df = Ok combined
    ∧ rc ∈ rows combined
    ∧ rf !! "eGRID_ID" = rc !! "eGRID_ID"
    ∧ rf !! "FacilityID" = rc !! "FacilityID"
    ∧ complete (confirmed_target combined []) rf = true
    ∧ "PercentGenerationfromDesignatedFuelCategory" ∈ columns combined
    ∧ (r = rf ∨ r = mixed rf).
Proof.
  intros (combined & filled & Hc & Hf & Hm)%concat_clean_inv Hr.
  destruct (mixed_policy_rows _ _ _ _ _ Hm Hr) as (rf & Hrf & Hcase).
  destruct (combined_fill _ _ _ Hc) as (filled0 & Heq & HF & _).
  rewrite Heq in Hf. injection Hf as <-. cbn [rows] in Hrf.
  apply list_elem_of_filter in Hrf as [Hcomp Hrf]. apply Is_true_true in Hcomp.
  destruct (Forall2_elem_of_r _ _ _ _ HF Hrf) as (rc & Hrc & He & Hfa).
  exists combined, rc, rf. repeat (split; [done|]). split; [|done].
  pose proof (mixed_policy_outcome
                {| columns := add_column "State" (columns combined);
                   rows := filter (fun r => complete (confirmed_target combined []) r)
                             filled0 |}) as Ho.
  rewrite Hm in Ho. cbn [columns] in Ho.
  apply elem_of_add_column in Ho as [Ho|Ho]; [discriminate Ho|done].
Qed.

(** X11: every row that the Combiner returns belongs to a plant of the
    plant table: its eGRID_ID is the eGRID_ID of a row of [pl_df], and its
    FacilityID is the same value.  An upstream row whose plant_id matches
    no plant is not returned. *)
Theorem returned_rows_belong_to_plants pl_df up_df out r :
  concat_clean_upstream_and_plant pl_df up_df = Ok out ->
  r ∈ rows out ->
  exists v p,
    r !! "eGRID_ID" = Some v
    ∧ r !! "FacilityID" = Some v
    ∧ p ∈ rows pl_df
    ∧ p !! "eGRID_ID" = Some v.
Proof.
  intros Hrun Hr.
  destruct (returned_row _ _ _ _ Hrun Hr)
    as (combined & rc & rf & Hc & Hrc & He & Hfa & Hcomp & _ & Hcase).
  pose proof (combined_outcome pl_df up_df) as Ho. rewrite Hc in Ho.
  destruct Ho as (_ & _ & _ & _ & _ & _ & Hrows).
  destruct (Hrows rc Hrc) as [Hfe Hplant].
  destruct (combined_fill _ _ _ Hc) as (_ & _ & _ & Hconf).
  assert (HeS : is_Some (rf !! "eGRID_ID")).
  { apply (complete_lookup _ _ _ Hcomp). apply Hconf; [|done..].
    by apply (bool_decide_unpack _). }
  destruct HeS as [v Hv]. rewrite Hv in He. symmetry in He.
  destruct Hplant as [Hn|(p & Hp & Hpe)]; [congruence|].
  exists v, p.
  assert (r !! "eGRID_ID" = Some v ∧ r !! "FacilityID" = Some v) as [-> ->].
  { destruct Hcase as [->| ->]; rewrite ?mixed_lookup by done;
      split; congruence. }
  repeat split; [done|congruence].
Qed.

(** X12: every row that the Combiner returns has a value in each of the
    region columns, in FuelCategory, in the percentage of the designated
    fuel category, in eGRID_ID, State and FacilityID. *)
Theorem returned_rows_are_complete pl_df up_df out r :
  concat_clean_upstream_and_plant pl_df up_df = Ok out ->
  r ∈ rows out ->
  complete filled_columns r = true.
Proof.
  intros Hrun Hr.
  destruct (returned_row _ _ _ _ Hrun Hr)
    as (combined & rc & rf & Hc & Hrc & He & Hfa & Hcomp & Hpc & Hcase).
  pose proof (combined_outcome pl_df up_df) as Ho. rewrite Hc in Ho.
  destruct Ho as (_ & _ & _ & _ & _ & _ & Hrows).
  destruct (Hrows rc Hrc) as [Hfe _].
  destruct (combined_fill _ _ _ Hc) as (_ & _ & _ & Hconf).
  assert (Hrf : forall c, c ∈ filled_columns -> is_Some (rf !! c)).
  { intros c Hc10.
    destruct (decide (c = "PercentGenerationfromDesignatedFuelCategory")) as [->|Hne].
    - apply (complete_lookup _ _ _ Hcomp). unfold confirmed_target.
      apply elem_of_app. left. apply list_elem_of_filter. split; [done|].
      by apply (bool_decide_unpack _).
    - destruct (decide (c = "FacilityID")) as [->|Hnf].
      + rewrite Hfa, Hfe, <- He. apply (complete_lookup _ _ _ Hcomp).
        apply Hconf; [|done..]. by apply (bool_decide_unpack _).
      + apply (complete_lookup _ _ _ Hcomp). by apply Hconf. }
  unfold complete. apply forallb_forall. intros c Hc10%list_elem_of_In.
  apply bool_decide_eq_true. destruct Hcase as [->| ->]; [by apply Hrf|].
  by apply mixed_is_Some, Hrf.
Qed.

Lemma concat_clean_outcome pl_df up_df :
  match concat_clean_upstream_and_plant pl_df up_df with
  | Ok out => combiner_ready pl_df up_df
  | Raise e => (e = KeyError ∧ ¬ combiner_ready pl_df up_df)
               ∨ (e = TypeError ∧ combiner_ready pl_df up_df)
               ∨ (e = ValueError
                  ∧ has_columns pl_df ("eGRID_ID" :: region_cols) = true
                  ∧ "plant_id" ∈ columns up_df)
  end.
Proof.
  unfold Combinator.concat_clean_upstream_and_plant, combiner_ready.
  pose proof (combined_outcome pl_df up_df) as Ho.
  destruct (Combinator.combined_before_fill _ _ _ pl_df up_df) as [combined|e] eqn:Hc;
    cbn [mbind Result_bind].
  2:{ destruct Ho as [[-> Hno]|[-> Hno]].
      - left. split; [done|]. tauto.
      - right. right. done. }
  destruct Ho as (Hpl & Hup & Hsc & _ & _ & Hplain & _).
  destruct (combined_fill _ _ _ Hc) as (filled0 & -> & _ & _).
  cbn [mbind Result_bind].
  assert (HP : "PercentGenerationfromDesignatedFuelCategory" ∈ columns combined
               <-> "PercentGenerationfromDesignatedFuelCategory" ∈ columns pl_df
                   ∨ "PercentGenerationfromDesignatedFuelCategory" ∈ columns up_df).
  { apply Hplain; [reflexivity|by apply (bool_decide_unpack _)..]. }
  clear Hplain.
  match goal with
  | |- context [Combinator.mixed_policy _ _ ?f] =>
      pose proof (mixed_policy_outcome f) as Hm;
      destruct (Combinator.mixed_policy _ _ f) as [out|e]
  end; cbn [columns] in Hm.
  - apply elem_of_add_column in Hm as [Hm|Hm]; [discriminate Hm|].
    repeat (split; [done|]). by apply HP.
  - destruct Hm as [[-> Hm]|[-> Hm]].
    + left. split; [done|]. intros (_ & _ & _ & Hp). apply Hm.
      apply elem_of_add_column. right. by apply HP.
    + right. left. split; [done|].
      apply elem_of_add_column in Hm as [Hm|Hm]; [discriminate Hm|].
      repeat (split; [done|]). by apply HP.
Qed.

(** X13: the Combiner returns only when the plant table has eGRID_ID and
    the four region columns, the upstream table has plant_id, and one of
    the two tables has the column stage_code and one the column of the
    percentage of the designated fuel category; a KeyError that it raises
    means that one of these columns is missing; and it raises KeyError when
    the plant table lacks eGRID_ID or a region column, or the upstream
    table lacks plant_id. *)
Theorem concat_clean_errors pl_df up_df :
  (forall out, concat_clean_upstream_and_plant pl_df up_df = Ok out ->
     combiner_ready pl_df up_df)
  ∧ (concat_clean_upstream_and_plant pl_df up_df = Raise KeyError ->
     ¬ combiner_ready pl_df up_df)
  ∧ (¬ (has_columns pl_df ("eGRID_ID" :: region_cols) = true
        ∧ "plant_id" ∈ columns up_df) ->
     concat_clean_upstream_and_plant pl_df up_df = Raise KeyError).
Proof.
  pose proof (concat_clean_outcome pl_df up_df) as H.
  destruct (Combinator.concat_clean_upstream_and_plant _ _ _ _ _ _ pl_df up_df)
    as [out|e].
  - split; [done|]. split; [done|]. intros Hn. exfalso. apply Hn.
    destruct H as (? & ? & _). done.
  - split; [done|]. destruct H as [[-> H]|[[-> H]|(-> & H)]].
    + done.
    + split; [done|]. intros Hn. exfalso. apply Hn.
      destruct H as (? & ? & _). done.
    + split; [done|]. intros Hn. by destruct Hn.
Qed.

End Combiner.
End CombinerMoreProps.

Module InitProps.
Import Py Writer WriterSpec WriterMore Init WriterMoreProps.

Lemma dict_set_keys d k v :
  (dict_set d k v).*1 = if bool_decide (k ∈ d.*1) then d.*1 else d.*1 ++ [k].
Proof.
  induction d as [|[k' v'] d IH]; cbn [dict_set]; [done|].
  destruct (String.eqb k' k) eqn:E.
  - apply String.eqb_eq in E as ->. cbn. rewrite bool_decide_eq_true_2; [done|by left].
  - apply String.eqb_neq in E. cbn [fmap list_fmap fst]. fold (fmap (M:=list) (@fst string pyobj)).
    rewrite IH. case_bool_decide as H1.
    + rewrite bool_decide_eq_true_2; [done|by right].
    + rewrite bool_decide_eq_false_2; [done|].
      intros [?|?]%elem_of_cons; [by subst|done].
Qed.

Lemma dict_set_NoDup d k v : NoDup d.*1 -> NoDup (dict_set d k v).*1.
Proof.
  intros H. rewrite dict_set_keys. case_bool_decide as Hk; [done|].
  apply NoDup_app. split; [done|]. split; [|apply NoDup_singleton].
  intros x Hx ->%list_elem_of_singleton. done.
Qed.

Lemma elem_of_dict_set d k v k' v' :
  NoDup d.*1 ->
  (k', v') ∈ dict_set d k v <-> (k' = k ∧ v' = v) ∨ (k' ≠ k ∧ (k', v') ∈ d).
Proof.
  induction d as [|[k0 v0] d IH]; intros Hnd; cbn [dict_set].
  - rewrite list_elem_of_singleton. split.
    + intros [= -> ->]. by left.
    + intros [[-> ->]|[_ H]]; [done|by apply elem_of_nil in H].
  - apply NoDup_cons in Hnd as [Hk0 Hnd]. destruct (String.eqb k0 k) eqn:E.
    + apply String.eqb_eq in E as ->. rewrite !elem_of_cons. split.
      * intros [[= -> ->]|H]; [by left|]. right. split; [|by right].
        intros ->. apply Hk0. apply list_elem_of_fmap. by exists (k, v').
      * intros [[-> ->]|[Hne [[= -> ->]|H]]]; [by left|done|by right].
    + apply String.eqb_neq in E. rewrite !elem_of_cons, (IH Hnd). split.
      * intros [[= -> ->]|[H|[H1 H2]]]; [right|by left|right].
        -- split; [done|by left].
        -- split; [done|by right].
      * intros [H|[H1 [[= -> ->]|H2]]]; [right; by left|by left|].
        right. by right.
Qed.

Lemma dict_merge_spec b : forall a,
  NoDup a.*1 -> NoDup b.*1 ->
  NoDup (dict_merge a b).*1
  ∧ forall k v, (k, v) ∈ dict_merge a b <->
      (k, v) ∈ b ∨ ((k, v) ∈ a ∧ k ∉ b.*1).
Proof.
  unfold dict_merge.
  induction b as [|[k0 v0] b IH]; intros a Ha Hb; cbn [foldl].
  - split; [done|]. intros k v. split; [intros H; right; split; [done|]|].
    + apply not_elem_of_nil.
    + intros [H|[H _]]; [by apply elem_of_nil in H|done].
  - cbn [fmap list_fmap fst] in Hb. apply NoDup_cons in Hb as [Hk0 Hb].
    destruct (IH (dict_set a k0 v0) (dict_set_NoDup _ _ _ Ha) Hb) as [Hnd Hin].
    split; [done|]. intros k v. cbn [fst snd]. rewrite Hin.
    rewrite (elem_of_dict_set a k0 v0 k v Ha).
    cbn [fmap list_fmap fst]. rewrite elem_of_cons, not_elem_of_cons.
    split.
    + intros [H|[[[-> ->]|[H1 H2]] H3]].
      * left. by right.
      * left. by left.
      * right. done.
    + intros [[[= -> ->]|H]|[H1 [H2 H3]]].
      * right. split; [by left|]. done.
      * by left.
      * right. split; [right; done|done].
Qed.

Lemma merged_spec ds : forall acc,
  NoDup acc.*1 -> Forall (fun d => NoDup d.*1) ds ->
  NoDup (foldl dict_merge acc ds).*1
  ∧ forall k v, (k, v) ∈ foldl dict_merge acc ds <->
      (exists i d, ds !! i = Some d ∧ (k, v) ∈ d
         ∧ forall j d', i < j -> ds !! j = Some d' -> k ∉ d'.*1)
      ∨ ((k, v) ∈ acc ∧ forall d, d ∈ ds -> k ∉ d.*1).
Proof.
  induction ds as [|d ds IH]; intros acc Hacc Hds; cbn [foldl].
  - split; [done|]. intros k v. split.
    + intros H. right. split; [done|]. intros d Hd. by apply elem_of_nil in Hd.
    + intros [(i & d & Hi & _)|[H _]]; [done|done].
  - apply Forall_cons in Hds as [Hd Hds].
    destruct (dict_merge_spec d acc Hacc Hd) as [Hnd Hin].
    destruct (IH (dict_merge acc d) Hnd Hds) as [Hnd' Hin'].
    split; [done|]. intros k v. rewrite Hin', Hin. split.
    + intros [(i & d' & Hi & Hkv & Hlater)|[[H|[H1 H2]] H3]].
      * left. exists (S i), d'. split; [done|]. split; [done|].
        intros [|j] d'' Hj Hd''; [lia|]. apply (Hlater j); [lia|done].
      * left. exists 0, d. split; [done|]. split; [done|].
        intros [|j] d'' Hj Hd''; [lia|]. apply H3.
        by eapply list_elem_of_lookup_2.
      * right. split; [done|]. intros d' [->|Hd']%elem_of_cons; [done|by apply H3].
    + intros [(i & d' & Hi & Hkv & Hlater)|[H1 H2]].
      * destruct i as [|i].
        -- injection Hi as <-. right. split; [by left|].
           intros d'' [j Hj]%list_elem_of_lookup. apply (Hlater (S j)); [lia|done].
        -- left. exists i, d'. split; [done|]. split; [done|].
           intros j d'' Hj Hd''. apply (Hlater (S j)); [lia|done].
      * right. split.
        -- right. split; [done|]. apply H2. by left.
        -- intros d' Hd'. apply H2. by right.
Qed.

Section Props.
Variable uuid3_oid : string -> string.
Variable repr : pyobj -> string.

(** X19: [write_process_dicts_to_jsonld] writes every key of its
    dictionaries once: the merged dictionary has no repeated key, a key
    has the value of the last dictionary that holds it, and the archive
    has one Process record for each entry of the merged dictionary, in its
    order. *)
Theorem later_dictionary_wins process_dicts archive :
  Forall (fun d => NoDup d.*1) process_dicts ->
  write_process_dicts_to_jsonld uuid3_oid repr process_dicts = Ok archive ->
  let merged := foldl dict_merge [] process_dicts in
  NoDup merged.*1
  ∧ (forall k v, (k, v) ∈ merged <->
       exists i d, process_dicts !! i = Some d ∧ (k, v) ∈ d
         ∧ forall j d', i < j -> process_dicts !! j = Some d' -> k ∉ d'.*1)
  ∧ mapM (process_record uuid3_oid repr) merged.*2
    = Some (process_records archive).
Proof.
  intros Hds Hrun merged.
  destruct (merged_spec process_dicts [] (NoDup_nil_2) Hds) as [Hnd Hin].
  split; [done|]. split.
  - intros k v. fold merged in Hin. rewrite Hin. split; [|by left].
    intros [H|[H _]]; [done|by apply elem_of_nil in H].
  - unfold write_process_dicts_to_jsonld in Hrun. cbv zeta in Hrun.
    fold merged in Hrun.
    apply (WriterProps.write_inv uuid3_oid repr) in Hrun as [created H].
    apply write_loop_records in H as (ps & H & Hrec).
    rewrite H. f_equal. exact (eq_sym Hrec).
Qed.

End Props.
End InitProps.

Module MapperMoreProps.
Import Pandas Combinator MapperSpec MapperMore FillProps MapperProps
  CombinerProps Steps ListFacts PandasProps FrameSteps.

Section Library.
Context {lib : Library}.

Lemma groupby_agg_outcome by_ spec df :
  match groupby_agg by_ spec df with
  | Ok y => has_columns df (by_ ++ spec.*1) = true
            ∧ columns y = by_ ++ spec.*1
  | Raise e => True
  end.
Proof.
  unfold groupby_agg. destruct (has_columns df _); [|done].
  destruct (mapM _ _); done.
Qed.

Lemma apply_conversion_outcome df :
  match apply_conversion df with
  | Ok y => columns y = columns df
            ∧ Forall2 (fun r r' : Row =>
                         exists v, r' = set_cell "FlowAmount" v r)
                (rows df) (rows y)
  | Raise e => True
  end.
Proof.
  unfold apply_conversion. destruct (_ && _); [|done].
  destruct (mapM _ (rows df)) as [rs|] eqn:E; [|done]. cbn.
  split; [done|]. apply mapM_Ok in E. eapply Forall2_impl; [exact E|].
  intros r r' H. cbn beta in H. destruct (cell_mul _ _) as [v|]; [|done].
  injection H as <-. by exists v.
Qed.

Lemma prime_context_outcome df :
  match prime_context df with
  | Ok y => columns y = add_column "ElementaryFlowPrimeContext" (columns df)
            ∧ Forall2 (fun r r' : Row =>
                         exists s, r !! "Compartment" = Some (VStr s)
                           ∧ r' = <["ElementaryFlowPrimeContext" :=
                                      VStr (if Py.contains "resource" s
                                            then "resource" else "emission")]> r)
                (rows df) (rows y)
  | Raise e => True
  end.
Proof.
  unfold prime_context. destruct (has_column _ _); [|done].
  destruct (mapM _ (rows df)) as [rs|] eqn:E; [|done]. cbn.
  split; [done|]. apply mapM_Ok in E. eapply Forall2_impl; [exact E|].
  intros r r' H. cbn beta in H. destruct (r !! "Compartment") as [[s|]|]; try done.
  injection H as <-. by exists s.
Qed.

(** *** The arguments and their concatenation *)

Lemma elem_of_foldl_union_columns l : forall acc c,
  c ∈ foldl union_columns acc l <-> c ∈ acc ∨ exists cs, cs ∈ l ∧ c ∈ cs.
Proof.
  induction l as [|x l IH]; intros acc c; cbn [foldl].
  - split; [by left|]. intros [H|(cs & H & _)]; [done|by apply elem_of_nil in H].
  - rewrite IH, elem_of_union_columns. split.
    + intros [[H|H]|(cs & H1 & H2)]; [by left|right..].
      * exists x. split; [by left|done].
      * exists cs. split; [by right|done].
    + intros [H|(cs & [->|H1]%elem_of_cons & H2)]; [left; by left|left; by right|].
      right. by exists cs.
Qed.

Lemma with_compartment_path_outcome df :
  match with_compartment_path df with
  | Ok y => ("Compartment_path" ∈ columns df ∨ "Compartment" ∈ columns df)
            ∧ forall c, c ∈ columns y <-> c = "Compartment_path" ∨ c ∈ columns df
  | Raise e => e = KeyError
               ∧ ("Compartment_path" ∉ columns df) ∧ ("Compartment" ∉ columns df)
  end.
Proof.
  unfold with_compartment_path.
  destruct (has_column df "Compartment_path") eqn:E; cbn [negb].
  - apply has_column_true in E. split; [by left|]. intros c. split; [by right|].
    by intros [->|].
  - apply has_column_false in E.
    pose proof (map_column_outcome "Compartment" "Compartment_path"
                  compartment_mapping df) as H.
    destruct (map_column _ _ _ df) as [y|e].
    + destruct H as (Hc & Hcols & _). split; [by right|]. intros c.
      rewrite Hcols. apply elem_of_add_column.
    + destruct H as [-> H]. done.
Qed.

Lemma upstream_df_list_outcome args :
  match upstream_df_list args with
  | Ok dfs =>
      (forall df, ADataFrame df ∈ args ->
         "Compartment_path" ∈ columns df ∨ "Compartment" ∈ columns df)
      ∧ (dfs = [] <-> Forall (fun a => a = AOther) args)
      ∧ (forall c, c ≠ "Compartment_path" ->
           (exists d, d ∈ dfs ∧ c ∈ columns d) <-> some_frame_has args c)
  | Raise e =>
      e = KeyError
      ∧ exists df, ADataFrame df ∈ args
          ∧ ("Compartment_path" ∉ columns df) ∧ ("Compartment" ∉ columns df)
  end.
Proof.
  induction args as [|[df|] args IH]; cbn [upstream_df_list].
  - split; [intros df H; by apply elem_of_nil in H|]. split; [done|].
    intros c _. split.
    + intros (d & H & _). by apply elem_of_nil in H.
    + intros (d & H & _). by apply elem_of_nil in H.
  - pose proof (with_compartment_path_outcome df) as Hw.
    destruct (with_compartment_path df) as [y|e]; cbn [mbind Result_bind].
    2:{ destruct Hw as (-> & H1 & H2). split; [done|]. exists df.
        split; [by left|done]. }
    destruct Hw as [Hhas Hcols].
    destruct (upstream_df_list args) as [dfs|e]; cbn [mbind Result_bind].
    2:{ destruct IH as (-> & d & Hd & H). split; [done|]. exists d.
        split; [by right|done]. }
    destruct IH as (IH1 & IH2 & IH3). split; [|split].
    + intros d [[= ->]|Hd]%elem_of_cons; [done|by apply IH1].
    + split; [done|]. intros H. apply Forall_cons in H as [H _]. done.
    + intros c Hc. split.
      * intros (d & [->|Hd]%elem_of_cons & Hcd).
        -- exists df. split; [by left|]. apply Hcols in Hcd as [->|]; done.
        -- destruct (proj1 (IH3 c Hc)) as (d' & Hd' & Hcd'); [by exists d|].
           exists d'. split; [by right|done].
      * intros (d & [[= ->]|Hd]%elem_of_cons & Hcd).
        -- exists y. split; [by left|]. apply Hcols. by right.
        -- destruct (proj2 (IH3 c Hc)) as (d' & Hd' & Hcd'); [by exists d|].
           exists d'. split; [by right|done].
  - destruct (upstream_df_list args) as [dfs|e].
    + destruct IH as (IH1 & IH2 & IH3). split; [|split].
      * intros d [[=]|Hd]%elem_of_cons. by apply IH1.
      * rewrite IH2. split; [by constructor|]. by intros [_ H]%Forall_cons.
      * intros c Hc. rewrite (IH3 c Hc). split.
        -- intros (d & Hd & Hcd). exists d. split; [by right|done].
        -- intros (d & [[=]|Hd]%elem_of_cons & Hcd). by exists d.
    + destruct IH as (-> & d & Hd & H). split; [done|]. exists d.
      split; [by right|done].
Qed.

Lemma upstream_df_concat_outcome args :
  match upstream_df_concat args with
  | Ok u =>
      (forall df, ADataFrame df ∈ args ->
         "Compartment_path" ∈ columns df ∨ "Compartment" ∈ columns df)
      ∧ ¬ Forall (fun a => a = AOther) args
      ∧ (forall c, c ≠ "Compartment_path" ->
           c ∈ columns u <-> some_frame_has args c)
  | Raise e =>
      (e = ValueError ∧ Forall (fun a => a = AOther) args)
      ∨ (e = KeyError
         ∧ exists df, ADataFrame df ∈ args
             ∧ ("Compartment_path" ∉ columns df) ∧ ("Compartment" ∉ columns df))
  end.
Proof.
  unfold upstream_df_concat.
  pose proof (upstream_df_list_outcome args) as H.
  destruct (upstream_df_list args) as [dfs|e]; cbn [mbind Result_bind]; [|by right].
  destruct H as (H1 & H2 & H3). destruct dfs as [|d dfs]; cbn [concat].
  - left. split; [done|]. by apply H2.
  - split; [done|]. split; [by intros H%H2|].
    cbn [columns]. intros c Hc. rewrite <- (H3 c Hc).
    rewrite elem_of_foldl_union_columns, elem_of_nil. split.
    + intros [[]|(cs & (d' & -> & Hd')%list_elem_of_fmap & Hcs)]. by exists d'.
    + intros (d' & Hd' & Hcd). right. exists (columns d'). split; [|done].
      apply list_elem_of_fmap. by exists d'.
Qed.

(** *** The prepared frame *)

Lemma prepared_outcome u p :
  upstream_df_prepared u = Ok p ->
  (forall c, c ∈ columns p <->
     c ∈ columns u
     ∨ c ∈ ["FlowName_orig"; "Compartment_orig"; "Compartment_path_orig";
            "Unit_orig"])
  ∧ Forall2 (fun r r' : Row =>
               r' !! "FlowName_orig" = r !! "FlowName"
               ∧ r' !! "Compartment_path_orig" = r !! "Compartment_path"
               ∧ r' !! "Unit_orig" = r !! "Unit"
               ∧ r' !! "FlowName" = r !! "FlowName" ≫= normal
               ∧ r' !! "Compartment_path" = r !! "Compartment_path" ≫= normal
               ∧ r' !! "Unit" = Some (default (VStr "<blank>") (r !! "Unit")))
      (rows u) (rows p).
Proof.
  unfold upstream_df_prepared, copy_column. intros H.
  ok_step H (map_column_outcome "FlowName" "FlowName_orig" Some u).
  ok_step H (map_column_outcome "Compartment" "Compartment_orig" Some m).
  ok_step H (map_column_outcome "Compartment_path" "Compartment_path_orig" Some m0).
  ok_step H (map_column_outcome "Unit" "Unit_orig" Some m1).
  ok_step H (map_column_outcome "FlowName" "FlowName"
               (str_method (fun s => Py.rstrip (Py.lower s))) m2).
  ok_step H (map_column_outcome "Compartment" "Compartment"
               (str_method (fun s => Py.rstrip (Py.lower s))) m3).
  ok_step H (map_column_outcome "Compartment_path" "Compartment_path"
               (str_method (fun s => Py.rstrip (Py.lower s))) m4).
  injection H as <-.
  destruct Hs as (Hc1 & Hcols1 & Hr1). destruct Hs0 as (Hc2 & Hcols2 & Hr2).
  destruct Hs1 as (Hc3 & Hcols3 & Hr3). destruct Hs2 as (Hc4 & Hcols4 & Hr4).
  destruct Hs3 as (Hc5 & Hcols5 & Hr5). destruct Hs4 as (Hc6 & Hcols6 & Hr6).
  destruct Hs5 as (Hc7 & Hcols7 & Hr7).
  split.
  - intros c. cbn [assign_where columns].
    rewrite elem_of_add_column, Hcols7, elem_of_add_column, Hcols6,
      elem_of_add_column, Hcols5, elem_of_add_column, Hcols4,
      elem_of_add_column, Hcols3, elem_of_add_column, Hcols2,
      elem_of_add_column, Hcols1, elem_of_add_column.
    rewrite Hcols3, Hcols2, Hcols1 in Hc4.
    rewrite !elem_of_add_column in Hc4.
    rewrite Hcols2, Hcols1 in Hc3. rewrite !elem_of_add_column in Hc3.
    rewrite Hcols1 in Hc2. rewrite !elem_of_add_column in Hc2.
    rewrite !elem_of_cons, elem_of_nil.
    destruct Hc4 as [[=]|[[=]|[[=]|Hc4]]].
    destruct Hc3 as [[=]|[[=]|Hc3]].
    destruct Hc2 as [[=]|Hc2].
    split.
    + intros [->|[->|[->|[->|[->|[->|[->|[->|H]]]]]]]]; tauto.
    + tauto.
  - cbn [assign_where rows]. rewrite Hr7, Hr6, Hr5, Hr4, Hr3, Hr2, Hr1.
    do 8 apply (proj2 (Forall2_fmap_r _ _ _ _)).
    apply Forall_Forall2_diag, Forall_forall.
    intros r _. unfold compose.
    name_step r r1 H1. name_step r1 r2 H2. name_step r2 r3 H3.
    name_step r3 r4 H4. name_step r4 r5 H5. name_step r5 r6 H6.
    name_step r6 r7 H7.
    assert (HU : r7 !! "Unit" = r !! "Unit") by by chase.
    assert (Hgoal : r7 !! "FlowName_orig" = r !! "FlowName"
                    ∧ r7 !! "Compartment_path_orig" = r !! "Compartment_path"
                    ∧ r7 !! "Unit_orig" = r !! "Unit"
                    ∧ r7 !! "FlowName" = r !! "FlowName" ≫= normal
                    ∧ r7 !! "Compartment_path" = r !! "Compartment_path" ≫= normal).
    { repeat split; chase; try done.
      - by destruct (r !! "FlowName").
      - by destruct (r !! "Compartment_path").
      - by destruct (r !! "Unit"). }
    clear H1 H2 H3 H4 H5 H6 H7. destruct Hgoal as (G1 & G2 & G3 & G4 & G5).
    rewrite HU. destruct (r !! "Unit") as [w|] eqn:E.
    + rewrite bool_decide_eq_false_2 by done. by rewrite HU.
    + rewrite bool_decide_eq_true_2 by done.
      rewrite set_cell_lookup_eq, !set_cell_lookup_ne by done. done.
Qed.

(** *** The grouped frame *)

Lemma same_group_key_lookup by_ : forall (r g : Row) k c,
  group_key by_ r = Some k -> group_key by_ g = Some k -> c ∈ by_ ->
  g !! c = r !! c ∧ is_Some (r !! c).
Proof.
  unfold group_key.
  induction by_ as [|b by_ IH]; intros r g k c Hr Hg Hc;
    [by apply elem_of_nil in Hc|].
  cbn [mapM] in Hr, Hg.
  destruct (r !! b) as [vr|] eqn:Er; [|done].
  destruct (g !! b) as [vg|] eqn:Eg; [|done].
  cbn in Hr, Hg.
  destruct (mapM (fun c => r !! c) by_) as [kr|] eqn:Ekr; [|done].
  destruct (mapM (fun c => g !! c) by_) as [kg|] eqn:Ekg; [|done].
  cbn in Hr, Hg. injection Hr as <-. injection Hg as -> ->.
  apply elem_of_cons in Hc as [->|Hc].
  - by rewrite Er, Eg.
  - by apply (IH r g kr).
Qed.

Lemma group_key_None by_ (r : Row) c :
  c ∈ by_ -> r !! c = None -> group_key by_ r = None.
Proof.
  unfold group_key. induction by_ as [|b by_ IH]; intros Hc Hn;
    [by apply elem_of_nil in Hc|].
  cbn [mapM]. apply elem_of_cons in Hc as [<-|Hc].
  - by rewrite Hn.
  - destruct (r !! b); [|done]. cbn. by rewrite IH.
Qed.

Lemma grouped_member p grp (g : Row) :
  upstream_df_grp p = Ok grp -> g ∈ rows grp ->
  exists r, r ∈ rows p
    ∧ forall c, c ∈ groupby_cols -> g !! c = r !! c ∧ is_Some (r !! c).
Proof.
  intros Hgrp Hg.
  assert (exists spec, groupby_agg groupby_cols spec p = Ok grp
            ∧ NoDup spec.*1
            ∧ (forall c, c ∈ groupby_cols -> c ∉ spec.*1))
    as (spec & Hagg & Hnd & Hdisj).
  { unfold upstream_df_grp in Hgrp.
    destruct (has_column p "Electricity"); eexists; (split; [exact Hgrp|]).
    - split; [apply (bool_decide_unpack _); vm_compute; exact I|].
      apply Forall_forall. apply (bool_decide_unpack _). vm_compute. exact I.
    - split; [apply (bool_decide_unpack _); vm_compute; exact I|].
      apply Forall_forall. apply (bool_decide_unpack _). vm_compute. exact I. }
  pose proof (groupby_agg_spec _ _ _ _ groupby_cols_NoDup Hnd Hdisj Hagg) as HF.
  destruct (group_keys_spec groupby_cols (rows p)) as [_ Hke].
  destruct (Forall2_elem_of_r _ _ _ _ HF Hg) as (k & Hk & Hkey & _).
  apply Hke in Hk as (r & Hr & Hrk). exists r. split; [done|].
  intros c Hc. by apply (same_group_key_lookup groupby_cols r g k).
Qed.

Lemma final_columns_of_grouped p grp :
  upstream_df_grp p = Ok grp ->
  final_columns (columns p)
  = mapped_columns (bool_decide ("Electricity" ∈ columns p)).
Proof.
  intros Hgrp.
  assert (Hinput : "input" ∈ columns p).
  { unfold upstream_df_grp in Hgrp.
    destruct (has_column p "Electricity");
      match type of Hgrp with
      | groupby_agg ?a ?b ?d = Ok _ =>
          pose proof (groupby_agg_outcome a b d) as Hg; rewrite Hgrp in Hg;
          destruct Hg as [Hg _];
          apply (proj1 (has_columns_true _ _) Hg);
          by apply (bool_decide_unpack _)
      end. }
  unfold final_columns, mapped_columns.
  by rewrite (bool_decide_eq_true_2 ("input" ∈ columns p)).
Qed.

(** X15: the placeholder for a missing unit never reaches the grouped
    table.  A row whose Unit is missing gets the Unit "<blank>", but its
    copy of the unit, taken before, is still missing and is a grouping
    column, so the row is in no group; in every grouped row Unit equals
    the original unit, and FlowName and Compartment_path are the original
    values lower-cased and stripped on the right. *)
Theorem blank_unit_rows_are_not_grouped u p grp :
  upstream_df_prepared u = Ok p ->
  upstream_df_grp p = Ok grp ->
  Forall2 (fun r r' : Row =>
             r !! "Unit" = None ->
             r' !! "Unit" = Some (VStr "<blank>")
             ∧ group_key groupby_cols r' = None)
    (rows u) (rows p)
  ∧ (forall g, g ∈ rows grp ->
       is_Some (g !! "Unit_orig")
       ∧ g !! "Unit" = g !! "Unit_orig"
       ∧ g !! "FlowName" = g !! "FlowName_orig" ≫= normal
       ∧ g !! "Compartment_path" = g !! "Compartment_path_orig" ≫= normal).
Proof.
  intros Hp Hgrp. destruct (prepared_outcome _ _ Hp) as [_ HF]. split.
  - eapply Forall2_impl; [exact HF|].
    intros r r' (_ & _ & Ho & _ & _ & HU) Hn. rewrite Hn in HU, Ho.
    split; [done|]. apply (group_key_None _ _ "Unit_orig"); [|done].
    by apply (bool_decide_unpack _).
  - intros g Hg. destruct (grouped_member _ _ _ Hgrp Hg) as (r' & Hr' & Hsame).
    destruct (Forall2_elem_of_r _ _ _ _ HF Hr')
      as (r & _ & Hfo & Hco & Huo & Hf & Hc & HU).
    assert (Hin : forall c, c ∈ ["Unit"; "Unit_orig"; "FlowName"; "FlowName_orig";
                                 "Compartment_path"; "Compartment_path_orig"] ->
              g !! c = r' !! c ∧ is_Some (r' !! c)).
    { intros c Hc6. apply Hsame.
      repeat (apply elem_of_cons in Hc6 as [->|Hc6]);
        [..|by apply elem_of_nil in Hc6]; by apply (bool_decide_unpack _). }
    destruct (Hin "Unit_orig") as [-> HS]; [by apply (bool_decide_unpack _)|].
    destruct (Hin "Unit") as [-> _]; [by apply (bool_decide_unpack _)|].
    destruct (Hin "FlowName") as [-> _]; [by apply (bool_decide_unpack _)|].
    destruct (Hin "FlowName_orig") as [-> _]; [by apply (bool_decide_unpack _)|].
    destruct (Hin "Compartment_path") as [-> _]; [by apply (bool_decide_unpack _)|].
    destruct (Hin "Compartment_path_orig") as [-> _]; [by apply (bool_decide_unpack _)|].
    split; [done|]. rewrite HU, Huo, Hf, Hfo, Hc, Hco.
    rewrite Huo in HS. destruct HS as [w ->]. done.
Qed.

Section Mapper.
Variable flow_mapping_eLCI : DataFrame.
Variable eia_gen_year : Z.

Abbreviation upstream_mapped := (Combinator.upstream_mapped eia_gen_year).
Abbreviation concat_map_upstream_databases :=
  (Combinator.concat_map_upstream_databases flow_mapping_eLCI eia_gen_year).

Lemma rename_fuel_lookup (r : Row) c :
  c ≠ "FuelCategory" -> c ≠ "fuel_type" ->
  (kmap (fun c => if String.eqb c "fuel_type" then "FuelCategory" else c) r : Row)
    !! c = r !! c.
Proof.
  intros H1 H2. apply kmap_lookup_unique.
  - by rewrite (proj2 (String.eqb_neq _ _) H2).
  - intros c' _. destruct (String.eqb c' "fuel_type"); [|done]. by intros <-.
Qed.

Lemma mapped_rows grp flow_mapping mapped :
  upstream_mapped grp flow_mapping = Ok mapped ->
  forall r, r ∈ rows mapped ->
    is_Some (r !! "FlowName")
    ∧ r !! "Source" = Some (VStr "netl")
    ∧ r !! "Year" = Some (VNum (Q2Qc (inject_Z eia_gen_year)))
    ∧ exists s,
        r !! "Compartment" = Some (VStr s)
        ∧ r !! "ElementaryFlowPrimeContext"
          = Some (VStr (if Py.contains "resource" s
                        then "resource" else "emission")).
Proof.
  unfold Combinator.upstream_mapped. intros H.
  do 5 ok_skip H. ok_step H (dropna_outcome ["FlowName"] m3).
  destruct Hs as (_ & _ & Hr5).
  assert (Hflow : forall r, r ∈ rows m4 -> is_Some (r !! "FlowName")).
  { intros r. rewrite Hr5. intros [Hc _]%list_elem_of_filter.
    apply Is_true_true in Hc. apply (complete_lookup _ _ _ Hc). by left. }
  clear Hr5.
  ok_step H (apply_conversion_outcome m4).
  ok_step H (map_column_outcome "FuelCategory" "FuelCategory"
               (str_method Py.upper)
               (rename (fun c => if String.eqb c "fuel_type"
                                 then "FuelCategory" else c) m5)).
  ok_step H (prime_context_outcome m6).
  injection H as <-.
  destruct Hs as [_ Hr6]. destruct Hs0 as (_ & _ & Hr7). destruct Hs1 as [_ Hr8].
  cbn [assign rows]. intros r (r10 & -> & (r9 & -> & Hr9)%list_elem_of_fmap)%list_elem_of_fmap.
  destruct (Forall2_elem_of_r _ _ _ _ Hr8 Hr9) as (r8 & Hin8 & s & Hs & ->).
  rewrite Hr7 in Hin8. apply list_elem_of_fmap in Hin8 as (r7 & -> & Hin7).
  cbn [rename rows] in Hin7. apply list_elem_of_fmap in Hin7 as (r6 & -> & Hin6).
  destruct (Forall2_elem_of_r _ _ _ _ Hr6 Hin6) as (r5 & Hin5 & v & ->).
  apply Hflow in Hin5.
  rewrite set_cell_lookup_ne, rename_fuel_lookup, set_cell_lookup_ne in Hs by done.
  repeat first [ rewrite set_cell_lookup_eq
               | rewrite set_cell_lookup_ne by done
               | rewrite lookup_insert_eq
               | rewrite lookup_insert_ne by done
               | rewrite rename_fuel_lookup by done ].
  split; [done|]. split; [done|]. split; [done|]. by exists s.
Qed.

Lemma concat_map_inv args kwargs res :
  concat_map_upstream_databases args kwargs = Ok res ->
  exists u fm p grp sel mapped out,
    upstream_df_concat args = Ok u
    ∧ flow_mapping_lowered flow_mapping_eLCI = Ok fm
    ∧ upstream_df_prepared u = Ok p
    ∧ upstream_df_grp p = Ok grp
    ∧ select ["FlowName_orig"; "Compartment_path_orig"; "stage_code"] p = Ok sel
    ∧ upstream_mapped grp fm = Ok mapped
    ∧ select (final_columns (columns p)) mapped = Ok out
    ∧ ((res = (out, None) ∧ "group_name" ∉ kwargs)
       ∨ exists o m,
           "group_name" ∈ kwargs
           ∧ groups_keys ["FlowName_orig"; "Compartment_path_orig"] sel = Ok o
           ∧ groups_keys ["FlowName_orig"; "Compartment_path_orig"; "Unit_orig";
                          "FlowName"; "Compartment"; "Unit"] mapped = Ok m
           ∧ exists unmatched matched,
               sorted (elements (o ∖ m)) = Ok unmatched
               ∧ sorted (elements m) = Ok matched
               ∧ res = (out, Some (unmatched, matched))).
Proof.
  unfold Combinator.concat_map_upstream_databases. intros H.
  apply bind_Ok in H as (u & Hu & H). apply bind_Ok in H as (fm & Hfm & H).
  apply bind_Ok in H as (p & Hp & H). cbv zeta in H.
  apply bind_Ok in H as (grp & Hgrp & H). apply bind_Ok in H as (sel & Hsel & H).
  apply bind_Ok in H as (mapped & Hmapped & H).
  exists u, fm, p, grp, sel, mapped.
  case_bool_decide as Hk.
  - apply bind_Ok in H as (o & Ho & H). apply bind_Ok in H as (m & Hm & H).
    apply bind_Ok in H as (un & Hun & H). apply bind_Ok in H as (ma & Hma & H).
    apply bind_Ok in H as (out & Hout & H). injection H as <-.
    exists out. repeat (split; [done|]). right. exists o, m.
    repeat (split; [done|]). by exists un, ma.
  - apply bind_Ok in H as (out & Hout & H). injection H as <-.
    exists out. repeat (split; [done|]). by left.
Qed.

(** X14: every row of the mapped table is a mapped flow: it has a
    FlowName, its Source is "netl", its Year is the configured generation
    year, and its prime context is "resource" when its Compartment
    contains "resource" and "emission" otherwise. *)
Theorem mapped_rows_are_mapped_flows args kwargs out diag r :
  concat_map_upstream_databases args kwargs = Ok (out, diag) ->
  r ∈ rows out ->
  is_Some (r !! "FlowName")
  ∧ r !! "Source" = Some (VStr "netl")
  ∧ r !! "Year" = Some (VNum (Q2Qc (inject_Z eia_gen_year)))
  ∧ exists s,
      r !! "Compartment" = Some (VStr s)
      ∧ r !! "ElementaryFlowPrimeContext"
        = Some (VStr (if Py.contains "resource" s then "resource" else "emission")).
Proof.
  intros (u & fm & p & grp & sel & mapped & out' & _ & _ & _ & _ & _ & Hm & Hout & Hres)%concat_map_inv Hr.
  assert (out' = out) as ->.
  { destruct Hres as [[[= -> _] _]|(o & m & _ & _ & _ & ? & ? & _ & _ & [= -> _])];
      done. }
  pose proof (select_outcome (final_columns (columns p)) mapped) as Hs.
  rewrite Hout in Hs. destruct Hs as (_ & _ & Hrows).
  rewrite Hrows in Hr. apply list_elem_of_fmap in Hr as (r0 & -> & Hr0).
  destruct (mapped_rows _ _ _ Hm r0 Hr0) as (Hf & Hso & Hy & s & Hc & He).
  assert (Hin : forall c, c ∈ ["FlowName"; "Source"; "Year"; "Compartment";
                               "ElementaryFlowPrimeContext"] ->
            restrict (final_columns (columns p)) r0 !! c = r0 !! c).
  { intros c Hc5. rewrite restrict_lookup, bool_decide_eq_true_2; [done|].
    unfold final_columns. apply elem_of_app. left.
    repeat (apply elem_of_cons in Hc5 as [->|Hc5]);
      [..|by apply elem_of_nil in Hc5]; by apply (bool_decide_unpack _). }
  rewrite !Hin by (by apply (bool_decide_unpack _)).
  split; [done|]. split; [done|]. split; [done|]. by exists s.
Qed.

(** X16: [concat_map_upstream_databases] raises ValueError when no
    argument is a frame, and KeyError when a frame among the arguments has
    neither the column Compartment_path nor the column Compartment. *)
Theorem mapper_argument_errors args kwargs :
  (Forall (fun a => a = AOther) args ->
   concat_map_upstream_databases args kwargs = Raise ValueError)
  ∧ ((exists df, ADataFrame df ∈ args
        ∧ ("Compartment_path" ∉ columns df) ∧ ("Compartment" ∉ columns df)) ->
     concat_map_upstream_databases args kwargs = Raise KeyError).
Proof.
  unfold Combinator.concat_map_upstream_databases.
  pose proof (upstream_df_concat_outcome args) as H.
  destruct (upstream_df_concat args) as [u|e]; cbn [mbind Result_bind].
  - destruct H as (Hgood & Hsome & _). split; [done|].
    intros (df & Hdf & H1 & H2). destruct (Hgood df Hdf); done.
  - destruct H as [[-> Hall]|(-> & df & Hdf & _)].
    + split; [done|]. intros (df & Hdf & _).
      rewrite Forall_forall in Hall. by apply Hall in Hdf.
    + split; [|done]. intros Hall.
      rewrite Forall_forall in Hall. by apply Hall in Hdf.
Qed.

(** X17: the table that [concat_map_upstream_databases] returns has the
    thirteen fixed columns, then Electricity exactly when a frame among the
    arguments has that column, then input; a run that returns always takes
    the branch that appends input, because the grouping needs that column
    of the arguments. *)
Theorem mapped_table_columns args kwargs out diag :
  concat_map_upstream_databases args kwargs = Ok (out, diag) ->
  exists electricity : bool,
    columns out = mapped_columns electricity
    ∧ (electricity = true <-> some_frame_has args "Electricity")
    ∧ some_frame_has args "input".
Proof.
  intros (u & fm & p & grp & sel & mapped & out' & Hu & _ & Hp & Hgrp & _ & _ & Hout & Hres)%concat_map_inv.
  assert (out' = out) as ->.
  { destruct Hres as [[[= -> _] _]|(o & m & _ & _ & _ & ? & ? & _ & _ & [= -> _])];
      done. }
  pose proof (select_outcome (final_columns (columns p)) mapped) as Hs.
  rewrite Hout in Hs. destruct Hs as (_ & -> & _).
  pose proof (upstream_df_concat_outcome args) as Hcat. rewrite Hu in Hcat.
  destruct Hcat as (_ & _ & Hcat).
  destruct (prepared_outcome _ _ Hp) as [Hcols _].
  assert (Hfrom : forall c,
            c ∉ ["FlowName_orig"; "Compartment_orig"; "Compartment_path_orig";
                 "Unit_orig"; "Compartment_path"] ->
            c ∈ columns p <-> some_frame_has args c).
  { intros c Hc. rewrite !not_elem_of_cons in Hc. rewrite Hcols, <- Hcat by tauto.
    rewrite !elem_of_cons, elem_of_nil. tauto. }
  rewrite (final_columns_of_grouped _ _ Hgrp).
  assert (Hinput : "input" ∈ columns p).
  { pose proof (final_columns_of_grouped _ _ Hgrp) as Hfc.
    unfold final_columns, mapped_columns in Hfc.
    apply app_inv_head in Hfc. apply app_inv_head in Hfc.
    case_bool_decide; [done|discriminate Hfc]. }
  exists (bool_decide ("Electricity" ∈ columns p)).
  split; [done|]. split.
  - rewrite bool_decide_eq_true. apply Hfrom. by apply (bool_decide_unpack _).
  - apply Hfrom; [|done]. by apply (bool_decide_unpack _).
Qed.

Lemma elem_of_sorted l l' k : sorted l = Ok l' -> k ∈ l' <-> k ∈ l.
Proof.
  unfold sorted. destruct (comparable l); [|done]. intros [= <-].
  by rewrite merge_sort_Permutation.
Qed.

Lemma groups_keys_outcome a b by_ df :
  match groups_keys (a :: b :: by_) df with
  | Ok s => forall k, k ∈ s <->
              exists r, r ∈ rows df ∧ k = cells (a :: b :: by_) r
  | Raise e => True
  end.
Proof.
  unfold groups_keys. destruct (has_columns df _); [|done].
  intros k. rewrite elem_of_list_to_set, list_elem_of_fmap. split.
  - intros (r & -> & Hr). by exists r.
  - intros (r & Hr & ->). by exists r.
Qed.

(** X18: in the diagnostics mode the list of unmatched flows holds exactly
    the pairs of original flow name and compartment path of the rows of
    the prepared table, a NaN cell included, whether the flow was mapped or
    not: its entries are pairs, those of the matched list are tuples of
    six, so the set difference removes nothing. *)
Theorem unmatched_list_is_every_original_pair args kwargs u p out unmatched
    matched :
  upstream_df_concat args = Ok u ->
  upstream_df_prepared u = Ok p ->
  concat_map_upstream_databases args kwargs
  = Ok (out, Some (unmatched, matched)) ->
  (forall k, k ∈ unmatched <->
     exists r, r ∈ rows p
       ∧ k = [r !! "FlowName_orig"; r !! "Compartment_path_orig"])
  ∧ (forall k, k ∈ unmatched -> length k = 2)
  ∧ (forall k, k ∈ matched -> length k = 6).
Proof.
  intros Hu Hp (u' & fm & p' & grp & sel & mapped & out' & Hu' & _ & Hp' & _ & Hsel & _ & _ & Hres)%concat_map_inv.
  rewrite Hu in Hu'. injection Hu' as <-. rewrite Hp in Hp'. injection Hp' as <-.
  destruct Hres as [[[=] _]|(o & m & _ & Ho & Hm & un & ma & Hsun & Hsma & [= _ -> ->])].
  pose proof (groups_keys_outcome "FlowName_orig" "Compartment_path_orig" [] sel)
    as Ho'.
  rewrite Ho in Ho'.
  pose proof (groups_keys_outcome "FlowName_orig" "Compartment_path_orig"
                ["Unit_orig"; "FlowName"; "Compartment"; "Unit"] mapped) as Hm'.
  rewrite Hm in Hm'.
  pose proof (select_outcome ["FlowName_orig"; "Compartment_path_orig"; "stage_code"] p) as Hs.
  rewrite Hsel in Hs. destruct Hs as (_ & _ & Hrows).
  assert (Ho2 : forall k, k ∈ o <->
            exists r, r ∈ rows p
              ∧ k = [r !! "FlowName_orig"; r !! "Compartment_path_orig"]).
  { intros k. rewrite Ho', Hrows. split.
    - intros (r & (r0 & -> & Hr0)%list_elem_of_fmap & ->). exists r0.
      split; [done|]. unfold cells. cbn [fmap list_fmap].
      rewrite !restrict_lookup.
      by rewrite !bool_decide_eq_true_2 by (by apply (bool_decide_unpack _)).
    - intros (r & Hr & ->). exists (restrict ["FlowName_orig"; "Compartment_path_orig"; "stage_code"] r).
      split; [apply list_elem_of_fmap; by exists r|].
      unfold cells. cbn [fmap list_fmap]. rewrite !restrict_lookup.
      by rewrite !bool_decide_eq_true_2 by (by apply (bool_decide_unpack _)). }
  assert (Hlen2 : forall k, k ∈ o -> length k = 2).
  { by intros k (r & _ & ->)%Ho2. }
  assert (Hlen6 : forall k, k ∈ m -> length k = 6).
  { by intros k (r & _ & ->)%Hm'. }
  assert (Hun : forall k, k ∈ un <-> k ∈ o).
  { intros k. rewrite (elem_of_sorted _ _ _ Hsun), elem_of_elements,
      elem_of_difference.
    split; [by intros []|]. intros Hk. split; [done|].
    intros Hk6%Hlen6. apply Hlen2 in Hk. congruence. }
  split; [|split].
  - intros k. by rewrite Hun.
  - intros k Hk%Hun. by apply Hlen2.
  - intros k Hk. rewrite (elem_of_sorted _ _ _ Hsma), elem_of_elements in Hk.
    by apply Hlen6.
Qed.

End Mapper.
End Library.
End MapperMoreProps.

Module GenerationProps.
Import Pandas Combinator CombinerMore MapperMore Init FillProps MapperProps
  CombinerProps PandasProps FrameSteps CombinerMoreProps MapperMoreProps.

Section Generation.
Context {lib : Library}.
Variable plant_ba_State : val -> option val.
Variable ba_codes_BA_Name : val -> option val.
Variable ba_codes_FERC_Region : val -> option val.
Variable ba_codes_EIA_Region : val -> option val.
Variable flow_mapping_eLCI : DataFrame.
Variable eia_gen_year : Z.
Variable keep_mixed_plant_category : bool.
Variable min_plant_percent_generation_from_primary_fuel_category : Qc.
Variable geo_df solar_df wind_df : DataFrame.
Variable gen_df : DataFrame.

Abbreviation get_alternate_gen_plus_netl :=
  (Init.get_alternate_gen_plus_netl plant_ba_State ba_codes_BA_Name
     ba_codes_FERC_Region ba_codes_EIA_Region flow_mapping_eLCI eia_gen_year
     keep_mixed_plant_category
     min_plant_percent_generation_from_primary_fuel_category
     geo_df solar_df wind_df gen_df).

(** X20: in [get_alternate_gen_plus_netl] the mapped table of the three
    renewable sources always brings the columns plant_id and stage_code
    that the Combiner reads, and never the percentage of the designated
    fuel category.  So, when the mapping returns, the function returns only
    when the generation table has eGRID_ID, the region columns and that
    percentage; a KeyError that it raises means that one of them is
    missing; and it raises KeyError when the generation table lacks
    eGRID_ID or a region column. *)
Theorem alternate_generation_needs_plant_columns netl_gen diag :
  concat_map_upstream_databases flow_mapping_eLCI eia_gen_year
    [ADataFrame geo_df; ADataFrame solar_df; ADataFrame wind_df] []
  = Ok (netl_gen, diag) ->
  let ready :=
    has_columns gen_df ("eGRID_ID" :: region_cols) = true
    ∧ "PercentGenerationfromDesignatedFuelCategory" ∈ columns gen_df in
  "plant_id" ∈ columns (netl_scores netl_gen)
  ∧ "stage_code" ∈ columns (netl_scores netl_gen)
  ∧ ("PercentGenerationfromDesignatedFuelCategory"
     ∉ columns (netl_scores netl_gen))
  ∧ (forall out, get_alternate_gen_plus_netl = Ok out -> ready)
  ∧ (get_alternate_gen_plus_netl = Raise KeyError -> ¬ ready)
  ∧ (has_columns gen_df ("eGRID_ID" :: region_cols) = false ->
     get_alternate_gen_plus_netl = Raise KeyError).
Proof.
  intros Hmap ready. unfold Init.get_alternate_gen_plus_netl. rewrite Hmap.
  cbn [mbind Result_bind fst].
  apply concat_map_inv in Hmap
    as (u & fm & p & grp & sel & mapped & out' & _ & _ & _ & Hgrp & _ & _ & Hout & Hres).
  assert (out' = netl_gen) as ->.
  { destruct Hres as [[[= -> _] _]|(o & m & _ & _ & _ & ? & ? & _ & _ & [= -> _])];
      done. }
  pose proof (select_outcome (final_columns (columns p)) mapped) as Hs.
  rewrite Hout in Hs. destruct Hs as (_ & Hcols & _).
  rewrite (final_columns_of_grouped _ _ Hgrp) in Hcols.
  assert (Hnetl : columns (netl_scores netl_gen)
                  = add_column "ReliabilityScore"
                      (add_column "TechnologicalCorrelation"
                         (add_column "GeographicalCorrelation"
                            (add_column "DataCollection"
                               (mapped_columns
                                  (bool_decide ("Electricity" ∈ columns p))))))).
  { unfold netl_scores. cbn [assign columns]. by rewrite Hcols. }
  assert (Hin : forall c, c ∈ ["plant_id"; "stage_code"] ->
            c ∈ add_column "ReliabilityScore"
                  (add_column "TechnologicalCorrelation"
                     (add_column "GeographicalCorrelation"
                        (add_column "DataCollection"
                           (mapped_columns
                              (bool_decide ("Electricity" ∈ columns p))))))).
  { intros c Hc. rewrite !elem_of_add_column. do 4 right.
    unfold mapped_columns. apply elem_of_app. left.
    repeat (apply elem_of_cons in Hc as [->|Hc]);
      [..|by apply elem_of_nil in Hc]; by apply (bool_decide_unpack _). }
  assert (Hout' : "PercentGenerationfromDesignatedFuelCategory"
            ∉ add_column "ReliabilityScore"
                  (add_column "TechnologicalCorrelation"
                     (add_column "GeographicalCorrelation"
                        (add_column "DataCollection"
                           (mapped_columns
                              (bool_decide ("Electricity" ∈ columns p))))))).
  { rewrite !elem_of_add_column. unfold mapped_columns.
    destruct (bool_decide _); intros [H|[H|[H|[H|H]]]]; try discriminate H;
      revert H; by apply (bool_decide_unpack _). }
  rewrite <- Hnetl in Hin, Hout'.
  assert (Hready : combiner_ready gen_df (netl_scores netl_gen) <-> ready).
  { unfold combiner_ready, ready. split.
    - intros (H1 & _ & _ & [H4|H4]); [done|]. done.
    - intros [H1 H2]. split; [done|]. split; [apply Hin; by left|].
      split; [right; apply Hin; right; by left|by left]. }
  split; [apply Hin; by left|]. split; [apply Hin; right; by left|].
  split; [done|].
  match goal with
  | |- context [Combinator.concat_clean_upstream_and_plant _ _ _ _ _ _ ?a ?b] =>
      change b with (netl_scores netl_gen);
      pose proof (CombinerMoreProps.concat_clean_outcome plant_ba_State
                    ba_codes_BA_Name ba_codes_FERC_Region ba_codes_EIA_Region
                    keep_mixed_plant_category
                    min_plant_percent_generation_from_primary_fuel_category
                    a (netl_scores netl_gen)) as H;
      destruct (Combinator.concat_clean_upstream_and_plant _ _ _ _ _ _ a
                  (netl_scores netl_gen)) as [out|e]
  end.
  - split; [intros ? _; by apply Hready|]. split; [done|].
    intros Hno. apply Hready in H. destruct H as [H _]. congruence.
  - split; [done|]. destruct H as [[-> H]|[[-> H]|(-> & H & _)]].
    + split; [|done]. intros _ Hr. by apply H, Hready.
    + split; [done|]. intros Hno. apply Hready in H. destruct H as [H _].
      congruence.
    + split; [done|]. intros Hno. congruence.
Qed.

End Generation.
End GenerationProps.

(** ** The further properties on the worked examples *)

Module MoreWriterExamples.
Import Py Writer WriterSpec WriterMore Init Examples MoreExamples WriterMoreProps
  InitProps.

Lemma write_rejects_entry_that_is_no_dict_witness :
  write example_uuid3 example_repr example_not_dict = Raise TypeError
  ∧ _val (PStr "not a dict") ["exchanges"] (Some (PList [])) = PNone.
Proof.
  apply (write_rejects_entry_that_is_no_dict example_uuid3 example_repr
           example_not_dict "broken" (PStr "not a dict")).
  - right. left.
  - reflexivity.
Defined.

Lemma category_reference_holds_path_witness :
  exists r,
    (_category example_uuid3 example_repr (PStr "Utilities/Electric Power")
       PROCESS ([], ∅)).1 = Some r
    ∧ ref_type r = "Category"
    ∧ ref_id r = _uid example_uuid3 example_repr
                   (PStr <$> value PROCESS :: split "/" "Utilities/Electric Power")
    ∧ ref_name r
      = PStr (strip (List.last (split "/" "Utilities/Electric Power") EmptyString))
    ∧ join "/" <$> ref_category_path r = Some "Utilities/Electric Power".
Proof.
  apply (category_reference_holds_path example_uuid3 example_repr
           "Utilities/Electric Power" PROCESS ([], ∅)).
  vm_compute. discriminate.
Defined.

Lemma archive_references_resolved_witness :
  Forall (fun i =>
            match example_archive !! i with
            | Some e =>
                match entity_category e with
                | Some r => ref_id r ∈ category_ids (take i example_archive)
                | None => True
                end
            | None => True
            end) (seq 0 (length example_archive)).
Proof.
  apply Forall_forall. intros i _.
  assert (H : references_resolved example_archive).
  { apply (archive_references_resolved example_uuid3 example_repr
             example_processes example_archive).
    vm_compute. reflexivity. }
  destruct (example_archive !! i) as [e|] eqn:E; [|exact I].
  destruct (entity_category e) as [r|] eqn:Er; [|exact I].
  exact (H i e r E Er).
Defined.

Lemma one_process_record_per_entry_witness :
  mapM (process_record example_uuid3 example_repr) (example_processes.*2)
  = Some (process_records example_archive).
Proof.
  apply (one_process_record_per_entry example_uuid3 example_repr
           example_processes example_archive).
  vm_compute. reflexivity.
Defined.

Lemma later_dictionary_wins_witness :
  NoDup (foldl dict_merge [] example_dicts).*1
  ∧ mapM (process_record example_uuid3 example_repr)
      (foldl dict_merge [] example_dicts).*2
    = Some (process_records example_merged_archive).
Proof.
  destruct (later_dictionary_wins example_uuid3 example_repr example_dicts
              example_merged_archive) as (H1 & _ & H3).
  - apply (bool_decide_unpack _). vm_compute. exact I.
  - vm_compute. reflexivity.
  - split; [exact H1|exact H3].
Defined.
End MoreWriterExamples.

Module MoreFillExamples.
Import Pandas Combinator CombinatorSpec Examples MoreExamples FillMoreProps.

Lemma fill_nans_outcome_witness :
  ((fill_nans example_plant_ba_State example_no_egrid "FacilityID" ["NERC"] true).2
   = Raise KeyError
   <-> "FacilityID" ∉ columns example_no_egrid
       ∨ "eGRID_ID" ∉ columns example_no_egrid)
  ∧ (fill_nans example_plant_ba_State example_no_egrid "FacilityID" ["NERC"] true).1
    = fill_warnings example_no_egrid ["NERC"]
      ++ (if bool_decide ("FacilityID" ∈ columns example_no_egrid) then []
          else [key_warning "FacilityID"]).
Proof.
  destruct (fill_nans_outcome example_plant_ba_State example_no_egrid
              "FacilityID" ["NERC"] true) as (H1 & _ & _ & H4).
  - apply (bool_decide_unpack _). vm_compute. exact I.
  - split; [exact H1|exact H4].
Defined.


Lemma fill_nans_dropna_idempotent_witness :
  (fill_nans example_plant_ba_State example_filled "FacilityID" ["NERC"] true).2
  = Ok example_filled.
Proof.
  apply (fill_nans_dropna_idempotent example_plant_ba_State example_no_state
           "FacilityID" ["NERC"] example_filled).
  - apply (bool_decide_unpack _). vm_compute. exact I.
  - vm_compute. reflexivity.
Defined.
End MoreFillExamples.

Module MoreCombinerExamples.
Import Pandas Combinator CombinatorSpec CombinerSpec CombinerMore Examples
  MoreExamples CombinerMoreProps.

#[local] Existing Instance Binary64.reference.

Lemma returned_rows_belong_to_plants_witness :
  Forall (fun r : Row =>
            exists v p,
              r !! "eGRID_ID" = Some v
              ∧ r !! "FacilityID" = Some v
              ∧ p ∈ rows example_pl_df
              ∧ p !! "eGRID_ID" = Some v)
    (rows example_out).
Proof.
  apply Forall_forall. intros r Hr.
  apply (returned_rows_belong_to_plants example_plant_ba_State
           (example_ba_codes "BA_Name") (example_ba_codes "FERC_Region")
           (example_ba_codes "EIA_Region") true (Q2Qc (inject_Z 50))
           example_pl_df example_up_df example_out r).
  - vm_compute. reflexivity.
  - exact Hr.
Defined.

Lemma returned_rows_are_complete_witness :
  Forall (fun r : Row => complete filled_columns r = true) (rows example_out).
Proof.
  apply Forall_forall. intros r Hr.
  apply (returned_rows_are_complete example_plant_ba_State
           (example_ba_codes "BA_Name") (example_ba_codes "FERC_Region")
           (example_ba_codes "EIA_Region") true (Q2Qc (inject_Z 50))
           example_pl_df example_up_df example_out r).
  - vm_compute. reflexivity.
  - exact Hr.
Defined.

(** Plant ids that are strings against the numeric eGRID_ID of the plant
    table: the merge of the Combiner raises ValueError. *)
Lemma string_plant_ids_raise :
  concat_clean_upstream_and_plant example_plant_ba_State
    (example_ba_codes "BA_Name") (example_ba_codes "FERC_Region")
    (example_ba_codes "EIA_Region") true (Q2Qc (inject_Z 50))
    example_pl_df example_up_df_str
  = Raise ValueError.
Proof. vm_compute. reflexivity. Qed.
End MoreCombinerExamples.

Module MoreMapperExamples.
Import Pandas Combinator MapperSpec MapperMore Init Examples MoreExamples
  MapperMoreProps GenerationProps.

#[local] Existing Instance Binary64.reference.

Lemma mapped_rows_are_mapped_flows_witness :
  Forall (fun r : Row =>
            is_Some (r !! "FlowName")
            ∧ r !! "Source" = Some (VStr "netl")
            ∧ r !! "Year" = Some (VNum (Q2Qc (inject_Z 2016)))
            ∧ exists s,
                r !! "Compartment" = Some (VStr s)
                ∧ r !! "ElementaryFlowPrimeContext"
                  = Some (VStr (if Py.contains "resource" s
                                then "resource" else "emission")))
    (rows example_mapped_out).
Proof.
  apply Forall_forall. intros r Hr.
  apply (mapped_rows_are_mapped_flows example_flow_mapping 2016
           [ADataFrame example_upstream] ["group_name"] example_mapped_out
           (Some (example_unmatched, example_matched)) r).
  - vm_compute. reflexivity.
  - exact Hr.
Defined.

Lemma blank_unit_rows_are_not_grouped_witness :
  Forall (fun g : Row =>
            is_Some (g !! "Unit_orig")
            ∧ g !! "Unit" = g !! "Unit_orig"
            ∧ g !! "FlowName" = g !! "FlowName_orig" ≫= normal
            ∧ g !! "Compartment_path" = g !! "Compartment_path_orig" ≫= normal)
    (rows example_grp).
Proof.
  apply Forall_forall.
  destruct (blank_unit_rows_are_not_grouped example_concat example_prepared
              example_grp) as [_ H].
  - vm_compute. reflexivity.
  - vm_compute. reflexivity.
  - exact H.
Defined.

Lemma mapped_table_columns_witness :
  exists electricity : bool,
    columns example_mapped_out = mapped_columns electricity
    ∧ (electricity = true
       <-> some_frame_has [ADataFrame example_upstream] "Electricity")
    ∧ some_frame_has [ADataFrame example_upstream] "input".
Proof.
  apply (mapped_table_columns example_flow_mapping 2016
           [ADataFrame example_upstream] ["group_name"] example_mapped_out
           (Some (example_unmatched, example_matched))).
  vm_compute. reflexivity.
Defined.

Lemma unmatched_list_is_every_original_pair_witness :
  Forall (fun r : Row =>
            [r !! "FlowName_orig"; r !! "Compartment_path_orig"]
            ∈ example_unmatched)
    (rows example_prepared)
  ∧ Forall (fun k => length k = 6) example_matched.
Proof.
  destruct (unmatched_list_is_every_original_pair example_flow_mapping 2016
              [ADataFrame example_upstream] ["group_name"] example_concat
              example_prepared example_mapped_out example_unmatched
              example_matched) as (H1 & _ & H3).
  - vm_compute. reflexivity.
  - vm_compute. reflexivity.
  - vm_compute. reflexivity.
  - split.
    + apply Forall_forall. intros r Hr. apply H1. by exists r.
    + apply Forall_forall. exact H3.
Defined.

Lemma alternate_generation_needs_plant_columns_witness :
  "plant_id" ∈ columns (netl_scores example_netl)
  ∧ has_columns example_pl_df ("eGRID_ID" :: region_cols) = true
  ∧ "PercentGenerationfromDesignatedFuelCategory" ∈ columns example_pl_df.
Proof.
  destruct (alternate_generation_needs_plant_columns example_plant_ba_State
              (example_ba_codes "BA_Name") (example_ba_codes "FERC_Region")
              (example_ba_codes "EIA_Region") example_flow_mapping 2016 true
              (Q2Qc (inject_Z 50)) example_upstream example_upstream
              example_upstream example_pl_df example_netl None)
    as (H1 & _ & _ & H4 & _).
  - vm_compute. reflexivity.
  - split; [exact H1|].
    apply (H4 (frame_or_empty
                 (get_alternate_gen_plus_netl example_plant_ba_State
                    (example_ba_codes "BA_Name") (example_ba_codes "FERC_Region")
                    (example_ba_codes "EIA_Region") example_flow_mapping 2016
                    true (Q2Qc (inject_Z 50)) example_upstream example_upstream
                    example_upstream example_pl_df))).
    vm_compute. reflexivity.
Defined.

(** A row without a compartment path is in no group and is not mapped; in
    the diagnostics mode its pair, with NaN for the path, is in the list of
    unmatched flows. *)
Lemma unmatched_list_keeps_nan_pair :
  exists out matched,
    concat_map_upstream_databases example_flow_mapping 2016
      [ADataFrame example_upstream_air] ["group_name"]
    = Ok (out,
          Some ([ [Some (VStr "Carbon dioxide"); Some (VStr "emission/air")];
                  [Some (VStr "Methane"); None];
                  [Some (VStr "Unobtainium"); Some (VStr "emission/air")] ],
                matched)).
Proof. do 2 eexists. vm_compute. reflexivity. Qed.

(** When that row has the flow name of a row with a compartment path,
    [sorted] compares NaN with a string and the call raises TypeError. *)
Lemma unmatched_list_nan_against_string :
  concat_map_upstream_databases example_flow_mapping 2016
    [ADataFrame example_upstream_clash] ["group_name"]
  = Raise TypeError
  ∧ exists out,
      concat_map_upstream_databases example_flow_mapping 2016
        [ADataFrame example_upstream_clash] []
      = Ok (out, None).
Proof. split; [|eexists]; vm_compute; reflexivity. Qed.
End MoreMapperExamples.

